(** * Room planner: placement, collision, undo and arrangement

    A shallow embedding of the room store (the zustand store [useRoomStore],
    in src/components/app-sidebar.tsx), of the drag component
    [DraggableFurniture] (snapToGrid, clampPosition, checkCollision and the
    useDrag handler, in unnamed/part_002) and of [arrangeRow]
    (src/components/DetailEditMode.tsx).

    Numbers.  A JavaScript number is modelled by a rational [Q], and a
    variable of type [Q] ranges over more values than binary64 has, so what
    is proved for every [Q] holds for every finite double.  Grid snapping
    is modelled with the rounding of binary64: [double x] is the double
    nearest to [x] (53 significant bits, ties to even), every decimal
    constant and every multiplication and division of [snapToGrid] goes
    through it, and [Math.round] is exact.  Overflow to an infinity, NaN and
    the gradual underflow below 2^-1022 are outside the model; [x / 0] is
    [0] here, where JavaScript gives an infinity or NaN, and the statements
    about snapping assume a positive cell.  Everywhere else (clamping, the
    collision boxes, the arrangement presets) the decimal constants are
    exact rationals, [+ - * /] are the field operations and comparisons are
    [Qlt]/[Qle]: rounding error is not modelled there.  [Math.cos],
    [Math.sin] and [Math.PI] belong to the JavaScript runtime; they are
    taken as a parameter ([JsMath]) and
    nothing proved below depends on what they compute. *)

From Stdlib Require Import QArith Qabs Qminmax Qround Qpower.
From Stdlib Require Import ZArith String List Bool Lia Lqa.
From Stdlib Require Import Permutation Sorted.
Import ListNotations.

Open Scope Q_scope.

(** ** JavaScript arithmetic used by the source *)

Record JsMath : Type := {
  Math_PI : Q;
  Math_cos : Q -> Q;
  Math_sin : Q -> Q
}.

Definition Math_abs (x : Q) : Q := Qabs x.
Definition Math_max (x y : Q) : Q := Qmax x y.
Definition Math_min (x y : Q) : Q := Qmin x y.

(** [Math.round] rounds to the nearest integer, ties towards +infinity:
    it is [floor (x + 1/2)], computed exactly (the integer nearest to a
    double is a double). *)
Definition Math_round (x : Q) : Q := inject_Z (Qfloor (x + 0.5)).

(** *** binary64 rounding *)

(** [floor (log2 x)] of a positive rational: the exponent of its binade. *)
Definition ilog2 (x : Q) : Z :=
  let k := (Z.log2 (Qnum x) - Z.log2 (Zpos (Qden x)))%Z in
  if Qle_bool (2 ^ k) x then k else (k - 1)%Z.

(** The nearest integer, a tie going to the even one. *)
Definition round_half_even (x : Q) : Z :=
  let f := Qfloor x in
  match Qcompare (x - inject_Z f) (1 # 2) with
  | Lt => f
  | Gt => (f + 1)%Z
  | Eq => if Z.even f then f else (f + 1)%Z
  end.

(** The unit in the last place of a 53-bit significand at [x]. *)
Definition ulp (x : Q) : Q := 2 ^ (ilog2 (Qabs x) - 52).

(** The double nearest to [x]: what a decimal constant denotes and what
    [*] and [/] return for the exact result [x]. *)
Definition double (x : Q) : Q :=
  if Qeq_bool x 0 then 0
  else Qred (inject_Z (round_half_even (x / ulp x)) * ulp x).

(** The relative rounding error of binary64, 2^-53. *)
Definition u53 : Q := 1 # 9007199254740992.

(** [a < b] of the source, as a boolean. *)
Definition ltb (a b : Q) : bool := negb (Qle_bool b a).

(** [q || d] on a number that may be absent: [undefined] and [0] are falsy. *)
Definition num_or (q : option Q) (d : Q) : Q :=
  match q with
  | Some v => if Qeq_bool v 0 then d else v
  | None => d
  end.

(** ** Data model (roomStore) *)

Inductive BookOrientation : Type := upright | flat | faceout.

Record Dimensions : Type := {
  width : Q;
  height : Q;
  depth : Q
}.

Definition Position : Type := (Q * Q * Q)%type.

Definition px (p : Position) : Q := fst (fst p).
Definition py (p : Position) : Q := snd (fst p).
Definition pz (p : Position) : Q := snd p.

(** [FurnitureType] is a union of string literals; at run time a string. *)
Definition FurnitureType : Type := string.

Record FurnitureItem : Type := {
  id : string;
  type : FurnitureType;
  name : string;
  position : Position;
  rotation : Q;
  dimensions : Dimensions;
  color : string;
  orientation : option BookOrientation;
  spineColor : option string;
  sizeVariant : option Q
}.

Module Scanned.
Record PlacedScannedItem : Type := {
  id : string;
  makerspaceItemId : string;
  name : string;
  position : Position;
  rotation : Q;
  dimensions : Dimensions;
  blobUrl : string
}.
End Scanned.
Definition PlacedScannedItem : Type := Scanned.PlacedScannedItem.

Module Room.
Record RoomDimensions : Type := {
  width : Q;
  length : Q;
  height : Q
}.
End Room.
Definition RoomDimensions : Type := Room.RoomDimensions.

Inductive SelectedType : Type := sel_furniture | sel_scanned.

Definition Snapshot : Type := list FurnitureItem.

Record RoomState : Type := {
  roomDimensions : RoomDimensions;
  furniture : list FurnitureItem;
  scannedItems : list PlacedScannedItem;
  selectedId : option string;
  selectedType : option SelectedType;
  isDragging : bool;
  detailModeTarget : option string;
  undoStack : list Snapshot;
  canUndo : bool;
  gridSize : Q;
  showGrid : bool
}.

(** The store as [create] builds it. *)
Definition initialState : RoomState := {|
  roomDimensions := {| Room.width := 5; Room.length := 4; Room.height := 2.8 |};
  furniture := [];
  scannedItems := [];
  selectedId := None;
  selectedType := None;
  isDragging := false;
  detailModeTarget := None;
  undoStack := [];
  canUndo := false;
  gridSize := 0.1;
  showGrid := true
|}.

(** ** Record updates: [{ ...f, position }] and [set({ ... })] *)

Definition with_position (f : FurnitureItem) (p : Position) : FurnitureItem :=
  {| id := id f; type := type f; name := name f; position := p;
     rotation := rotation f; dimensions := dimensions f; color := color f;
     orientation := orientation f; spineColor := spineColor f;
     sizeVariant := sizeVariant f |}.

Definition with_rotation (f : FurnitureItem) (r : Q) : FurnitureItem :=
  {| id := id f; type := type f; name := name f; position := position f;
     rotation := r; dimensions := dimensions f; color := color f;
     orientation := orientation f; spineColor := spineColor f;
     sizeVariant := sizeVariant f |}.

Definition with_dimensions (f : FurnitureItem) (d : Dimensions) : FurnitureItem :=
  {| id := id f; type := type f; name := name f; position := position f;
     rotation := rotation f; dimensions := d; color := color f;
     orientation := orientation f; spineColor := spineColor f;
     sizeVariant := sizeVariant f |}.

Definition with_color (f : FurnitureItem) (c : string) : FurnitureItem :=
  {| id := id f; type := type f; name := name f; position := position f;
     rotation := rotation f; dimensions := dimensions f; color := c;
     orientation := orientation f; spineColor := spineColor f;
     sizeVariant := sizeVariant f |}.

Definition with_orientation (f : FurnitureItem) (o : BookOrientation)
  : FurnitureItem :=
  {| id := id f; type := type f; name := name f; position := position f;
     rotation := rotation f; dimensions := dimensions f; color := color f;
     orientation := Some o; spineColor := spineColor f;
     sizeVariant := sizeVariant f |}.

Definition with_id (f : FurnitureItem) (i : string) : FurnitureItem :=
  {| id := i; type := type f; name := name f; position := position f;
     rotation := rotation f; dimensions := dimensions f; color := color f;
     orientation := orientation f; spineColor := spineColor f;
     sizeVariant := sizeVariant f |}.

Definition set_furniture (st : RoomState) (fs : list FurnitureItem) : RoomState :=
  {| roomDimensions := roomDimensions st; furniture := fs;
     scannedItems := scannedItems st; selectedId := selectedId st;
     selectedType := selectedType st; isDragging := isDragging st;
     detailModeTarget := detailModeTarget st; undoStack := undoStack st;
     canUndo := canUndo st; gridSize := gridSize st; showGrid := showGrid st |}.

Definition set_scannedItems (st : RoomState) (ss : list PlacedScannedItem)
  : RoomState :=
  {| roomDimensions := roomDimensions st; furniture := furniture st;
     scannedItems := ss; selectedId := selectedId st;
     selectedType := selectedType st; isDragging := isDragging st;
     detailModeTarget := detailModeTarget st; undoStack := undoStack st;
     canUndo := canUndo st; gridSize := gridSize st; showGrid := showGrid st |}.

Definition set_selection (st : RoomState) (i : option string)
  (k : option SelectedType) : RoomState :=
  {| roomDimensions := roomDimensions st; furniture := furniture st;
     scannedItems := scannedItems st; selectedId := i;
     selectedType := k; isDragging := isDragging st;
     detailModeTarget := detailModeTarget st; undoStack := undoStack st;
     canUndo := canUndo st; gridSize := gridSize st; showGrid := showGrid st |}.

Definition set_undo (st : RoomState) (stack : list Snapshot) (can : bool)
  : RoomState :=
  {| roomDimensions := roomDimensions st; furniture := furniture st;
     scannedItems := scannedItems st; selectedId := selectedId st;
     selectedType := selectedType st; isDragging := isDragging st;
     detailModeTarget := detailModeTarget st; undoStack := stack;
     canUndo := can; gridSize := gridSize st; showGrid := showGrid st |}.

(** ** Store actions *)

Definition same_id (i : string) (f : FurnitureItem) : bool := String.eqb (id f) i.

(** [['book', 'book_stack', 'manga'].includes(type)]: the types that carry
    an orientation. *)
Definition isBookType (t : FurnitureType) : bool :=
  existsb (String.eqb t) ["book"; "book_stack"; "manga"]%string.

(** [s || d] on a string that may be absent: [undefined] and [""] are falsy. *)
Definition str_or (s : option string) (d : string) : string :=
  match s with
  | Some v => if String.eqb v "" then d else v
  | None => d
  end.

(** [addFurniture]. The identifier comes from [generateId] (clock and random
    source), the spine colour and size variant offered to a book from
    [getRandomSpineColor] and [getRandomSizeVariant]: the three are passed
    in. *)
Definition addFurniture (newId randomSpine : string) (randomVariant : Q)
  (item : FurnitureItem) (st : RoomState) : RoomState :=
  let newItem := with_id item newId in
  let newItem :=
    if isBookType (type item) then
      {| id := id newItem; type := type newItem; name := name newItem;
         position := position newItem; rotation := rotation newItem;
         dimensions := dimensions newItem; color := color newItem;
         orientation := Some (match orientation newItem with
                              | Some o => o
                              | None => upright
                              end);
         spineColor := Some (str_or (spineColor newItem) randomSpine);
         sizeVariant := Some (num_or (sizeVariant newItem) randomVariant) |}
    else newItem in
  set_furniture st (furniture st ++ [newItem]).

Definition removeFurniture (i : string) (st : RoomState) : RoomState :=
  set_selection
    (set_furniture st (filter (fun f => negb (same_id i f)) (furniture st)))
    (match selectedId st with
     | Some s => if String.eqb s i then None else Some s
     | None => None
     end)
    (selectedType st).

Definition updateFurniturePosition (i : string) (p : Position) (st : RoomState)
  : RoomState :=
  set_furniture st
    (map (fun f => if same_id i f then with_position f p else f) (furniture st)).

Definition updateFurnitureRotation (i : string) (r : Q) (st : RoomState)
  : RoomState :=
  set_furniture st
    (map (fun f => if same_id i f then with_rotation f r else f) (furniture st)).

Definition updateFurnitureDimensions (i : string) (d : Dimensions) (st : RoomState)
  : RoomState :=
  set_furniture st
    (map (fun f => if same_id i f then with_dimensions f d else f) (furniture st)).

Definition updateFurnitureColor (i : string) (c : string) (st : RoomState)
  : RoomState :=
  set_furniture st
    (map (fun f => if same_id i f then with_color f c else f) (furniture st)).

Definition updateFurnitureOrientation (i : string) (o : BookOrientation)
  (st : RoomState) : RoomState :=
  set_furniture st
    (map (fun f => if same_id i f then with_orientation f o else f) (furniture st)).

Definition scanned_with_position (s : PlacedScannedItem) (p : Position)
  : PlacedScannedItem :=
  {| Scanned.id := Scanned.id s;
     Scanned.makerspaceItemId := Scanned.makerspaceItemId s;
     Scanned.name := Scanned.name s; Scanned.position := p;
     Scanned.rotation := Scanned.rotation s;
     Scanned.dimensions := Scanned.dimensions s;
     Scanned.blobUrl := Scanned.blobUrl s |}.

Definition updateScannedItemPosition (i : string) (p : Position) (st : RoomState)
  : RoomState :=
  set_scannedItems st
    (map (fun s => if String.eqb (Scanned.id s) i
                   then scanned_with_position s p else s)
         (scannedItems st)).

(** [setSelectedId(id, type = 'furniture')] stores [id ? type : null] as the
    selected type: the empty string is falsy like [null]. *)
Definition setSelectedId (i : option string) (k : SelectedType) (st : RoomState)
  : RoomState :=
  set_selection st i
    (match i with
     | Some s => if String.eqb s "" then None else Some k
     | None => None
     end).

Definition setIsDragging (dragging : bool) (st : RoomState) : RoomState :=
  {| roomDimensions := roomDimensions st; furniture := furniture st;
     scannedItems := scannedItems st; selectedId := selectedId st;
     selectedType := selectedType st; isDragging := dragging;
     detailModeTarget := detailModeTarget st; undoStack := undoStack st;
     canUndo := canUndo st; gridSize := gridSize st; showGrid := showGrid st |}.

Definition setDetailModeTarget (i : option string) (st : RoomState) : RoomState :=
  {| roomDimensions := roomDimensions st; furniture := furniture st;
     scannedItems := scannedItems st; selectedId := selectedId st;
     selectedType := selectedType st; isDragging := isDragging st;
     detailModeTarget := i; undoStack := undoStack st;
     canUndo := canUndo st; gridSize := gridSize st; showGrid := showGrid st |}.

(** ** Undo *)

(** [arr.slice(-n)]: the last [n] elements, the whole array when it is shorter. *)
Definition slice_last {A : Type} (n : nat) (l : list A) : list A :=
  skipn (List.length l - n) l.

(** [JSON.parse(JSON.stringify(furniture))]: a deep copy. Values are
    immutable here, so the copy is the value itself. *)
Definition deep_clone (fs : list FurnitureItem) : Snapshot := fs.

Definition saveForUndo (st : RoomState) : RoomState :=
  let snapshot := deep_clone (furniture st) in
  let newStack := slice_last 20 (undoStack st ++ [snapshot]) in
  set_undo st newStack true.

(** [newStack.pop()] removes and returns the last element. *)
Definition pop {A : Type} (l : list A) : option A * list A :=
  (last (map Some l) None, removelast l).

Definition undo (st : RoomState) : RoomState :=
  if Nat.eqb (List.length (undoStack st)) 0 then st
  else
    let '(previousState, newStack) := pop (undoStack st) in
    set_undo
      (set_furniture st (match previousState with
                         | Some fs => fs
                         | None => furniture st
                         end))
      newStack
      (negb (Nat.eqb (List.length newStack) 0)).

(** Every mutating store action the editor offers on furniture. *)
Inductive Action : Type :=
| AddFurniture (newId randomSpine : string) (randomVariant : Q)
    (item : FurnitureItem)
| RemoveFurniture (i : string)
| UpdateFurniturePosition (i : string) (p : Position)
| UpdateFurnitureRotation (i : string) (r : Q)
| UpdateFurnitureDimensions (i : string) (d : Dimensions)
| UpdateFurnitureColor (i : string) (c : string)
| UpdateFurnitureOrientation (i : string) (o : BookOrientation).

Definition perform (a : Action) (st : RoomState) : RoomState :=
  match a with
  | AddFurniture newId spine variant item =>
      addFurniture newId spine variant item st
  | RemoveFurniture i => removeFurniture i st
  | UpdateFurniturePosition i p => updateFurniturePosition i p st
  | UpdateFurnitureRotation i r => updateFurnitureRotation i r st
  | UpdateFurnitureDimensions i d => updateFurnitureDimensions i d st
  | UpdateFurnitureColor i c => updateFurnitureColor i c st
  | UpdateFurnitureOrientation i o => updateFurnitureOrientation i o st
  end.

(** The callers' pattern [saveForUndo(); action(...)], once per action. *)
Fixpoint edit (acts : list Action) (st : RoomState) : RoomState :=
  match acts with
  | [] => st
  | a :: rest => edit rest (perform a (saveForUndo st))
  end.

(** The furniture value each [saveForUndo] of [edit] captures, oldest first. *)
Fixpoint snapshots (acts : list Action) (st : RoomState) : list Snapshot :=
  match acts with
  | [] => []
  | a :: rest => deep_clone (furniture st) :: snapshots rest (perform a (saveForUndo st))
  end.

Fixpoint undo_times (n : nat) (st : RoomState) : RoomState :=
  match n with
  | O => st
  | S k => undo_times k (undo st)
  end.

(** Anything that can happen to the undo stack, in any order. *)
Inductive StoreOp : Type :=
| OpSaveForUndo
| OpUndo
| OpAction (a : Action).

Definition run_op (o : StoreOp) (st : RoomState) : RoomState :=
  match o with
  | OpSaveForUndo => saveForUndo st
  | OpUndo => undo st
  | OpAction a => perform a st
  end.

Definition run_ops (ops : list StoreOp) (st : RoomState) : RoomState :=
  fold_left (fun s o => run_op o s) ops st.

(** ** DraggableFurniture: snapping, clamping, collision *)

Definition smallTypes : list string :=
  ["book"; "book_stack"; "manga"; "gojo_manga"; "kaws_figure";
   "murakami_flower"; "picture_frame"; "vase"; "lamp_small"; "clock";
   "trophy"; "plant"]%string.

(** [smallTypes.includes(type)]. *)
Definition isSmallItem (t : string) : bool := existsb (String.eqb t) smallTypes.

(** The cell of the fine grid: 5 mm for a small item, a quarter of the
    grid size otherwise. *)
Definition fineGrid (gridSize : Q) (item : FurnitureItem) : Q :=
  let isSmall := isSmallItem (type item) in
  if isSmall then double 0.005 else double (gridSize / 4).

(** [Math.round(value / fineGrid) * fineGrid], the quotient and the product
    each rounded to a double. *)
Definition snapToGrid (gridSize : Q) (item : FurnitureItem) (value : Q) : Q :=
  let fineGrid := fineGrid gridSize item in
  double (Math_round (double (value / fineGrid)) * fineGrid).

Record Box : Type := {
  minX : Q; maxX : Q;
  minY : Q; maxY : Q;
  minZ : Q; maxZ : Q
}.

(** The six-way test of the source: open intervals must meet on x, y and z. *)
Definition boxes_overlap (myBox otherBox : Box) : bool :=
  ltb (minX myBox) (maxX otherBox) && ltb (minX otherBox) (maxX myBox) &&
  ltb (minY myBox) (maxY otherBox) && ltb (minY otherBox) (maxY myBox) &&
  ltb (minZ myBox) (maxZ otherBox) && ltb (minZ otherBox) (maxZ myBox).

Definition shrink_factor (small : bool) : Q := if small then 0.5 else 0.95.

Section Geometry.
Variable M : JsMath.

(** [(deg * Math.PI) / 180], then [Math.abs(Math.cos(..))] and the same for sin. *)
Definition radians (deg : Q) : Q := deg * Math_PI M / 180.
Definition abs_cos (deg : Q) : Q := Math_abs (Math_cos M (radians deg)).
Definition abs_sin (deg : Q) : Q := Math_abs (Math_sin M (radians deg)).

Definition clampPosition (room : RoomDimensions) (item : FurnitureItem) (x z : Q)
  : Q * Q :=
  let halfWidth := width (dimensions item) / 2 in
  let halfDepth := depth (dimensions item) / 2 in
  let roomHalfWidth := Room.width room / 2 in
  let roomHalfLength := Room.length room / 2 in
  let cos := abs_cos (rotation item) in
  let sin := abs_sin (rotation item) in
  let effectiveHalfWidth := halfWidth * cos + halfDepth * sin in
  let effectiveHalfDepth := halfWidth * sin + halfDepth * cos in
  let clampedX := Math_max (- roomHalfWidth + effectiveHalfWidth)
                           (Math_min (roomHalfWidth - effectiveHalfWidth) x) in
  let clampedZ := Math_max (- roomHalfLength + effectiveHalfDepth)
                           (Math_min (roomHalfLength - effectiveHalfDepth) z) in
  (clampedX, clampedZ).

(** The box [checkCollision] builds for an item of the given type, rotation
    and dimensions standing at [(x, y, z)]: [myBox] for the dragged item at
    the candidate position, [otherBox] for another item where it stands. *)
Definition effectiveWidth (f : FurnitureItem) : Q :=
  (width (dimensions f) * abs_cos (rotation f)
   + depth (dimensions f) * abs_sin (rotation f))
  * shrink_factor (isSmallItem (type f)).

Definition effectiveDepth (f : FurnitureItem) : Q :=
  (width (dimensions f) * abs_sin (rotation f)
   + depth (dimensions f) * abs_cos (rotation f))
  * shrink_factor (isSmallItem (type f)).

Definition collisionBox (f : FurnitureItem) (x y z : Q) : Box :=
  {| minX := x - effectiveWidth f / 2;
     maxX := x + effectiveWidth f / 2;
     minY := y;
     maxY := y + height (dimensions f) * shrink_factor (isSmallItem (type f));
     minZ := z - effectiveDepth f / 2;
     maxZ := z + effectiveDepth f / 2 |}.

Definition otherBox (other : FurnitureItem) : Box :=
  collisionBox other (px (position other)) (py (position other))
               (pz (position other)).

(** [isInDetailMode && other.id === detailModeTarget]. *)
Definition is_detail_target (target : option string) (other : FurnitureItem)
  : bool :=
  match target with
  | Some t => String.eqb (id other) t
  | None => false
  end.

(** The [for (const other of furniture)] loop with its three [continue]s and
    its early [return true]. *)
Fixpoint collision_loop (item : FurnitureItem) (myBox : Box)
  (target : option string) (others : list FurnitureItem) : bool :=
  match others with
  | [] => false
  | other :: rest =>
      if String.eqb (id other) (id item) then
        collision_loop item myBox target rest
      else if is_detail_target target other then
        collision_loop item myBox target rest
      else if isSmallItem (type item) && isSmallItem (type other) then
        collision_loop item myBox target rest
      else if boxes_overlap myBox (otherBox other) then true
      else collision_loop item myBox target rest
  end.

Definition checkCollision (st : RoomState) (item : FurnitureItem) (x y z : Q)
  : bool :=
  collision_loop item (collisionBox item x y z) (detailModeTarget st)
                 (furniture st).

(** ** The useDrag handler *)

Record Memo : Type := { startPos : Position }.

(** What the handler can change: the store, the component's two [useState]
    cells, and the number of times [playPlaceSound] has been called. *)
Record World : Type := {
  store : RoomState;
  draggingLocal : bool;
  hasCollision : bool;
  placeSounds : nat
}.

(** [furniture.find(f => f.id === detailModeTarget)] when in detail mode. *)
Definition targetFurniture (st : RoomState) : option FurnitureItem :=
  match detailModeTarget st with
  | Some t => find (same_id t) (furniture st)
  | None => None
  end.

(** The detail-mode branch of the handler: clamp to the target's extents. *)
Definition clampToTarget (tf item : FurnitureItem) (x z : Q) : Q * Q :=
  let halfW := width (dimensions tf) / 2 - width (dimensions item) / 2 - 0.02 in
  let halfD := depth (dimensions tf) / 2 - depth (dimensions item) / 2 - 0.02 in
  (Math_max (px (position tf) - halfW) (Math_min (px (position tf) + halfW) x),
   Math_max (pz (position tf) - halfD) (Math_min (pz (position tf) + halfD) z)).

(** The position a pointer-move writes, from the ray hit [(x, z)]. *)
Definition movePosition (st : RoomState) (item : FurnitureItem) (hit : Q * Q)
  : Position :=
  let currentY := py (position item) in
  let newX := snapToGrid (gridSize st) item (fst hit) in
  let newZ := snapToGrid (gridSize st) item (snd hit) in
  let '(newX, newZ) :=
    match targetFurniture st with
    | Some tf => clampToTarget tf item newX newZ
    | None => clampPosition (roomDimensions st) item newX newZ
    end in
  (newX, currentY, newZ).

(** One call of the handler for the component rendering [item]. [active],
    [first] and [memo] come from the gesture library; [hit] is what
    [findPositionAtHeight] returned for the pointer. The result is the new
    world and the value returned to the library, its next [memo]. *)
Definition dragHandler (item : FurnitureItem) (active first : bool)
  (memo : option Memo) (hit : option (Q * Q)) (w : World)
  : World * option Memo :=
  if first then
    ({| store := setSelectedId (Some (id item)) sel_furniture
                   (setIsDragging true (store w));
        draggingLocal := true;
        hasCollision := hasCollision w;
        placeSounds := placeSounds w |},
     Some {| startPos := position item |})
  else if negb active then
    let collision :=
      checkCollision (store w) item (px (position item)) (py (position item))
                     (pz (position item)) in
    let '(st1, sounds1) :=
      match collision, memo with
      | true, Some m =>
          (updateFurniturePosition (id item) (startPos m) (store w),
           placeSounds w)
      | _, _ => (store w, S (placeSounds w))
      end in
    ({| store := setIsDragging false st1;
        draggingLocal := false;
        hasCollision := false;
        placeSounds := sounds1 |},
     memo)
  else
    match hit with
    | Some pos =>
        let p := movePosition (store w) item pos in
        ({| store := updateFurniturePosition (id item) p (store w);
            draggingLocal := draggingLocal w;
            hasCollision := checkCollision (store w) item (px p) (py p) (pz p);
            placeSounds := placeSounds w |},
         memo)
    | None => (w, memo)
    end.

(** The component is rendered from the store: its [item] prop is the entry
    of [furniture] it was keyed on. *)
Definition rendered (st : RoomState) (i : string) : option FurnitureItem :=
  find (same_id i) (furniture st).

(** A gesture on the item [i]: pointer-down, then the pointer-moves with
    their ray hits. Each event reaches the handler of the current render;
    an item that left the store has no component and handles nothing. *)
Fixpoint dragMoves (i : string) (memo : option Memo)
  (hits : list (option (Q * Q))) (w : World) : World * option Memo :=
  match hits with
  | [] => (w, memo)
  | hit :: rest =>
      match rendered (store w) i with
      | Some item =>
          let '(w1, memo1) := dragHandler item true false memo hit w in
          dragMoves i memo1 rest w1
      | None => (w, memo)
      end
  end.

Definition dragStart (item : FurnitureItem) (w : World) : World * option Memo :=
  dragHandler item true true None None w.

Definition dragEnd (item : FurnitureItem) (memo : option Memo) (w : World)
  : World * option Memo :=
  dragHandler item false false memo None w.

End Geometry.

(** ** DetailEditMode: arranging the books of a host in a row *)

(** [furniture.find(f => f.id === detailModeTarget)]. *)
Definition hostFurniture (st : RoomState) : option FurnitureItem :=
  match detailModeTarget st with
  | Some t => find (same_id t) (furniture st)
  | None => None
  end.

Definition nearHost (host f : FurnitureItem) : bool :=
  let dx := Math_abs (px (position f) - px (position host)) in
  let dz := Math_abs (pz (position f) - pz (position host)) in
  let maxRange :=
    Math_max (width (dimensions host)) (depth (dimensions host)) / 2 + 0.1 in
  ltb dx maxRange && ltb dz maxRange.

Definition getBooksOnFurniture (st : RoomState) : list FurnitureItem :=
  match hostFurniture st with
  | None => []
  | Some host =>
      filter (fun f => if negb (isBookType (type f)) then false
                       else nearHost host f)
             (furniture st)
  end.

(** Spine width when upright: [book.dimensions.depth * (book.sizeVariant || 1)]. *)
Definition bookWidth (book : FurnitureItem) : Q :=
  depth (dimensions book) * num_or (sizeVariant book) 1.

(** One turn of [books.forEach]: the running [currentX] and the store. *)
Definition arrangeRow_step (baseY centerZ : Q) (acc : Q * RoomState)
  (book : FurnitureItem) : Q * RoomState :=
  let '(currentX, st) := acc in
  let st1 := updateFurniturePosition (id book)
               (currentX + bookWidth book / 2, baseY, centerZ) st in
  let st2 := updateFurnitureOrientation (id book) upright st1 in
  (currentX + bookWidth book + 0.005, st2).

Definition arrangeRow (st : RoomState) : RoomState :=
  match hostFurniture st with
  | None => st
  | Some host =>
      let books := getBooksOnFurniture st in
      if (List.length books <? 1)%nat then st
      else
        let st0 := saveForUndo st in
        let startX := px (position host) - width (dimensions host) / 2 + 0.05 in
        let baseY := py (position host) + 0.02 in
        let centerZ := pz (position host) in
        snd (fold_left (arrangeRow_step baseY centerZ) books (startX, st0))
  end.

(** ** importRoom *)

Module ImportRoom.

(** A property read off the parsed document: present or [undefined]. *)
Inductive field (A : Type) : Type :=
| undefined
| present (a : A).
Arguments undefined {A}.
Arguments present {A} a.

(** The four top-level properties [importRoom] reads. *)
Record Document : Type := {
  data_roomDimensions : field RoomDimensions;
  data_furniture : field (list FurnitureItem);
  data_scannedItems : field (list PlacedScannedItem);
  data_gridSize : field Q
}.

(** What [JSON.parse(json)] does: throw, return [null] (reading a property
    of it throws), or return a value whose properties can be read. *)
Inductive Parsed : Type :=
| SyntaxError
| parsed_null
| parsed (data : Document).

(** The object [{}]: none of the four properties. *)
Definition empty_document : Document :=
  {| data_roomDimensions := undefined; data_furniture := undefined;
     data_scannedItems := undefined; data_gridSize := undefined |}.

(** The part of the live state [importRoom] writes, as the store holds it at
    run time: after [set] a property holds whatever value it was given,
    [undefined] included. *)
Record Live : Type := {
  live_roomDimensions : field RoomDimensions;
  live_furniture : field (list FurnitureItem);
  live_scannedItems : list PlacedScannedItem;
  live_gridSize : Q;
  live_selectedId : option string;
  live_selectedType : option SelectedType
}.

Definition live (st : RoomState) : Live :=
  {| live_roomDimensions := present (roomDimensions st);
     live_furniture := present (furniture st);
     live_scannedItems := scannedItems st;
     live_gridSize := gridSize st;
     live_selectedId := selectedId st;
     live_selectedType := selectedType st |}.

(** [importRoom], from the outcome of [JSON.parse(json)] on: the result flag
    and the live state afterwards. *)
Definition importRoom (data : Parsed) (l : Live) : bool * Live :=
  match data with
  | SyntaxError => (false, l)
  | parsed_null => (false, l)
  | parsed d =>
      (true,
       {| live_roomDimensions := data_roomDimensions d;
          live_furniture := data_furniture d;
          live_scannedItems := match data_scannedItems d with
                               | present s => s
                               | undefined => []
                               end;
          live_gridSize := match data_gridSize d with
                           | present g => if Qeq_bool g 0 then 0.25 else g
                           | undefined => 0.25
                           end;
          live_selectedId := None;
          live_selectedType := None |})
  end.

(** The document is missing a required top-level field. *)
Definition missing_required (d : Document) : bool :=
  match data_roomDimensions d, data_furniture d with
  | present _, present _ => false
  | _, _ => true
  end.

End ImportRoom.

(** ** Specification-side predicates for the collision check *)

(** An item the loop of [checkCollision] gets to test against the dragged
    one: not the dragged item itself, not the detail-mode target, and not a
    small item when the dragged one is small. *)
Definition eligible (target : option string) (item other : FurnitureItem)
  : bool :=
  negb (String.eqb (id other) (id item)) &&
  negb (is_detail_target target other) &&
  negb (isSmallItem (type item) && isSmallItem (type other)).

(** Two boxes overlap on the x axis, on the y axis and on the z axis. *)
Definition overlap_on_all_axes (a b : Box) : Prop :=
  (minX a < maxX b /\ minX b < maxX a) /\
  (minY a < maxY b /\ minY b < maxY a) /\
  (minZ a < maxZ b /\ minZ b < maxZ a).

(** What excludes [other] from the test against the dragged [item], each
    exclusion written out: it is the dragged item itself; the editor is in
    detail-edit mode and it is the host; both items are small-class. *)
Definition excluded (st : RoomState) (item other : FurnitureItem) : Prop :=
  id other = id item \/
  detailModeTarget st = Some (id other) \/
  (isSmallItem (type item) = true /\ isSmallItem (type other) = true).

(** ** Specification-side predicates for clamping and for the row *)

(** The collision box of [item] standing at [p] lies, in x and z, inside the
    rectangle centred on [(cx, cz)] with half-extents [halfW] and [halfD]. *)
Definition footprint_inside (M : JsMath) (item : FurnitureItem) (p : Position)
  (cx cz halfW halfD : Q) : Prop :=
  let b := collisionBox M item (px p) (py p) (pz p) in
  cx - halfW <= minX b /\ maxX b <= cx + halfW /\
  cz - halfD <= minZ b /\ maxZ b <= cz + halfD.

(** Half of the rotation-projected width and depth, as [clampPosition]
    computes them (no shrink factor). *)
Definition effectiveHalfWidth (M : JsMath) (f : FurnitureItem) : Q :=
  width (dimensions f) / 2 * abs_cos M (rotation f)
  + depth (dimensions f) / 2 * abs_sin M (rotation f).

Definition effectiveHalfDepth (M : JsMath) (f : FurnitureItem) : Q :=
  width (dimensions f) / 2 * abs_sin M (rotation f)
  + depth (dimensions f) / 2 * abs_cos M (rotation f).

(** Spine widths and gaps of the first [k] books of a row. *)
Fixpoint row_offset (books : list FurnitureItem) (k : nat) : Q :=
  match k, books with
  | S k', b :: rest => bookWidth b + 0.005 + row_offset rest k'
  | _, _ => 0
  end.

(** What the turns of [arrangeRow]'s loop for [books], started at
    [currentX], do to one entry of the furniture list. *)
Fixpoint row_entry (baseY centerZ currentX : Q) (books : list FurnitureItem)
  (f : FurnitureItem) : FurnitureItem :=
  match books with
  | [] => f
  | book :: rest =>
      row_entry baseY centerZ (currentX + bookWidth book + 0.005) rest
        (let f1 := if same_id (id book) f
                   then with_position f
                          (currentX + bookWidth book / 2, baseY, centerZ)
                   else f in
         if same_id (id book) f1 then with_orientation f1 upright else f1)
  end.

(** ** Concrete scenes for the examples *)

(** A stand-in for the runtime's [Math] functions, used only to evaluate
    examples whose items have rotation 0, where it agrees with them:
    the polynomials below give cos 0 = 1 and sin 0 = 0. *)
Definition example_math : JsMath :=
  {| Math_PI := 3.141592653589793;
     Math_cos := fun x => 1 - x * x / 2 + x * x * x * x / 24;
     Math_sin := fun x => x - x * x * x / 6 |}.

(** An unrotated catalog item: identifier, type, width, height, depth, position. *)
Definition catalog_item (i t : string) (w h d : Q) (p : Position)
  : FurnitureItem :=
  {| id := i; type := t; name := t; position := p; rotation := 0;
     dimensions := {| width := w; height := h; depth := d |};
     color := "#8b5a2b"; orientation := None; spineColor := None;
     sizeVariant := None |}.

Definition chair_a : FurnitureItem := catalog_item "a" "chair" 0.5 0.9 0.5 (0, 0, 0).

(** The default room with one chair in the middle, nothing to undo. *)
Definition chair_scene : RoomState :=
  addFurniture "a" "#1a1a2e" 1 chair_a initialState.

(** Sliding the chair to x = 1, 2, ..., n, one action each. *)
Definition slide_chair (n : nat) : list Action :=
  map (fun k => UpdateFurniturePosition "a" (inject_Z (Z.of_nat k), 0, 0))
      (seq 1 n).

(** The default room with a queen bed at the origin and a desk standing
    clear of it at (2, 0, 1). *)
Definition bed_A : FurnitureItem := catalog_item "A" "bed" 1.6 0.5 2.0 (0, 0, 0).
Definition desk_B : FurnitureItem := catalog_item "B" "desk" 1.2 0.75 0.6 (2, 0, 1).

Definition bedroom : RoomState :=
  addFurniture "B" "#1a1a2e" 1 desk_B
    (addFurniture "A" "#1a1a2e" 1 bed_A initialState).

Definition world_of (st : RoomState) : World :=
  {| store := st; draggingLocal := false; hasCollision := false;
     placeSounds := 0 |}.

(** Two books, one on top of the other, and nothing else. *)
Definition book_1 : FurnitureItem := catalog_item "b1" "book" 0.15 0.22 0.03 (0, 0, 0).
Definition book_2 : FurnitureItem := catalog_item "b2" "book" 0.15 0.22 0.03 (0, 0, 0).
Definition two_books : RoomState :=
  set_furniture initialState [book_1; book_2].

(** Detail-edit mode on a bookshelf at the origin, with a plant on it. *)
Definition shelf_S : FurnitureItem :=
  catalog_item "S" "bookshelf" 0.8 1.2 0.3 (0, 0, 0).
Definition plant_P : FurnitureItem :=
  catalog_item "P" "plant" 0.4 1.0 0.4 (0, 1.2, 0).

Definition shelf_with_plant : RoomState :=
  setDetailModeTarget (Some "S"%string)
    (addFurniture "P" "#1a1a2e" 1 plant_P
       (addFurniture "S" "#1a1a2e" 1 shelf_S initialState)).

(** Detail-edit mode on the same bookshelf with five books lying around. *)
Definition book_at (i : string) (x z : Q) (variant : option Q) : FurnitureItem :=
  {| id := i; type := "book"%string; name := "Book"%string;
     position := (x, 0.4, z);
     rotation := 0;
     dimensions := {| width := 0.15; height := 0.22; depth := 0.03 |};
     color := "#8B4513"%string; orientation := Some flat; spineColor := None;
     sizeVariant := variant |}.

Definition five_books : list FurnitureItem :=
  [book_at "k1" 0.2 0.05 None; book_at "k2" (-0.1) 0 (Some 1.1);
   book_at "k3" 0 0.1 (Some 0.9); book_at "k4" 0.3 (-0.05) None;
   book_at "k5" (-0.3) 0 (Some 1)].

Definition shelf_with_books : RoomState :=
  setDetailModeTarget (Some "S"%string)
    (set_furniture initialState (shelf_S :: five_books)).

(** The same bookshelf with two books that share an identifier, as an
    imported document can hold them. *)
Definition shelf_with_twins : RoomState :=
  setDetailModeTarget (Some "S"%string)
    (set_furniture initialState
       [shelf_S; book_at "k1" 0.2 0.05 None; book_at "k1" (-0.1) 0 None]).

(** ** The rest of the store *)

Definition with_spineColor (f : FurnitureItem) (c : string) : FurnitureItem :=
  {| id := id f; type := type f; name := name f; position := position f;
     rotation := rotation f; dimensions := dimensions f; color := color f;
     orientation := orientation f; spineColor := Some c;
     sizeVariant := sizeVariant f |}.

Definition updateFurnitureSpineColor (i : string) (c : string) (st : RoomState)
  : RoomState :=
  set_furniture st
    (map (fun f => if same_id i f then with_spineColor f c else f) (furniture st)).

Definition scanned_with_id (s : PlacedScannedItem) (i : string)
  : PlacedScannedItem :=
  {| Scanned.id := i;
     Scanned.makerspaceItemId := Scanned.makerspaceItemId s;
     Scanned.name := Scanned.name s; Scanned.position := Scanned.position s;
     Scanned.rotation := Scanned.rotation s;
     Scanned.dimensions := Scanned.dimensions s;
     Scanned.blobUrl := Scanned.blobUrl s |}.

Definition scanned_with_rotation (s : PlacedScannedItem) (r : Q)
  : PlacedScannedItem :=
  {| Scanned.id := Scanned.id s;
     Scanned.makerspaceItemId := Scanned.makerspaceItemId s;
     Scanned.name := Scanned.name s; Scanned.position := Scanned.position s;
     Scanned.rotation := r;
     Scanned.dimensions := Scanned.dimensions s;
     Scanned.blobUrl := Scanned.blobUrl s |}.

(** [addScannedItem]: the identifier comes from [generateId]. *)
Definition addScannedItem (newId : string) (item : PlacedScannedItem)
  (st : RoomState) : RoomState :=
  set_scannedItems st (scannedItems st ++ [scanned_with_id item newId]).

Definition is_selected (st : RoomState) (i : string) : bool :=
  match selectedId st with
  | Some s => String.eqb s i
  | None => false
  end.

Definition removeScannedItem (i : string) (st : RoomState) : RoomState :=
  set_selection
    (set_scannedItems st
       (filter (fun s => negb (String.eqb (Scanned.id s) i)) (scannedItems st)))
    (if is_selected st i then None else selectedId st)
    (if is_selected st i then None else selectedType st).

Definition updateScannedItemRotation (i : string) (r : Q) (st : RoomState)
  : RoomState :=
  set_scannedItems st
    (map (fun s => if String.eqb (Scanned.id s) i
                   then scanned_with_rotation s r else s)
         (scannedItems st)).

Definition setGridSize (size : Q) (st : RoomState) : RoomState :=
  {| roomDimensions := roomDimensions st; furniture := furniture st;
     scannedItems := scannedItems st; selectedId := selectedId st;
     selectedType := selectedType st; isDragging := isDragging st;
     detailModeTarget := detailModeTarget st; undoStack := undoStack st;
     canUndo := canUndo st; gridSize := size; showGrid := showGrid st |}.

Definition toggleGrid (st : RoomState) : RoomState :=
  {| roomDimensions := roomDimensions st; furniture := furniture st;
     scannedItems := scannedItems st; selectedId := selectedId st;
     selectedType := selectedType st; isDragging := isDragging st;
     detailModeTarget := detailModeTarget st; undoStack := undoStack st;
     canUndo := canUndo st; gridSize := gridSize st;
     showGrid := negb (showGrid st) |}.

Definition clearRoom (st : RoomState) : RoomState :=
  set_selection (set_scannedItems (set_furniture st []) []) None None.

(** Every store action that is neither [saveForUndo] nor [undo]. *)
Inductive PlainAction : Type :=
| OnFurniture (a : Action)
| UpdateFurnitureSpineColor (i c : string)
| AddScannedItem (newId : string) (item : PlacedScannedItem)
| RemoveScannedItem (i : string)
| UpdateScannedItemPosition (i : string) (p : Position)
| UpdateScannedItemRotation (i : string) (r : Q)
| SetSelectedId (i : option string) (k : SelectedType)
| SetIsDragging (dragging : bool)
| SetDetailModeTarget (i : option string)
| SetGridSize (size : Q)
| ToggleGrid
| ClearRoom.

Definition perform_plain (a : PlainAction) (st : RoomState) : RoomState :=
  match a with
  | OnFurniture a => perform a st
  | UpdateFurnitureSpineColor i c => updateFurnitureSpineColor i c st
  | AddScannedItem newId item => addScannedItem newId item st
  | RemoveScannedItem i => removeScannedItem i st
  | UpdateScannedItemPosition i p => updateScannedItemPosition i p st
  | UpdateScannedItemRotation i r => updateScannedItemRotation i r st
  | SetSelectedId i k => setSelectedId i k st
  | SetIsDragging d => setIsDragging d st
  | SetDetailModeTarget i => setDetailModeTarget i st
  | SetGridSize g => setGridSize g st
  | ToggleGrid => toggleGrid st
  | ClearRoom => clearRoom st
  end.

(** A session at the store: snapshots, undos and plain actions in any order. *)
Inductive SessionOp : Type :=
| DoSaveForUndo
| DoUndo
| Do (a : PlainAction).

Definition session_step (st : RoomState) (o : SessionOp) : RoomState :=
  match o with
  | DoSaveForUndo => saveForUndo st
  | DoUndo => undo st
  | Do a => perform_plain a st
  end.

Definition session (ops : list SessionOp) (st : RoomState) : RoomState :=
  fold_left session_step ops st.

(** The page's Ctrl+Z handler: [if (canUndo) undo()]. *)
Definition handleUndoKey (st : RoomState) : RoomState :=
  if canUndo st then undo st else st.

(** *** exportRoom and importRoom on text *)

(** The object [exportRoom] hands to [JSON.stringify]. *)
Definition export_data (st : RoomState) : ImportRoom.Document :=
  {| ImportRoom.data_roomDimensions := ImportRoom.present (roomDimensions st);
     ImportRoom.data_furniture := ImportRoom.present (furniture st);
     ImportRoom.data_scannedItems := ImportRoom.present (scannedItems st);
     ImportRoom.data_gridSize := ImportRoom.present (gridSize st) |}.

Section Json.
(** [JSON.stringify] and [JSON.parse] belong to the runtime. *)
Variable JSON_stringify : ImportRoom.Document -> string.
Variable JSON_parse : string -> ImportRoom.Parsed.

Definition exportRoom (st : RoomState) : string :=
  JSON_stringify (export_data st).

Definition importRoom_json (json : string) (l : ImportRoom.Live)
  : bool * ImportRoom.Live :=
  ImportRoom.importRoom (JSON_parse json) l.

End Json.

(** ** A whole drag gesture on a furniture item *)

(** Pointer-down on the component of item [i], the pointer-moves with their
    ray hits, then pointer-up. Every event goes to the component rendered
    from the store at that moment. *)
Definition dragGesture (M : JsMath) (i : string)
  (hits : list (option (Q * Q))) (w0 : World) : World :=
  match rendered (store w0) i with
  | None => w0
  | Some item0 =>
      let started := dragStart M item0 w0 in
      let moved := dragMoves M i (snd started) hits (fst started) in
      match rendered (store (fst moved)) i with
      | Some item => fst (dragEnd M item (snd moved) (fst moved))
      | None => fst moved
      end
  end.

(** ** ScannedModel: dragging a placed scan *)

Module ScannedModel.

(** Scans snap to the whole grid cell. *)
Definition snapToGrid (gridSize value : Q) : Q :=
  double (Math_round (double (value / gridSize)) * gridSize).

(** No rotation here: the nominal width and depth of the model. *)
Definition clampPosition (room : RoomDimensions) (dims : Dimensions) (x z : Q)
  : Q * Q :=
  let halfWidth := width dims / 2 in
  let halfDepth := depth dims / 2 in
  let roomHalfWidth := Room.width room / 2 in
  let roomHalfLength := Room.length room / 2 in
  let clampedX := Math_max (- roomHalfWidth + halfWidth)
                           (Math_min (roomHalfWidth - halfWidth) x) in
  let clampedZ := Math_max (- roomHalfLength + halfDepth)
                           (Math_min (roomHalfLength - halfDepth) z) in
  (clampedX, clampedZ).

(** The position a pointer event writes, from the floor hit [(x, z)]. *)
Definition movePosition (st : RoomState) (dims : Dimensions) (hit : Q * Q)
  : Position :=
  let newX := snapToGrid (gridSize st) (fst hit) in
  let newZ := snapToGrid (gridSize st) (snd hit) in
  let '(newX, newZ) := clampPosition (roomDimensions st) dims newX newZ in
  (newX, 0, newZ).

(** The handler of the component placed for the scan [i]; [dims] are the
    dimensions of its makerspace item, [dragging] the component's own
    [useState] cell. [onSelect] is [setSelectedId(i, 'scanned')] and
    [onPositionChange] is [updateScannedItemPosition(i, pos)]. The first
    event falls through to the move. *)
Definition dragHandler (i : string) (dims : Dimensions) (active first : bool)
  (hit : Q * Q) (w : RoomState * bool) : RoomState * bool :=
  let w1 :=
    if first
    then (setSelectedId (Some i) sel_scanned (setIsDragging true (fst w)), true)
    else w in
  if negb active then (setIsDragging false (fst w1), false)
  else
    (updateScannedItemPosition i (movePosition (fst w1) dims hit) (fst w1),
     snd w1).

End ScannedModel.

(** ** The sidebar *)

(** JavaScript's [%]: the remainder has the sign of the dividend. *)
Definition Qtrunc (q : Q) : Z := Z.quot (Qnum q) (Z.pos (Qden q)).
Definition js_rem (x m : Q) : Q := x - m * inject_Z (Qtrunc (x / m)).

(** [selectedType === 'furniture' ? furniture.find(f => f.id === selectedId)
    : null], and the [selectedId &&] test in front of it: the empty string
    is falsy. *)
Definition selectedFurniture (st : RoomState) : option FurnitureItem :=
  match selectedType st, selectedId st with
  | Some sel_furniture, Some i => find (same_id i) (furniture st)
  | _, _ => None
  end.

Definition handleRotate (delta : Q) (st : RoomState) : RoomState :=
  match selectedId st, selectedFurniture st with
  | Some i, Some f =>
      if String.eqb i "" then st
      else updateFurnitureRotation i (js_rem (rotation f + delta + 360) 360) st
  | _, _ => st
  end.

(** Large furniture that can host the detail editor. *)
Definition largeTypes : list string :=
  ["bed"; "king_bed"; "twin_bed"; "bunk_bed";
   "desk"; "l_desk"; "standing_desk"; "gaming_desk";
   "bookshelf"; "tall_bookshelf"; "dresser"; "wardrobe"; "nightstand";
   "coffee_table"; "dining_table"; "side_table"; "console_table";
   "tv_stand"; "couch"; "sectional_couch"; "loveseat"; "armchair";
   "kitchen_island"; "filing_cabinet"; "storage_cube"]%string.

Definition isLargeFurniture (t : FurnitureType) : bool :=
  existsb (String.eqb t) largeTypes.

(** The delete button: [saveForUndo(); removeFurniture(selectedId!)]. *)
Definition handleDelete (i : string) (st : RoomState) : RoomState :=
  removeFurniture i (saveForUndo st).

(** ** DetailEditMode: the other arrangement presets *)

Section Arrangements.
(** [Math.random()]: the draws of one call of [arrangeStack], in order. *)
Variable Math_random : nat -> Q.

(** One turn of [arrangeStack]'s loop: the running [currentY], the index
    and the store. *)
Definition arrangeStack_step (centerX baseY centerZ : Q)
  (acc : Q * nat * RoomState) (book : FurnitureItem) : Q * nat * RoomState :=
  let '(currentY, i, st) := acc in
  let bookHeight := depth (dimensions book) * num_or (sizeVariant book) 1 in
  let randomOffset := (Math_random i - 0.5) * 0.02 in
  let st1 := updateFurniturePosition (id book)
               (centerX + randomOffset, currentY + bookHeight / 2,
                centerZ + randomOffset) st in
  let st2 := updateFurnitureOrientation (id book) flat st1 in
  (currentY + bookHeight + 0.002, S i, st2).

Definition arrangeStack (st : RoomState) : RoomState :=
  match hostFurniture st with
  | None => st
  | Some host =>
      let books := getBooksOnFurniture st in
      if (List.length books <? 1)%nat then st
      else
        let st0 := saveForUndo st in
        let centerX := px (position host) in
        let baseY := py (position host) + 0.02 in
        let centerZ := pz (position host) in
        snd (fold_left (arrangeStack_step centerX baseY centerZ) books
               (baseY, 0%nat, st0))
  end.

End Arrangements.

Definition alignBooks (st : RoomState) : RoomState :=
  match hostFurniture st with
  | None => st
  | Some host =>
      let books := getBooksOnFurniture st in
      if (List.length books <? 1)%nat then st
      else
        let st0 := saveForUndo st in
        let centerZ := pz (position host) in
        fold_left
          (fun s book =>
             updateFurniturePosition (id book)
               (px (position book), py (position book), centerZ) s)
          books st0
  end.

(** [[...books].sort((a, b) => a.position[0] - b.position[0])]: the sort is
    stable, so it is the insertion of each book, last first, in front of the
    first book that is not to its left. *)
Fixpoint insert_by_x (book : FurnitureItem) (sorted : list FurnitureItem)
  : list FurnitureItem :=
  match sorted with
  | [] => [book]
  | c :: rest =>
      if Qle_bool (px (position book)) (px (position c))
      then book :: c :: rest
      else c :: insert_by_x book rest
  end.

Definition sort_by_x (books : list FurnitureItem) : list FurnitureItem :=
  fold_right insert_by_x [] books.

Definition spaceEvenly_step (minX spacing : Q) (acc : nat * RoomState)
  (book : FurnitureItem) : nat * RoomState :=
  let '(i, st) := acc in
  (S i,
   updateFurniturePosition (id book)
     (minX + inject_Z (Z.of_nat i) * spacing, py (position book),
      pz (position book)) st).

Definition spaceEvenly (st : RoomState) : RoomState :=
  match hostFurniture st with
  | None => st
  | Some host =>
      let books := getBooksOnFurniture st in
      if (List.length books <? 2)%nat then st
      else
        let st0 := saveForUndo st in
        let sortedBooks := sort_by_x books in
        let minX := px (position host) - width (dimensions host) / 2 + 0.05 in
        let maxX := px (position host) + width (dimensions host) / 2 - 0.05 in
        let spacing :=
          (maxX - minX)
          / (inject_Z (Z.of_nat (List.length sortedBooks)) - 1) in
        snd (fold_left (spaceEvenly_step minX spacing) sortedBooks (0%nat, st0))
  end.

(** [f.type === 'book' || f.type === 'manga']. *)
Definition isBasicBook (f : FurnitureItem) : bool :=
  String.eqb (type f) "book" || String.eqb (type f) "manga".

(** One turn of the loop over [books.slice(1)] in [arrangeShrine]: the
    running [leftX] and [rightX], the index and the store. *)
Definition arrangeShrine_step (baseY centerZ : Q)
  (acc : Q * Q * nat * RoomState) (book : FurnitureItem)
  : Q * Q * nat * RoomState :=
  let '(leftX, rightX, i, st) := acc in
  let bookDepth := depth (dimensions book) * num_or (sizeVariant book) 1 in
  if Nat.even i then
    (leftX - (bookDepth + 0.002), rightX, S i,
     updateFurnitureOrientation (id book) upright
       (updateFurniturePosition (id book)
          (leftX - bookDepth / 2, baseY, centerZ) st))
  else
    (leftX, rightX + (bookDepth + 0.002), S i,
     updateFurnitureOrientation (id book) upright
       (updateFurniturePosition (id book)
          (rightX + bookDepth / 2, baseY, centerZ) st)).

Definition arrangeShrine (st : RoomState) : RoomState :=
  match hostFurniture st with
  | None => st
  | Some host =>
      let allItems := getBooksOnFurniture st in
      let basicBooks := filter isBasicBook allItems in
      let books := firstn 11 basicBooks in
      match books with
      | [] => st
      | centerBook :: flanks =>
          let st0 := saveForUndo st in
          let centerX := px (position host) in
          let baseY := py (position host) + 0.02 in
          let centerZ := pz (position host) in
          let centerBookWidth :=
            width (dimensions centerBook) * num_or (sizeVariant centerBook) 1 in
          let st1 := updateFurniturePosition (id centerBook)
                       (centerX, baseY + 0.01, centerZ + 0.02) st0 in
          let st2 := updateFurnitureOrientation (id centerBook) faceout st1 in
          let halfCenterWidth := centerBookWidth / 2 in
          let leftX := centerX - halfCenterWidth - 0.008 in
          let rightX := centerX + halfCenterWidth + 0.008 in
          snd (fold_left (arrangeShrine_step baseY centerZ) flanks
                 (leftX, rightX, 0%nat, st2))
      end
  end.

(** *** Dropping a palette item on the host *)

(** [s.includes(sub)]. *)
Fixpoint includes (sub s : string) : bool :=
  String.prefix sub s ||
  match s with
  | EmptyString => false
  | String _ rest => includes sub rest
  end.

(** The heights an item can be dropped at: just above the host's bottom,
    then four shelf levels for a shelf, or the top for anything else. *)
Definition surfaces (host : FurnitureItem) : list Q :=
  (py (position host) + 0.02) ::
  (if includes "bookshelf" (type host) || includes "shelf" (type host)
   then map (fun i => py (position host)
                      + (inject_Z (Z.of_nat i) / 4) * height (dimensions host))
            (seq 1 4)
   else [py (position host) + height (dimensions host)]).

(** The loop picking the surface closest to [clickedY]: a later surface
    wins only when strictly closer. *)
Definition nearest_step (clickedY : Q) (best : Q * Q) (shelfY : Q) : Q * Q :=
  let dist := Math_abs (clickedY - shelfY) in
  if ltb dist (snd best) then (shelfY, dist) else best.

Definition nearestSurface (clickedY : Q) (first : Q) (all : list Q) : Q :=
  fst (fold_left (nearest_step clickedY) all
         (first, Math_abs (clickedY - first))).

(** Where [handleDrop] puts the new item: [clickedY] is the height of the
    ray on the vertical plane through the host, [dropPoint] maps the chosen
    height to the ray's (x, z) on that horizontal plane. *)
Definition dropPosition (host : FurnitureItem) (clickedY : Q)
  (dropPoint : Q -> Q * Q) : Position :=
  let bestY := nearestSurface clickedY (py (position host) + 0.02)
                              (surfaces host) in
  let halfW := width (dimensions host) / 2 - 0.05 in
  let halfD := depth (dimensions host) / 2 - 0.05 in
  let clampedX := Math_max (px (position host) - halfW)
                    (Math_min (px (position host) + halfW)
                              (fst (dropPoint bestY))) in
  let clampedZ := Math_max (pz (position host) - halfD)
                    (Math_min (pz (position host) + halfD)
                              (snd (dropPoint bestY))) in
  (clampedX, bestY, clampedZ).

Record CatalogEntry : Type := {
  cat_name : string;
  cat_dimensions : Dimensions;
  cat_defaultColor : string
}.

(** [handleDrop]. [draggingItem] is the palette type being dragged,
    [ready] tells whether the scene's camera and renderer are there,
    [catalog] is the lookup in FURNITURE_CATALOG; the identifier and the
    random spine colour and size variant are those [addFurniture] draws. *)
Definition handleDrop (catalog : FurnitureType -> option CatalogEntry)
  (draggingItem : option FurnitureType) (ready : bool)
  (clickedY : Q) (dropPoint : Q -> Q * Q)
  (newId randomSpine : string) (randomVariant : Q) (st : RoomState)
  : RoomState :=
  match draggingItem, hostFurniture st with
  | Some t, Some host =>
      if String.eqb t "" || negb ready then st
      else
        match catalog t with
        | Some entry =>
            addFurniture newId randomSpine randomVariant
              {| id := ""; type := t; name := cat_name entry;
                 position := dropPosition host clickedY dropPoint;
                 rotation := 0; dimensions := cat_dimensions entry;
                 color := cat_defaultColor entry; orientation := None;
                 spineColor := None; sizeVariant := None |}
              st
        | None => st
        end
  | _, _ => st
  end.

(** ** Placements: what the arrangement loops amount to *)

(** One [updateFurniturePosition] and, for the presets that set one, one
    [updateFurnitureOrientation], both for the same identifier. *)
Record Placement : Type := {
  pl_id : string;
  pl_pos : Position;
  pl_orient : option BookOrientation
}.

Definition place (st : RoomState) (pl : Placement) : RoomState :=
  let st1 := updateFurniturePosition (pl_id pl) (pl_pos pl) st in
  match pl_orient pl with
  | Some o => updateFurnitureOrientation (pl_id pl) o st1
  | None => st1
  end.

Definition place_all (pls : list Placement) (st : RoomState) : RoomState :=
  fold_left place pls st.

Definition place_entry (f : FurnitureItem) (pl : Placement) : FurnitureItem :=
  if same_id (pl_id pl) f then
    match pl_orient pl with
    | Some o => with_orientation (with_position f (pl_pos pl)) o
    | None => with_position f (pl_pos pl)
    end
  else f.

(** The bedroom after the desk has been pushed onto the bed. *)
Definition crowded_bedroom : RoomState :=
  updateFurniturePosition "B" (0, 0, 0) bedroom.

(** ** Predicates used by the further properties *)

(** The flag [canUndo] agrees with the stack. *)
Definition canUndo_consistent (st : RoomState) : Prop :=
  canUndo st = negb (Nat.eqb (List.length (undoStack st)) 0).

(** Everything about an entry but its position. *)
Definition entry_but_position (f : FurnitureItem) :=
  (id f, type f, name f, rotation f, dimensions f, color f, orientation f,
   spineColor f, sizeVariant f).

(** [st'] differs from [st] at most in the selection, the dragging flag and
    the positions of the entries with identifier [i]. *)
Definition drag_frame (i : string) (st st' : RoomState) : Prop :=
  roomDimensions st' = roomDimensions st /\
  scannedItems st' = scannedItems st /\
  detailModeTarget st' = detailModeTarget st /\
  undoStack st' = undoStack st /\
  canUndo st' = canUndo st /\
  gridSize st' = gridSize st /\
  showGrid st' = showGrid st /\
  map entry_but_position (furniture st') = map entry_but_position (furniture st) /\
  filter (fun f => negb (same_id i f)) (furniture st')
  = filter (fun f => negb (same_id i f)) (furniture st).

(** The placements each preset's loop makes, in order. *)
Fixpoint row_placements (baseY centerZ currentX : Q)
  (books : list FurnitureItem) : list Placement :=
  match books with
  | [] => []
  | book :: rest =>
      {| pl_id := id book;
         pl_pos := (currentX + bookWidth book / 2, baseY, centerZ);
         pl_orient := Some upright |}
      :: row_placements baseY centerZ (currentX + bookWidth book + 0.005) rest
  end.

Fixpoint stack_placements (Math_random : nat -> Q) (centerX centerZ currentY : Q)
  (i : nat) (books : list FurnitureItem) : list Placement :=
  match books with
  | [] => []
  | book :: rest =>
      {| pl_id := id book;
         pl_pos := (centerX + (Math_random i - 0.5) * 0.02,
                    currentY + bookWidth book / 2,
                    centerZ + (Math_random i - 0.5) * 0.02);
         pl_orient := Some flat |}
      :: stack_placements Math_random centerX centerZ
           (currentY + bookWidth book + 0.002) (S i) rest
  end.

Definition align_placements (centerZ : Q) (books : list FurnitureItem)
  : list Placement :=
  map (fun book =>
         {| pl_id := id book;
            pl_pos := (px (position book), py (position book), centerZ);
            pl_orient := None |})
      books.

Fixpoint space_placements (minX spacing : Q) (i : nat)
  (sorted : list FurnitureItem) : list Placement :=
  match sorted with
  | [] => []
  | book :: rest =>
      {| pl_id := id book;
         pl_pos := (minX + inject_Z (Z.of_nat i) * spacing,
                    py (position book), pz (position book));
         pl_orient := None |}
      :: space_placements minX spacing (S i) rest
  end.

Fixpoint shrine_placements (baseY centerZ leftX rightX : Q) (i : nat)
  (flanks : list FurnitureItem) : list Placement :=
  match flanks with
  | [] => []
  | book :: rest =>
      if Nat.even i then
        {| pl_id := id book;
           pl_pos := (leftX - bookWidth book / 2, baseY, centerZ);
           pl_orient := Some upright |}
        :: shrine_placements baseY centerZ (leftX - (bookWidth book + 0.002))
             rightX (S i) rest
      else
        {| pl_id := id book;
           pl_pos := (rightX + bookWidth book / 2, baseY, centerZ);
           pl_orient := Some upright |}
        :: shrine_placements baseY centerZ leftX
             (rightX + (bookWidth book + 0.002)) (S i) rest
  end.

(** Thicknesses and gaps of the first [k] books of a pile. *)
Fixpoint pile_offset (gap : Q) (books : list FurnitureItem) (k : nat) : Q :=
  match k, books with
  | S k', b :: rest => bookWidth b + gap + pile_offset gap rest k'
  | _, _ => 0
  end.

(** The five presets of the detail editor. *)
Inductive Preset : Type := Shrine | Row | Stack | Align | SpaceEvenly.

Definition runPreset (Math_random : nat -> Q) (p : Preset) (st : RoomState)
  : RoomState :=
  match p with
  | Shrine => arrangeShrine st
  | Row => arrangeRow st
  | Stack => arrangeStack Math_random st
  | Align => alignBooks st
  | SpaceEvenly => spaceEvenly st
  end.

(** Everything about an entry but its position and orientation. *)
Definition entry_core (f : FurnitureItem) :=
  (id f, type f, name f, rotation f, dimensions f, color f, spineColor f,
   sizeVariant f).

(** The test of [getBooksOnFurniture]'s filter. *)
Definition isBookNear (host f : FurnitureItem) : bool :=
  isBookType (type f) && nearHost host f.

(** [a] is not to the right of [b]. *)
Definition le_x (a b : FurnitureItem) : Prop :=
  px (position a) <= px (position b).

(** ** The detail editor's palette *)

(** Small items that can be placed on furniture. *)
Definition SMALL_ITEMS : list FurnitureType :=
  ["book"; "book_stack"; "manga"; "gojo_manga"; "picture_frame";
   "vase"; "lamp_small"; "clock"; "trophy"; "plant"]%string.

(** The catalog's entry for a book, and nothing else. *)
Definition book_catalog (t : FurnitureType) : option CatalogEntry :=
  if String.eqb t "book"
  then Some {| cat_name := "Book";
               cat_dimensions := {| width := 0.15; height := 0.22;
                                    depth := 0.03 |};
               cat_defaultColor := "#8B4513" |}
  else None.

(** ** The tilt animation of a dragged item *)

(** [THREE.MathUtils.clamp] and [THREE.MathUtils.lerp]. *)
Definition MathUtils_clamp (value lo hi : Q) : Q :=
  Math_max lo (Math_min hi value).
Definition MathUtils_lerp (x y t : Q) : Q := (1 - t) * x + t * y.

(** The three refs the frame callback keeps. *)
Record TiltRefs : Type := {
  velocity : Q * Q;
  lastPos : Q * Q;
  tilt : Q * Q
}.

(** One call of the [useFrame] callback, [delta] seconds after the last:
    [dragging] is the component's own flag, [item] its prop. The result is
    the refs afterwards; the group's rotation is set to
    [(tilt.x, yaw, tilt.z)]. Components are (x, z). *)
Definition tiltFrame (dragging : bool) (item : FurnitureItem) (delta : Q)
  (r : TiltRefs) : TiltRefs :=
  let dt := Math_min delta 0.1 in
  if dragging then
    let currentX := px (position item) in
    let currentZ := pz (position item) in
    let vx := (currentX - fst (lastPos r)) / dt in
    let vz := (currentZ - snd (lastPos r)) / dt in
    let maxVel := 5 in
    let vx := MathUtils_clamp vx (- maxVel) maxVel in
    let vz := MathUtils_clamp vz (- maxVel) maxVel in
    let tiltAmount := 0.06 in
    let targetTiltZ := - vx * tiltAmount in
    let targetTiltX := vz * tiltAmount in
    {| velocity := (vx, vz);
       lastPos := (currentX, currentZ);
       tilt := (MathUtils_lerp (fst (tilt r)) targetTiltX 0.15,
                MathUtils_lerp (snd (tilt r)) targetTiltZ 0.15) |}
  else
    {| velocity := (0, 0);
       lastPos := lastPos r;
       tilt := (MathUtils_lerp (fst (tilt r)) 0 0.12,
                MathUtils_lerp (snd (tilt r)) 0 0.12) |}.

(** Both tilt angles are within [b] of zero. *)
Definition tilt_within (b : Q) (r : TiltRefs) : Prop :=
  (- b <= fst (tilt r) /\ fst (tilt r) <= b) /\
  (- b <= snd (tilt r) /\ snd (tilt r) <= b).

(** * Properties *)

(** ** The undo stack *)

Section SliceLast.
Context {A : Type}.
Implicit Types l pre : list A.

Lemma slice_last_length n l : (List.length (slice_last n l) <= n)%nat.
Proof. unfold slice_last. rewrite length_skipn. lia. Qed.

Lemma slice_last_short n l : (List.length l <= n)%nat -> slice_last n l = l.
Proof.
  intros H. unfold slice_last.
  replace (List.length l - n)%nat with 0%nat by lia. reflexivity.
Qed.

Lemma slice_last_app n pre l :
  (List.length l <= n)%nat ->
  slice_last n (pre ++ l) = skipn (List.length pre + List.length l - n) pre ++ l.
Proof.
  intros H. unfold slice_last. rewrite length_app, skipn_app.
  replace (List.length pre + List.length l - n - List.length pre)%nat
    with 0%nat by lia.
  reflexivity.
Qed.

Lemma slice_last_absorb n pre l :
  slice_last n (slice_last n pre ++ l) = slice_last n (pre ++ l).
Proof.
  unfold slice_last.
  destruct (Nat.le_gt_cases (List.length pre) n) as [Hle | Hgt].
  - replace (List.length pre - n)%nat with 0%nat by lia. reflexivity.
  - rewrite !length_app, length_skipn.
    rewrite (skipn_app (List.length pre + List.length l - n)).
    rewrite (skipn_app (_ - _ + _ - _)).
    rewrite skipn_skipn, length_skipn.
    f_equal; f_equal; lia.
Qed.

Lemma slice_last_full l x :
  List.length l = 20%nat -> slice_last 20 (l ++ [x]) = tl l ++ [x].
Proof.
  intros H. unfold slice_last. rewrite length_app, H. simpl.
  destruct l; [discriminate | reflexivity].
Qed.

Lemma pop_snoc l x : pop (l ++ [x]) = (Some x, l).
Proof.
  unfold pop. rewrite map_app. simpl.
  rewrite last_last, removelast_last. reflexivity.
Qed.

End SliceLast.

Lemma perform_undoStack a st :
  undoStack (perform a st) = undoStack st /\ canUndo (perform a st) = canUndo st.
Proof. destruct a; split; reflexivity. Qed.

Lemma saveForUndo_stack st :
  undoStack (saveForUndo st) = slice_last 20 (undoStack st ++ [furniture st]).
Proof. reflexivity. Qed.

Lemma undo_snoc st s x :
  undoStack st = s ++ [x] ->
  undo st =
  set_undo (set_furniture st x) s (negb (Nat.eqb (List.length s) 0)).
Proof.
  intros H. unfold undo. rewrite H, pop_snoc, length_app. simpl.
  replace (List.length s + 1)%nat with (S (List.length s)) by lia.
  reflexivity.
Qed.

Lemma undo_empty st : undoStack st = [] -> undo st = st.
Proof. intros H. unfold undo. rewrite H. reflexivity. Qed.

Lemma undo_stack_length st :
  (List.length (undoStack (undo st)) <= List.length (undoStack st))%nat.
Proof.
  destruct (undoStack st) as [| y s] eqn:E using rev_ind.
  - rewrite (undo_empty st E), E. apply Nat.le_refl.
  - rewrite (undo_snoc st _ _ E). simpl. rewrite length_app. lia.
Qed.

Lemma run_op_bounded o st :
  (List.length (undoStack st) <= 20)%nat ->
  (List.length (undoStack (run_op o st)) <= 20)%nat.
Proof.
  intros H. destruct o; simpl.
  - apply slice_last_length.
  - pose proof (undo_stack_length st). lia.
  - destruct (perform_undoStack a st) as [-> _]. exact H.
Qed.

Lemma run_ops_bounded ops : forall st,
  (List.length (undoStack st) <= 20)%nat ->
  (List.length (undoStack (run_ops ops st)) <= 20)%nat.
Proof.
  induction ops as [| o ops IH]; intros st H; simpl.
  - exact H.
  - apply IH, run_op_bounded, H.
Qed.

(** C6. Starting from a stack of at most 20 snapshots (the store starts
    with none), after any sequence of saveForUndo, undo and furniture
    actions the undo stack holds at most 20 snapshots; and a saveForUndo on
    a stack of exactly 20 drops the oldest snapshot and appends the new one,
    so the 20 most recent remain. *)
Theorem undo_stack_at_most_20 (ops : list StoreOp) (st : RoomState) :
  (List.length (undoStack st) <= 20)%nat ->
  let st' := run_ops ops st in
  (List.length (undoStack st') <= 20)%nat /\
  (List.length (undoStack st') = 20%nat ->
   undoStack (saveForUndo st') = tl (undoStack st') ++ [furniture st'] /\
   List.length (undoStack (saveForUndo st')) = 20%nat).
Proof.
  intros H st'. split.
  - apply run_ops_bounded, H.
  - intros H20. rewrite saveForUndo_stack, (slice_last_full _ _ H20).
    split; [reflexivity |].
    rewrite length_app. simpl.
    destruct (undoStack st'); [discriminate | simpl in *; lia].
Qed.

Lemma undo_stack_at_most_20_witness :
  (List.length (undoStack chair_scene) <= 20)%nat /\
  (List.length
     (undoStack (run_ops (repeat OpSaveForUndo 25 ++ [OpUndo]) chair_scene))
   <= 20)%nat.
Proof.
  split.
  - simpl. lia.
  - apply (undo_stack_at_most_20 (repeat OpSaveForUndo 25 ++ [OpUndo])
             chair_scene).
    simpl. lia.
Defined.

Lemma snapshots_length acts : forall st,
  List.length (snapshots acts st) = List.length acts.
Proof.
  induction acts as [| a acts IH]; intros st; simpl; [reflexivity |].
  now rewrite IH.
Qed.

Lemma edit_stack acts : forall st,
  (List.length (undoStack st) <= 20)%nat ->
  undoStack (edit acts st) = slice_last 20 (undoStack st ++ snapshots acts st).
Proof.
  induction acts as [| a acts IH]; intros st H; simpl.
  - rewrite app_nil_r. symmetry. apply slice_last_short, H.
  - rewrite IH.
    + destruct (perform_undoStack a (saveForUndo st)) as [-> _].
      rewrite saveForUndo_stack, slice_last_absorb, <- app_assoc. reflexivity.
    + destruct (perform_undoStack a (saveForUndo st)) as [-> _].
      apply slice_last_length.
Qed.

(** Undoing once per snapshot on top of [pre] pops them all, newest first,
    and leaves the oldest of them as the furniture. *)
Lemma undo_times_pops snaps : forall st pre x,
  undoStack st = pre ++ x :: snaps ->
  let st' := undo_times (S (List.length snaps)) st in
  furniture st' = x /\ undoStack st' = pre /\
  canUndo st' = negb (Nat.eqb (List.length pre) 0).
Proof.
  induction snaps as [| y snaps IH] using rev_ind; intros st pre x H.
  - simpl. rewrite (undo_snoc st pre x H). simpl. auto.
  - rewrite length_app. simpl List.length.
    replace (S (List.length snaps + 1)) with (S (S (List.length snaps))) by lia.
    change (undo_times (S (S (List.length snaps))) st)
      with (undo_times (S (List.length snaps)) (undo st)).
    apply IH.
    rewrite (undo_snoc st (pre ++ x :: snaps) y).
    + reflexivity.
    + rewrite H, <- app_assoc. reflexivity.
Qed.

(** C7, as the code has it: the stack keeps 20 snapshots, so the property
    holds for N up to 20. For every scene with an empty undo stack and every
    list of at most 20 furniture actions, each preceded by saveForUndo,
    undoing once per action restores the furniture collection to its value
    before the first action; the stack is then empty, canUndo is false, and a
    further undo leaves the whole state unchanged. *)
Theorem undo_restores_up_to_20 (acts : list Action) (st : RoomState) :
  (List.length acts <= 20)%nat ->
  undoStack st = [] ->
  canUndo st = false ->
  let st' := undo_times (List.length acts) (edit acts st) in
  furniture st' = furniture st /\
  undoStack st' = [] /\
  canUndo st' = false /\
  undo st' = st'.
Proof.
  intros Hlen Hs Hc st'.
  assert (Hgoal : furniture st' = furniture st /\ undoStack st' = [] /\
                  canUndo st' = false).
  { subst st'. destruct acts as [| a acts].
    - simpl. auto.
    - pose proof (edit_stack (a :: acts) st) as E.
      rewrite Hs in E. specialize (E (Nat.le_0_l _)).
      change ([] ++ snapshots (a :: acts) st) with (snapshots (a :: acts) st) in E.
      rewrite slice_last_short in E
        by (rewrite snapshots_length; exact Hlen).
      simpl snapshots in E.
      pose proof (undo_times_pops _ (edit (a :: acts) st) [] _ E) as P.
      cbv zeta in P. rewrite snapshots_length in P.
      simpl List.length. exact P. }
  destruct Hgoal as (Hf & Hst & Hcu).
  repeat split; try assumption.
  apply undo_empty, Hst.
Qed.

Lemma undo_restores_up_to_20_witness :
  (List.length (slide_chair 20) <= 20)%nat /\
  furniture (undo_times 20 (edit (slide_chair 20) chair_scene))
  = furniture chair_scene.
Proof.
  split.
  - simpl. lia.
  - apply (undo_restores_up_to_20 (slide_chair 20) chair_scene).
    + simpl. lia.
    + reflexivity.
    + reflexivity.
Defined.

(** C7 as stated fails at N = 21: after 21 snapshot-and-move actions the
    oldest snapshot has been dropped, and 21 undos leave the chair at x = 1,
    where the first action put it, not at the origin where it started. *)
Lemma undo_21_does_not_restore :
  List.length (slide_chair 21) = 21%nat /\
  undoStack chair_scene = [] /\
  canUndo chair_scene = false /\
  map position (furniture chair_scene) = [(0, 0, 0)] /\
  map position (furniture (undo_times 21 (edit (slide_chair 21) chair_scene)))
  = [(inject_Z 1, 0, 0)] /\
  furniture (undo_times 21 (edit (slide_chair 21) chair_scene))
  <> furniture chair_scene.
Proof.
  repeat split; try reflexivity.
  intros H. apply (f_equal (map position)) in H.
  vm_compute in H. discriminate H.
Qed.

(** C10. undo writes furniture, undoStack and canUndo only: room
    dimensions, grid size, selection, detail-mode target, dragging flag, grid
    visibility and the placed scanned models are those of the state before.
    In particular a scanned model moved after a snapshot stays where it was
    moved to when that snapshot is undone. *)
Theorem undo_frame (st : RoomState) :
  roomDimensions (undo st) = roomDimensions st /\
  gridSize (undo st) = gridSize st /\
  selectedId (undo st) = selectedId st /\
  selectedType (undo st) = selectedType st /\
  detailModeTarget (undo st) = detailModeTarget st /\
  scannedItems (undo st) = scannedItems st /\
  isDragging (undo st) = isDragging st /\
  showGrid (undo st) = showGrid st /\
  (forall i p,
     scannedItems (undo (updateScannedItemPosition i p (saveForUndo st)))
     = scannedItems (updateScannedItemPosition i p st)).
Proof.
  assert (F : forall s,
             roomDimensions (undo s) = roomDimensions s /\
             gridSize (undo s) = gridSize s /\
             selectedId (undo s) = selectedId s /\
             selectedType (undo s) = selectedType s /\
             detailModeTarget (undo s) = detailModeTarget s /\
             scannedItems (undo s) = scannedItems s /\
             isDragging (undo s) = isDragging s /\
             showGrid (undo s) = showGrid s).
  { intros s. unfold undo.
    destruct (Nat.eqb (List.length (undoStack s)) 0).
    - repeat split.
    - destruct (pop (undoStack s)) as [prev newStack]. repeat split. }
  destruct (F st) as (H1 & H2 & H3 & H4 & H5 & H6 & H7 & H8).
  repeat split; try assumption.
  intros i p.
  destruct (F (updateScannedItemPosition i p (saveForUndo st)))
    as (_ & _ & _ & _ & _ & -> & _).
  reflexivity.
Qed.

(** ** The collision check *)

Lemma ltb_lt a b : ltb a b = true <-> a < b.
Proof.
  unfold ltb. rewrite negb_true_iff. split.
  - intros H. apply Qnot_le_lt. intros L.
    apply Qle_bool_iff in L. congruence.
  - intros H. destruct (Qle_bool b a) eqn:E; [| reflexivity].
    apply Qle_bool_iff in E. exfalso. exact (Qlt_not_le _ _ H E).
Qed.

Lemma boxes_overlap_spec a b :
  boxes_overlap a b = true <-> overlap_on_all_axes a b.
Proof.
  unfold boxes_overlap, overlap_on_all_axes.
  rewrite !andb_true_iff, !ltb_lt. tauto.
Qed.

Section Collision.
Variable M : JsMath.

(** The loop answers true exactly when it meets an eligible item whose box
    overlaps the dragged item's box. *)
Lemma collision_loop_spec item myBox target others :
  collision_loop M item myBox target others = true <->
  exists other, In other others /\ eligible target item other = true /\
                boxes_overlap myBox (otherBox M other) = true.
Proof.
  unfold eligible. induction others as [| o rest IH]; simpl.
  - split; [discriminate | intros (o & [] & _)].
  - destruct (String.eqb (id o) (id item)) eqn:Eid;
      [| destruct (is_detail_target target o) eqn:Et;
         [| destruct (isSmallItem (type item) && isSmallItem (type o)) eqn:Es;
            [| destruct (boxes_overlap myBox (otherBox M o)) eqn:Eo]]].
    1-3, 5: rewrite IH; split;
      [ intros (x & Hin & He & Hb); exists x; auto
      | intros (x & [-> | Hin] & He & Hb);
        [ rewrite ?Eid, ?Et, ?Es, ?Eo in *; simpl in *; discriminate
        | exists x; auto ] ].
    split; [intros _ | reflexivity].
    exists o. rewrite Eid, Et, Es. auto.
Qed.

(** The three [continue]s of the loop, read as exclusions of the scene. *)
Lemma eligible_not_excluded (st : RoomState) (item other : FurnitureItem) :
  eligible (detailModeTarget st) item other = true <->
  ~ excluded st item other.
Proof.
  unfold eligible, excluded, is_detail_target.
  rewrite !andb_true_iff, !negb_true_iff, andb_false_iff.
  rewrite String.eqb_neq.
  destruct (detailModeTarget st) as [t |].
  - rewrite String.eqb_neq. split.
    + intros ((Hid & Ht) & Hs) [E | [E | (E1 & E2)]].
      * exact (Hid E).
      * injection E as E. exact (Ht (eq_sym E)).
      * destruct Hs as [Hs | Hs]; congruence.
    + intros H. repeat split.
      * intros E. apply H. left. exact E.
      * intros E. apply H. right. left. rewrite E. reflexivity.
      * destruct (isSmallItem (type item)) eqn:E1; [| left; reflexivity].
        destruct (isSmallItem (type other)) eqn:E2; [| right; reflexivity].
        exfalso. apply H. right. right. split; reflexivity.
  - split.
    + intros ((Hid & _) & Hs) [E | [E | (E1 & E2)]].
      * exact (Hid E).
      * discriminate E.
      * destruct Hs as [Hs | Hs]; congruence.
    + intros H. repeat split.
      * intros E. apply H. left. exact E.
      * destruct (isSmallItem (type item)) eqn:E1; [| left; reflexivity].
        destruct (isSmallItem (type other)) eqn:E2; [| right; reflexivity].
        exfalso. apply H. right. right. split; reflexivity.
Qed.

(** A pair of small items is passed over whatever the boxes are. *)
Lemma collision_loop_skip_small item myBox target pre other post :
  isSmallItem (type item) = true ->
  isSmallItem (type other) = true ->
  collision_loop M item myBox target (pre ++ other :: post)
  = collision_loop M item myBox target (pre ++ post).
Proof.
  intros Hi Ho. induction pre as [| p pre IH]; simpl.
  - rewrite Hi, Ho. simpl.
    destruct (String.eqb (id other) (id item)); [reflexivity |].
    destruct (is_detail_target target other); reflexivity.
  - rewrite IH. reflexivity.
Qed.

(** C1. When the dragged item and another live item are both small-class,
    that other item contributes nothing: the verdict is the one obtained
    with it taken out of the scene, whatever the candidate position and
    whatever the two boxes. Consequently a collision verdict always comes
    with an item of the scene, other than the dragged one, whose box
    overlaps the candidate box and such that at least one of the two is
    large-class. *)
Theorem small_pairs_are_skipped (st : RoomState) (item : FurnitureItem)
  (x y z : Q) :
  (forall pre other post,
     furniture st = pre ++ other :: post ->
     isSmallItem (type item) = true ->
     isSmallItem (type other) = true ->
     checkCollision M st item x y z
     = checkCollision M (set_furniture st (pre ++ post)) item x y z) /\
  (checkCollision M st item x y z = true ->
   exists other,
     In other (furniture st) /\ id other <> id item /\
     (isSmallItem (type item) = false \/ isSmallItem (type other) = false) /\
     overlap_on_all_axes (collisionBox M item x y z) (otherBox M other)).
Proof.
  split.
  - intros pre other post Hf Hi Ho. unfold checkCollision. rewrite Hf. simpl.
    apply collision_loop_skip_small; assumption.
  - unfold checkCollision. intros H.
    apply collision_loop_spec in H. destruct H as (o & Hin & He & Hb).
    exists o. unfold eligible in He.
    rewrite !andb_true_iff, !negb_true_iff in He.
    destruct He as ((Hid & _) & Hs).
    split; [exact Hin | split; [| split]].
    + intros E. rewrite E, String.eqb_refl in Hid. discriminate.
    + apply andb_false_iff in Hs. exact Hs.
    + apply boxes_overlap_spec, Hb.
Qed.

(** C5. The collision box of an item has the rotation-projected width and
    depth, each times the shrink factor of the item's class (0.5 small,
    0.95 large), centred on (x, z), and the height times the same factor
    upwards from y. A collision is reported exactly when the scene holds an
    item that is not excluded and whose box, where it stands, overlaps the
    candidate's box on all three axes. Excluded are the items with the
    candidate's own identifier; in detail-edit mode, the items with the
    host's identifier; and every small-class item when the candidate is
    small-class. *)
Theorem checkCollision_spec (st : RoomState) (item : FurnitureItem)
  (x y z : Q) :
  (forall f : FurnitureItem,
     let r := rotation f * Math_PI M / 180 in
     let shrink := if isSmallItem (type f) then 0.5 else 0.95 in
     effectiveWidth M f
     = (width (dimensions f) * Qabs (Math_cos M r)
        + depth (dimensions f) * Qabs (Math_sin M r)) * shrink /\
     effectiveDepth M f
     = (width (dimensions f) * Qabs (Math_sin M r)
        + depth (dimensions f) * Qabs (Math_cos M r)) * shrink /\
     forall bx bY bz,
       collisionBox M f bx bY bz
       = {| minX := bx - effectiveWidth M f / 2;
            maxX := bx + effectiveWidth M f / 2;
            minY := bY;
            maxY := bY + height (dimensions f) * shrink;
            minZ := bz - effectiveDepth M f / 2;
            maxZ := bz + effectiveDepth M f / 2 |}) /\
  (checkCollision M st item x y z = true <->
   exists other,
     In other (furniture st) /\
     id other <> id item /\
     (forall t, detailModeTarget st = Some t -> id other <> t) /\
     ~ (isSmallItem (type item) = true /\ isSmallItem (type other) = true) /\
     overlap_on_all_axes
       (collisionBox M item x y z)
       (collisionBox M other (px (position other)) (py (position other))
                     (pz (position other)))).
Proof.
  split.
  - intros f. cbv zeta. repeat split.
  - unfold checkCollision. rewrite collision_loop_spec. split.
    + intros (o & Hin & He & Hb). exists o.
      apply eligible_not_excluded in He.
      split; [exact Hin |].
      split; [intros E; apply He; left; exact E |].
      split; [intros t Ht E; apply He; right; left; rewrite Ht, E;
              reflexivity |].
      split; [intros E; apply He; right; right; exact E |].
      apply boxes_overlap_spec in Hb. exact Hb.
    + intros (o & Hin & Hid & Hhost & Hsmall & Hb). exists o.
      split; [exact Hin | split].
      * apply eligible_not_excluded. intros [E | [E | E]].
        -- exact (Hid E).
        -- exact (Hhost (id o) E eq_refl).
        -- exact (Hsmall E).
      * apply boxes_overlap_spec. exact Hb.
Qed.

End Collision.

Lemma small_pairs_are_skipped_witness :
  furniture two_books = [book_1] ++ book_2 :: [] /\
  isSmallItem (type book_1) = true /\
  isSmallItem (type book_2) = true /\
  boxes_overlap (collisionBox example_math book_1 0 0 0)
                (otherBox example_math book_2) = true /\
  checkCollision example_math two_books book_1 0 0 0 = false.
Proof.
  split; [reflexivity |]. split; [reflexivity |]. split; [reflexivity |].
  split; [reflexivity |].
  rewrite (proj1 (small_pairs_are_skipped example_math two_books book_1 0 0 0)
             [book_1] book_2 [] eq_refl eq_refl eq_refl).
  reflexivity.
Defined.

(** The desk put where the bed stands collides with it. *)
Example desk_on_bed_collides :
  checkCollision example_math bedroom desk_B 0 0 0 = true.
Proof. reflexivity. Qed.

(** ** The drag session *)

Section Drag.
Variable M : JsMath.

Lemma dragHandler_move_memo item memo hit w :
  snd (dragHandler M item true false memo hit w) = memo.
Proof. unfold dragHandler. simpl. destruct hit; reflexivity. Qed.

Lemma dragMoves_memo hits : forall i memo w,
  snd (dragMoves M i memo hits w) = memo.
Proof.
  induction hits as [| hit hits IH]; intros i memo w; cbn [dragMoves].
  - reflexivity.
  - destruct (rendered (store w) i) as [item |]; [| reflexivity].
    pose proof (dragHandler_move_memo item memo hit w) as E.
    destruct (dragHandler M item true false memo hit w) as [w1 memo1].
    simpl in E. subst memo1. apply IH.
Qed.

Lemma rendered_id st i item : rendered st i = Some item -> id item = i.
Proof.
  unfold rendered. intros H. apply find_some in H. destruct H as [_ H].
  unfold same_id in H. apply String.eqb_eq in H. exact H.
Qed.

Lemma updateFurniturePosition_spec i p st f :
  In f (furniture (updateFurniturePosition i p st)) ->
  (id f = i -> position f = p) /\
  (id f <> i -> In f (furniture st)).
Proof.
  unfold updateFurniturePosition. simpl. intros H.
  apply in_map_iff in H. destruct H as (g & E & Hin).
  unfold same_id in E. destruct (String.eqb (id g) i) eqn:Eg.
  - subst f. simpl. apply String.eqb_eq in Eg. split; [reflexivity |].
    intros N. contradiction.
  - subst f. apply String.eqb_neq in Eg. split; [contradiction | auto].
Qed.

(** C2. A gesture on an item starts with pointer-down, which captures the
    item's position, goes through any number of pointer-moves, and ends with
    pointer-up or pointer-cancel. At the end, if the item's live position
    collides, every entry of the store with the item's identifier is given
    exactly the position captured at the start, the other entries are
    untouched, and no placement sound is played; if it does not collide, the
    furniture is left as it is and the placement sound is played once. The
    shared isDragging flag is cleared either way. *)
Theorem drag_end_commits_or_reverts (item0 : FurnitureItem)
  (hits : list (option (Q * Q))) (w0 : World) (item : FurnitureItem) :
  let started := dragStart M item0 w0 in
  let moved := dragMoves M (id item0) (snd started) hits (fst started) in
  let w := fst moved in
  rendered (store w) (id item0) = Some item ->
  let w' := fst (dragEnd M item (snd moved) w) in
  isDragging (store w') = false /\
  (checkCollision M (store w) item (px (position item)) (py (position item))
                  (pz (position item)) = true ->
   furniture (store w')
   = furniture (updateFurniturePosition (id item0) (position item0) (store w)) /\
   (forall f, In f (furniture (store w')) -> id f = id item0 ->
              position f = position item0) /\
   (forall f, In f (furniture (store w')) -> id f <> id item0 ->
              In f (furniture (store w))) /\
   placeSounds w' = placeSounds w) /\
  (checkCollision M (store w) item (px (position item)) (py (position item))
                  (pz (position item)) = false ->
   furniture (store w') = furniture (store w) /\
   placeSounds w' = S (placeSounds w)).
Proof.
  intros started moved w Hr w'.
  assert (Hmemo : snd moved = Some {| startPos := position item0 |}).
  { unfold moved. rewrite dragMoves_memo. reflexivity. }
  pose proof (rendered_id _ _ _ Hr) as Hid.
  subst w'. unfold dragEnd, dragHandler. rewrite Hmemo. simpl.
  destruct (checkCollision M (store w) item (px (position item))
              (py (position item)) (pz (position item))) eqn:Ec; simpl.
  - split; [reflexivity |]. split; [| discriminate].
    intros _. rewrite Hid. split; [reflexivity |].
    split; [| split; [| reflexivity]].
    + intros f Hin. apply (updateFurniturePosition_spec _ _ _ _ Hin).
    + intros f Hin. apply (updateFurniturePosition_spec _ _ _ _ Hin).
  - split; [reflexivity |]. split; [discriminate |].
    intros _. split; reflexivity.
Qed.

End Drag.

Lemma drag_end_commits_or_reverts_witness :
  let started := dragStart example_math desk_B (world_of bedroom) in
  let moved :=
    dragMoves example_math "B" (snd started) [Some (0, 0)] (fst started) in
  exists item,
    rendered (store (fst moved)) "B" = Some item /\
    checkCollision example_math (store (fst moved)) item
      (px (position item)) (py (position item)) (pz (position item)) = true /\
    map position
      (furniture
         (store (fst (dragEnd example_math item (snd moved) (fst moved)))))
    = [(0, 0, 0); (2, 0, 1)].
Proof.
  intros started moved.
  destruct (rendered (store (fst moved)) "B") as [item |] eqn:Hr;
    [| vm_compute in Hr; discriminate Hr].
  exists item.
  assert (Hc : checkCollision example_math (store (fst moved)) item
                 (px (position item)) (py (position item))
                 (pz (position item)) = true).
  { vm_compute in Hr. injection Hr as <-. reflexivity. }
  split; [reflexivity | split; [exact Hc |]].
  destruct (drag_end_commits_or_reverts example_math desk_B [Some (0, 0)]
              (world_of bedroom) item Hr) as (_ & Hrev & _).
  destruct (Hrev Hc) as (Hf & _).
  etransitivity; [exact (f_equal (map position) Hf) |].
  vm_compute in Hr. injection Hr as <-. reflexivity.
Defined.

(** ** binary64 rounding *)

(** Rounding to the nearest integer moves by at most a half. *)
Lemma round_half_even_near x :
  x - (1 # 2) <= inject_Z (round_half_even x) /\
  inject_Z (round_half_even x) <= x + (1 # 2).
Proof.
  unfold round_half_even.
  pose proof (Qfloor_le x) as L. pose proof (Qlt_floor x) as U.
  rewrite inject_Z_plus in U. change (inject_Z 1) with 1 in U.
  destruct (Qcompare_spec (x - inject_Z (Qfloor x)) (1 # 2)) as [E | E | E].
  - destruct (Z.even (Qfloor x)).
    + lra.
    + rewrite inject_Z_plus. change (inject_Z 1) with 1. lra.
  - lra.
  - rewrite inject_Z_plus. change (inject_Z 1) with 1. lra.
Qed.

Lemma pow2_pos (e : Z) : 0 < 2 ^ e.
Proof. apply Qpower_0_lt. reflexivity. Qed.

Lemma pow2_Z (n : Z) : (0 <= n)%Z -> inject_Z (2 ^ n) == 2 ^ n.
Proof. intros H. rewrite Zpower_Qpower by exact H. reflexivity. Qed.

Lemma pow2_succ (e : Z) : 2 ^ (e + 1) == 2 * 2 ^ e.
Proof.
  rewrite Qpower_plus by discriminate. change (2 ^ 1) with 2. ring.
Qed.

(** [ilog2] is the binade of a positive number. *)
Lemma ilog2_spec (a : Q) :
  0 < a -> 2 ^ ilog2 a <= a /\ a < 2 ^ (ilog2 a + 1).
Proof.
  intros Ha. unfold ilog2.
  destruct a as [n d]. cbn [Qnum Qden].
  assert (Hn : (0 < n)%Z).
  { unfold Qlt in Ha. simpl in Ha. lia. }
  pose proof (Z.log2_spec n Hn) as [Ln Un].
  pose proof (Z.log2_spec (Z.pos d) (Pos2Z.is_pos d)) as [Ld Ud].
  pose proof (Z.log2_nonneg n) as Nn.
  pose proof (Z.log2_nonneg (Z.pos d)) as Nd.
  set (ln := Z.log2 n) in *. set (ld := Z.log2 (Z.pos d)) in *.
  assert (Qn : 2 ^ ln <= inject_Z n /\ inject_Z n < 2 * 2 ^ ln).
  { rewrite <- pow2_succ, <- !pow2_Z by lia.
    rewrite <- Zle_Qle, <- Zlt_Qlt. replace (ln + 1)%Z with (Z.succ ln) by lia.
    auto. }
  assert (Qd : 2 ^ ld <= inject_Z (Z.pos d) /\ inject_Z (Z.pos d) < 2 * 2 ^ ld).
  { rewrite <- pow2_succ, <- !pow2_Z by lia.
    rewrite <- Zle_Qle, <- Zlt_Qlt. replace (ld + 1)%Z with (Z.succ ld) by lia.
    auto. }
  assert (Ea : n # d == inject_Z n / inject_Z (Z.pos d)) by apply Qmake_Qdiv.
  assert (Dp : 0 < inject_Z (Z.pos d)).
  { change 0 with (inject_Z 0). rewrite <- Zlt_Qlt. lia. }
  assert (Ek : 2 ^ (ln - ld) == 2 ^ ln / 2 ^ ld).
  { apply Qpower_minus. discriminate. }
  pose proof (pow2_pos ln) as Pn. pose proof (pow2_pos ld) as Pd.
  set (N := inject_Z n) in *. set (D := inject_Z (Z.pos d)) in *.
  set (A := 2 ^ ln) in *. set (B := 2 ^ ld) in *.
  assert (Lo : A / B / 2 <= N / D).
  { apply Qle_shift_div_l; [exact Dp |].
    assert (E : A / B / 2 * D == A * D / 2 / B) by (field; lra).
    rewrite E. apply Qle_shift_div_r; [exact Pd |].
    assert (H1 : 0 <= A * (2 * B - D)) by (apply Qmult_le_0_compat; lra).
    assert (H2 : 0 <= (N - A) * B) by (apply Qmult_le_0_compat; lra).
    unfold Qdiv. change (/ 2) with (1 # 2). lra. }
  assert (Hi : N / D < 2 * (A / B)).
  { apply Qlt_shift_div_r; [exact Dp |].
    assert (E : 2 * (A / B) * D == 2 * A * D / B) by (field; lra).
    rewrite E. apply Qlt_shift_div_l; [exact Pd |].
    assert (H1 : 0 < (2 * A - N) * D) by (apply Qmult_lt_0_compat; lra).
    assert (H2 : 0 <= N * (D - B)) by (apply Qmult_le_0_compat; lra).
    lra. }
  destruct (Qle_bool (2 ^ (ln - ld)) (n # d)) eqn:T.
  - apply Qle_bool_iff in T. split; [exact T |].
    rewrite pow2_succ, Ek, Ea. exact Hi.
  - assert (T' : n # d < 2 ^ (ln - ld)).
    { apply Qnot_le_lt. intros H. apply Qle_bool_iff in H. congruence. }
    replace (ln - ld - 1 + 1)%Z with (ln - ld)%Z by lia.
    split; [| exact T'].
    assert (E : 2 ^ (ln - ld) == 2 * 2 ^ (ln - ld - 1)).
    { rewrite <- pow2_succ. replace (ln - ld - 1 + 1)%Z with (ln - ld)%Z by lia.
      reflexivity. }
    rewrite Ek in E. rewrite Ea.
    pose proof (pow2_pos (ln - ld - 1)) as P.
    set (X := 2 ^ (ln - ld - 1)) in *.
    set (R := A / B) in *. set (S := N / D) in *.
    unfold Qdiv in Lo. change (/ 2) with (1 # 2) in Lo. lra.
Qed.

(** The standard model of binary64: a relative error of at most 2^-53. *)
Lemma double_error (x : Q) : Qabs (double x - x) <= u53 * Qabs x.
Proof.
  unfold double. destruct (Qeq_bool x 0) eqn:Ez.
  - apply Qeq_bool_iff in Ez. rewrite Ez. vm_compute. discriminate.
  - assert (Nz : ~ x == 0).
    { intros H. apply Qeq_bool_iff in H. congruence. }
    rewrite Qred_correct. unfold ulp.
    assert (Ha : 0 < Qabs x).
    { destruct (Qlt_le_dec 0 x) as [P | P].
      - rewrite Qabs_pos by lra. exact P.
      - destruct (Qlt_le_dec x 0) as [N | N].
        + rewrite Qabs_neg by lra. lra.
        + exfalso. apply Nz. lra. }
    destruct (ilog2_spec _ Ha) as [Lo _].
    set (e := ilog2 (Qabs x)) in *.
    assert (Eu : 2 ^ (e - 52) == 2 ^ e * (1 # 4503599627370496)).
    { unfold Z.sub. rewrite Qpower_plus by discriminate. reflexivity. }
    pose proof (pow2_pos (e - 52)) as Pu.
    set (ul := 2 ^ (e - 52)) in *.
    destruct (round_half_even_near (x / ul)) as [R1 R2].
    set (m := inject_Z (round_half_even (x / ul))) in *.
    assert (Ex : x == x / ul * ul) by (field; lra).
    set (y := x / ul) in *.
    pose proof (pow2_pos e) as Pe. set (E := 2 ^ e) in *.
    unfold u53.
    assert (Em : m * ul - x == (m - y) * ul).
    { transitivity (m * ul - y * ul); [| ring]. rewrite <- Ex. reflexivity. }
    assert (H1 : 0 <= (m - y + (1 # 2)) * ul)
      by (apply Qmult_le_0_compat; lra).
    assert (H2 : 0 <= (y + (1 # 2) - m) * ul)
      by (apply Qmult_le_0_compat; lra).
    set (a := Qabs x) in *.
    apply Qabs_Qle_condition. rewrite Em. split; lra.
Qed.

Lemma Qfloor_unique (n : Z) (y : Q) :
  inject_Z n <= y -> y < inject_Z n + 1 -> Qfloor y = n.
Proof.
  intros L U.
  pose proof (Qfloor_le y) as L'. pose proof (Qlt_floor y) as U'.
  rewrite inject_Z_plus in U'. change (inject_Z 1) with 1 in U'.
  assert (A : inject_Z (Qfloor y) < inject_Z (n + 1)).
  { rewrite inject_Z_plus. change (inject_Z 1) with 1. lra. }
  assert (B : inject_Z n < inject_Z (Qfloor y + 1)).
  { rewrite inject_Z_plus. change (inject_Z 1) with 1. lra. }
  rewrite <- Zlt_Qlt in A, B. lia.
Qed.

Lemma Qabs_bounds x b : Qabs x <= b -> - b <= x /\ x <= b.
Proof. intros H. apply Qabs_Qle_condition. exact H. Qed.

(** Multiplying an index below 2^51 by the cell and dividing by the cell
    again, both rounded, stays within a half of the index. *)
Lemma snapped_index_is_kept (n : Z) (cell : Q) :
  0 < cell ->
  (Z.abs n < 2 ^ 51)%Z ->
  Math_round (double (double (inject_Z n * cell) / cell)) = inject_Z n.
Proof.
  intros Hc Hn.
  pose proof (double_error (inject_Z n * cell)) as E1.
  set (s := double (inject_Z n * cell)) in *.
  pose proof (double_error (s / cell)) as E2.
  set (dq := double (s / cell)) in *.
  assert (Es : s == s / cell * cell) by (field; lra).
  set (q := s / cell) in *.
  rewrite Qabs_Qmult, (Qabs_pos cell) in E1 by lra.
  assert (Ha : Qabs (inject_Z n) <= 2251799813685247).
  { change (Qabs (inject_Z n)) with (inject_Z (Z.abs n)).
    change 2251799813685247 with (inject_Z (2 ^ 51 - 1)).
    rewrite <- Zle_Qle. lia. }
  pose proof (Qabs_nonneg (inject_Z n)) as Ha0.
  set (N := inject_Z n) in *. set (a := Qabs N) in *.
  apply Qabs_bounds in E1. destruct E1 as [E1 E1'].
  unfold u53 in *.
  assert (Q1 : - ((1 # 9007199254740992) * a) <= q - N).
  { apply Qmult_le_r with (z := cell); [exact Hc |].
    rewrite Es in E1. lra. }
  assert (Q2 : q - N <= (1 # 9007199254740992) * a).
  { apply Qmult_le_r with (z := cell); [exact Hc |].
    rewrite Es in E1'. lra. }
  assert (Q3 : Qabs q <= a + (1 # 9007199254740992) * a).
  { apply Qabs_Qle_condition. unfold a in *.
    destruct (Qabs_bounds N (Qabs N) (Qle_refl _)) as [B1 B2]. 
    split; lra. }
  apply Qabs_bounds in E2. destruct E2 as [E2 E2'].
  set (aq := Qabs q) in *.
  unfold Math_round, N. f_equal. apply Qfloor_unique; fold N; lra.
Qed.

Lemma round_half_even_range x :
  (Qfloor x <= round_half_even x <= Qfloor x + 1)%Z.
Proof.
  unfold round_half_even.
  destruct (Qcompare (x - inject_Z (Qfloor x)) (1 # 2));
    [destruct (Z.even (Qfloor x)) | |]; lia.
Qed.

Lemma round_half_even_integer k : round_half_even (inject_Z k) = k.
Proof.
  unfold round_half_even. rewrite Qfloor_Z.
  destruct (Qcompare_spec (inject_Z k - inject_Z k) (1 # 2)) as [E | E | E].
  - lra.
  - reflexivity.
  - lra.
Qed.

Lemma round_half_even_mono a b :
  a <= b -> (round_half_even a <= round_half_even b)%Z.
Proof.
  intros H. pose proof (Qfloor_resp_le a b H) as F.
  pose proof (round_half_even_range a) as Ra.
  pose proof (round_half_even_range b) as Rb.
  destruct (Z.eq_dec (Qfloor a) (Qfloor b)) as [E | E]; [| lia].
  clear Ra Rb F. unfold round_half_even. rewrite <- E.
  destruct (Qcompare_spec (a - inject_Z (Qfloor a)) (1 # 2)) as [A | A | A];
    destruct (Qcompare_spec (b - inject_Z (Qfloor a)) (1 # 2)) as [B | B | B];
    try destruct (Z.even (Qfloor a)); try lia; exfalso; lra.
Qed.

Lemma double_zero x : x == 0 -> double x = 0.
Proof.
  intros H. unfold double. apply Qeq_bool_iff in H. rewrite H. reflexivity.
Qed.

Lemma double_eq x :
  ~ x == 0 -> double x == inject_Z (round_half_even (x / ulp x)) * ulp x.
Proof.
  intros H. unfold double. destruct (Qeq_bool x 0) eqn:E.
  - apply Qeq_bool_iff in E. contradiction.
  - apply Qred_correct.
Qed.

Lemma Qabs_pos_eq x : 0 < x -> Qabs x = x.
Proof.
  destruct x as [n d]. unfold Qlt. simpl. intros H.
  rewrite Z.abs_eq by lia. reflexivity.
Qed.

Lemma Qabs_neg_eq x : x < 0 -> Qabs x = - x.
Proof.
  destruct x as [n d]. unfold Qlt, Qopp. simpl. intros H.
  rewrite Z.abs_neq by lia. reflexivity.
Qed.

(** A positive number, scaled by its unit in the last place, has 53 bits. *)
Lemma scaled_bounds a :
  0 < a ->
  inject_Z (2 ^ 52) <= a / 2 ^ (ilog2 a - 52) /\
  a / 2 ^ (ilog2 a - 52) <= inject_Z (2 ^ 53).
Proof.
  intros Ha. destruct (ilog2_spec a Ha) as [Lo Hi].
  rewrite pow2_succ in Hi.
  assert (Eu : 2 ^ (ilog2 a - 52) == 2 ^ ilog2 a * (1 # 4503599627370496)).
  { unfold Z.sub. rewrite Qpower_plus by discriminate. reflexivity. }
  pose proof (pow2_pos (ilog2 a)) as Pe.
  pose proof (pow2_pos (ilog2 a - 52)) as Pu.
  set (E := 2 ^ ilog2 a) in *. set (u := 2 ^ (ilog2 a - 52)) in *.
  change (inject_Z (2 ^ 52)) with 4503599627370496.
  change (inject_Z (2 ^ 53)) with 9007199254740992.
  split.
  - apply Qle_shift_div_l; [exact Pu | lra].
  - apply Qle_shift_div_r; [exact Pu | lra].
Qed.

(** A double stays in the closed binade of the number it rounds. *)
Lemma double_bounds_pos x :
  0 < x -> 2 ^ ilog2 x <= double x /\ double x <= 2 ^ (ilog2 x + 1).
Proof.
  intros Hx. rewrite double_eq by lra. unfold ulp.
  rewrite (Qabs_pos_eq x Hx).
  destruct (scaled_bounds x Hx) as [Lo Hi].
  apply round_half_even_mono in Lo, Hi.
  rewrite round_half_even_integer in Lo, Hi.
  rewrite Zle_Qle in Lo, Hi.
  change (inject_Z (2 ^ 52)) with 4503599627370496 in Lo.
  change (inject_Z (2 ^ 53)) with 9007199254740992 in Hi.
  rewrite pow2_succ.
  assert (Eu : 2 ^ (ilog2 x - 52) == 2 ^ ilog2 x * (1 # 4503599627370496)).
  { unfold Z.sub. rewrite Qpower_plus by discriminate. reflexivity. }
  pose proof (pow2_pos (ilog2 x - 52)) as Pu.
  set (u := 2 ^ (ilog2 x - 52)) in *.
  set (m := inject_Z (round_half_even (x / u))) in *.
  assert (H1 : 0 <= (m - 4503599627370496) * u)
    by (apply Qmult_le_0_compat; lra).
  assert (H2 : 0 <= (9007199254740992 - m) * u)
    by (apply Qmult_le_0_compat; lra).
  set (E := 2 ^ ilog2 x) in *. split; lra.
Qed.

Lemma double_bounds_neg x :
  x < 0 ->
  - 2 ^ (ilog2 (- x) + 1) <= double x /\ double x <= - 2 ^ ilog2 (- x).
Proof.
  intros Hx. rewrite double_eq by lra. unfold ulp.
  rewrite (Qabs_neg_eq x Hx).
  assert (Ha : 0 < - x) by lra.
  destruct (scaled_bounds (- x) Ha) as [Lo Hi].
  pose proof (pow2_pos (ilog2 (- x) - 52)) as Pu.
  assert (Eu : 2 ^ (ilog2 (- x) - 52)
               == 2 ^ ilog2 (- x) * (1 # 4503599627370496)).
  { unfold Z.sub. rewrite Qpower_plus by discriminate. reflexivity. }
  rewrite pow2_succ.
  set (u := 2 ^ (ilog2 (- x) - 52)) in *.
  assert (En : - x / u == - (x / u)) by (field; lra).
  rewrite En in Lo, Hi.
  assert (Lo' : x / u <= inject_Z (- 2 ^ 52)).
  { change (inject_Z (- 2 ^ 52)) with (- inject_Z (2 ^ 52)). lra. }
  assert (Hi' : inject_Z (- 2 ^ 53) <= x / u).
  { change (inject_Z (- 2 ^ 53)) with (- inject_Z (2 ^ 53)). lra. }
  apply round_half_even_mono in Lo', Hi'.
  rewrite round_half_even_integer in Lo', Hi'.
  rewrite Zle_Qle in Lo', Hi'.
  change (inject_Z (- 2 ^ 52)) with (- (4503599627370496)) in Lo'.
  change (inject_Z (- 2 ^ 53)) with (- (9007199254740992)) in Hi'.
  set (m := inject_Z (round_half_even (x / u))) in *.
  assert (H1 : 0 <= (- (4503599627370496) - m) * u)
    by (apply Qmult_le_0_compat; lra).
  assert (H2 : 0 <= (m + 9007199254740992) * u)
    by (apply Qmult_le_0_compat; lra).
  set (E := 2 ^ ilog2 (- x)) in *. split; lra.
Qed.

Lemma ilog2_mono x y : 0 < x -> x <= y -> (ilog2 x <= ilog2 y)%Z.
Proof.
  intros Hx Hxy.
  destruct (ilog2_spec x Hx) as [Lx _].
  destruct (ilog2_spec y) as [_ Uy]; [lra |].
  assert (H : 2 ^ ilog2 x < 2 ^ (ilog2 y + 1)) by lra.
  apply Qpower_lt_compat_l_inv in H; [lia | reflexivity].
Qed.

(** Rounding to a double keeps the order. *)
Lemma double_mono x y : x <= y -> double x <= double y.
Proof.
  intros H.
  destruct (Q_dec x 0) as [[Nx | Px] | Zx];
    destruct (Q_dec y 0) as [[Ny | Py] | Zy];
    try (exfalso; lra).
  - (* both negative *)
    assert (Hm : (ilog2 (- y) <= ilog2 (- x))%Z)
      by (apply ilog2_mono; lra).
    destruct (Z.eq_dec (ilog2 (- y)) (ilog2 (- x))) as [E | E].
    + rewrite !double_eq by lra. unfold ulp.
      rewrite (Qabs_neg_eq x Nx), (Qabs_neg_eq y Ny), E.
      pose proof (pow2_pos (ilog2 (- x) - 52)) as Pu.
      set (u := 2 ^ (ilog2 (- x) - 52)) in *.
      assert (D : x / u <= y / u).
      { apply Qle_shift_div_l; [exact Pu |].
        assert (Ex : x / u * u == x) by (field; lra). lra. }
      apply round_half_even_mono in D. rewrite Zle_Qle in D.
      apply Qmult_le_compat_r; lra.
    + destruct (double_bounds_neg x Nx) as [_ Ux].
      destruct (double_bounds_neg y Ny) as [Ly _].
      assert (P : 2 ^ (ilog2 (- y) + 1) <= 2 ^ ilog2 (- x)).
      { apply Qpower_le_compat_l; [lia | discriminate]. }
      lra.
  - (* x negative, y positive *)
    destruct (double_bounds_neg x Nx) as [_ Ux].
    destruct (double_bounds_pos y Py) as [Ly _].
    pose proof (pow2_pos (ilog2 (- x))). pose proof (pow2_pos (ilog2 y)). lra.
  - rewrite (double_zero y Zy).
    destruct (double_bounds_neg x Nx) as [_ Ux].
    pose proof (pow2_pos (ilog2 (- x))). lra.
  - (* both positive *)
    assert (Hm : (ilog2 x <= ilog2 y)%Z) by (apply ilog2_mono; lra).
    destruct (Z.eq_dec (ilog2 x) (ilog2 y)) as [E | E].
    + rewrite !double_eq by lra. unfold ulp.
      rewrite (Qabs_pos_eq x Px), (Qabs_pos_eq y Py), E.
      pose proof (pow2_pos (ilog2 y - 52)) as Pu.
      set (u := 2 ^ (ilog2 y - 52)) in *.
      assert (D : x / u <= y / u).
      { apply Qle_shift_div_l; [exact Pu |].
        assert (Ex : x / u * u == x) by (field; lra). lra. }
      apply round_half_even_mono in D. rewrite Zle_Qle in D.
      apply Qmult_le_compat_r; lra.
    + destruct (double_bounds_pos x Px) as [_ Ux].
      destruct (double_bounds_pos y Py) as [Ly _].
      assert (P : 2 ^ (ilog2 x + 1) <= 2 ^ ilog2 y).
      { apply Qpower_le_compat_l; [lia | discriminate]. }
      lra.
  - rewrite (double_zero x Zx).
    destruct (double_bounds_pos y Py) as [Ly _].
    pose proof (pow2_pos (ilog2 y)). lra.
  - rewrite (double_zero x Zx), (double_zero y Zy). lra.
Qed.

(** Known doubles: the constants 0.1 and 0.005, a third, and two ties just
    above 2^53, where the doubles are the even integers. *)
Example double_values :
  double 0.1 = 3602879701896397 # 36028797018963968 /\
  double 0.005 = 5764607523034235 # 1152921504606846976 /\
  double (1 # 3) = 6004799503160661 # 18014398509481984 /\
  double (inject_Z (2 ^ 53 + 1)) = inject_Z (2 ^ 53) /\
  double (inject_Z (2 ^ 53 + 3)) = inject_Z (2 ^ 53 + 4) /\
  double (- inject_Z (2 ^ 53 + 1)) = - inject_Z (2 ^ 53).
Proof. repeat split; vm_compute; reflexivity. Qed.

(** ** Grid snapping *)

(** C8, as the code has it. The cell is the double 0.005 for a small-class
    item and gridSize / 4 otherwise. When the cell is positive and the cell
    index Math.round(v / cell) of the coordinate is below 2^51 in magnitude,
    snapping returns the double nearest to index * cell and snapping that
    value again returns it unchanged. *)
Theorem snapToGrid_idempotent (gridSize : Q) (item : FurnitureItem) (v : Q) :
  let cell := if isSmallItem (type item) then double 0.005
              else double (gridSize / 4) in
  let index := Math_round (double (v / cell)) in
  0 < cell ->
  Qabs index < inject_Z (2 ^ 51) ->
  snapToGrid gridSize item v = double (index * cell) /\
  snapToGrid gridSize item (snapToGrid gridSize item v)
  = snapToGrid gridSize item v.
Proof.
  intros cell index Hc Hi. split; [reflexivity |].
  unfold snapToGrid, fineGrid. cbv zeta. fold cell. fold index.
  unfold index, Math_round in Hi |- *.
  set (n := Qfloor (double (v / cell) + 0.5)) in *.
  assert (Hn : (Z.abs n < 2 ^ 51)%Z).
  { rewrite Zlt_Qlt. exact Hi. }
  clearbody n cell.
  pose proof (snapped_index_is_kept n cell Hc Hn) as K.
  unfold Math_round in K. rewrite K. reflexivity.
Qed.

Lemma snapToGrid_idempotent_witness :
  let cell := double (0.1 / 4) in
  let fine := double 0.005 in
  (0 < cell /\
   Qabs (Math_round (double (1.23 / cell))) < inject_Z (2 ^ 51) /\
   snapToGrid 0.1 desk_B 1.23 = double (49 * cell) /\
   snapToGrid 0.1 desk_B (snapToGrid 0.1 desk_B 1.23)
   = snapToGrid 0.1 desk_B 1.23) /\
  (0 < fine /\
   Qabs (Math_round (double (0.1234 / fine))) < inject_Z (2 ^ 51) /\
   snapToGrid 0.1 book_1 0.1234 = double (25 * fine) /\
   snapToGrid 0.1 book_1 (snapToGrid 0.1 book_1 0.1234)
   = snapToGrid 0.1 book_1 0.1234).
Proof.
  intros cell fine.
  assert (Hc : 0 < cell) by reflexivity.
  assert (Hi : Qabs (Math_round (double (1.23 / cell)))
               < inject_Z (2 ^ 51)) by (vm_compute; reflexivity).
  assert (Hf : 0 < fine) by reflexivity.
  assert (Hj : Qabs (Math_round (double (0.1234 / fine)))
               < inject_Z (2 ^ 51)) by (vm_compute; reflexivity).
  split.
  - split; [exact Hc | split; [exact Hi | split]].
    + vm_compute. reflexivity.
    + exact (proj2 (snapToGrid_idempotent 0.1 desk_B 1.23 Hc Hi)).
  - split; [exact Hf | split; [exact Hj | split]].
    + vm_compute. reflexivity.
    + exact (proj2 (snapToGrid_idempotent 0.1 book_1 0.1234 Hf Hj)).
Defined.

(** The quotient is rounded before [Math.round] sees it: 0.0375 is a cell
    and a half of the 0.025 cell, the doubles give a quotient just below
    1.5, and the coordinate snaps down to one cell where exact arithmetic
    would snap up to two. *)
Example snapToGrid_rounds_the_quotient :
  double (double 0.0375 / double 0.025) < 1.5 /\
  snapToGrid 0.1 desk_B (double 0.0375) = double 0.025.
Proof. split; vm_compute; reflexivity. Qed.

(** C8 as stated fails far from the origin. The double
    20512659276253.273 lies about 4.1e15 cells of 0.005 out, beyond 2^51;
    it snaps to ...253.27734375, and that value snaps to ...253.28125. *)
Lemma snapToGrid_drifts_far_out :
  let v := double 20512659276253.273 in
  isSmallItem (type book_1) = true /\
  v = 2625620387360419 # 128 /\
  inject_Z (2 ^ 51) <= Math_round (double (v / double 0.005)) /\
  snapToGrid 0.1 book_1 v = 5251240774720839 # 256 /\
  snapToGrid 0.1 book_1 (snapToGrid 0.1 book_1 v) = 656405096840105 # 32 /\
  ~ snapToGrid 0.1 book_1 (snapToGrid 0.1 book_1 v)
    == snapToGrid 0.1 book_1 v.
Proof.
  cbv zeta.
  split; [reflexivity |].
  split; [vm_compute; reflexivity |].
  split; [vm_compute; discriminate |].
  split; [vm_compute; reflexivity |].
  split; [vm_compute; reflexivity |].
  intros H. vm_compute in H. discriminate H.
Qed.

(** ** Clamping during a drag *)

Lemma clamp_between lo hi x :
  lo <= hi ->
  lo <= Math_max lo (Math_min hi x) /\ Math_max lo (Math_min hi x) <= hi.
Proof.
  intros H. unfold Math_max, Math_min. split.
  - apply Q.le_max_l.
  - apply Q.max_lub; [exact H | apply Q.le_min_l].
Qed.

(** Division by the constant 2, as a product, for linear arithmetic. *)
Ltac halves := unfold Qdiv in *; change (/ 2) with (1 # 2) in *.

Section Clamp.
Variable M : JsMath.

Lemma abs_cos_nonneg r : 0 <= abs_cos M r.
Proof. apply Qabs_nonneg. Qed.

Lemma abs_sin_nonneg r : 0 <= abs_sin M r.
Proof. apply Qabs_nonneg. Qed.

Lemma effectiveWidth_half f :
  effectiveWidth M f / 2
  == effectiveHalfWidth M f * shrink_factor (isSmallItem (type f)).
Proof. unfold effectiveWidth, effectiveHalfWidth. field. Qed.

Lemma effectiveDepth_half f :
  effectiveDepth M f / 2
  == effectiveHalfDepth M f * shrink_factor (isSmallItem (type f)).
Proof. unfold effectiveDepth, effectiveHalfDepth. field. Qed.

Lemma effectiveHalfWidth_nonneg f :
  0 <= width (dimensions f) -> 0 <= depth (dimensions f) ->
  0 <= effectiveHalfWidth M f /\ 0 <= effectiveHalfDepth M f.
Proof.
  intros Hw Hd. unfold effectiveHalfWidth, effectiveHalfDepth.
  pose proof (abs_cos_nonneg (rotation f)) as Hc.
  pose proof (abs_sin_nonneg (rotation f)) as Hs.
  assert (Hw2 : 0 <= width (dimensions f) / 2) by (halves; lra).
  assert (Hd2 : 0 <= depth (dimensions f) / 2) by (halves; lra).
  pose proof (Qmult_le_0_compat _ _ Hw2 Hc).
  pose proof (Qmult_le_0_compat _ _ Hd2 Hs).
  pose proof (Qmult_le_0_compat _ _ Hw2 Hs).
  pose proof (Qmult_le_0_compat _ _ Hd2 Hc).
  split; lra.
Qed.

(** A shrunk half-extent is no larger than the unshrunk one. *)
Lemma shrunk_le e small : 0 <= e -> e * shrink_factor small <= e.
Proof. intros H. destruct small; simpl; lra. Qed.

End Clamp.

Section DragClamp.
Variable M : JsMath.

Lemma movePosition_room st item hit :
  targetFurniture st = None ->
  movePosition M st item hit
  = (fst (clampPosition M (roomDimensions st) item
            (snapToGrid (gridSize st) item (fst hit))
            (snapToGrid (gridSize st) item (snd hit))),
     py (position item),
     snd (clampPosition M (roomDimensions st) item
            (snapToGrid (gridSize st) item (fst hit))
            (snapToGrid (gridSize st) item (snd hit)))).
Proof. intros H. unfold movePosition. rewrite H. reflexivity. Qed.

Lemma movePosition_target st item hit tf :
  targetFurniture st = Some tf ->
  movePosition M st item hit
  = (fst (clampToTarget tf item
            (snapToGrid (gridSize st) item (fst hit))
            (snapToGrid (gridSize st) item (snd hit))),
     py (position item),
     snd (clampToTarget tf item
            (snapToGrid (gridSize st) item (fst hit))
            (snapToGrid (gridSize st) item (snd hit)))).
Proof. intros H. unfold movePosition. rewrite H. reflexivity. Qed.

(** The detail-mode clamp reads the nominal width and depth only: the
    rotation of the dragged item plays no part in it. *)
Remark clampToTarget_ignores_rotation tf item r x z :
  clampToTarget tf (with_rotation item r) x z = clampToTarget tf item x z.
Proof. reflexivity. Qed.

(** C4, as the code has it. A pointer-move writes [movePosition] to every
    entry with the dragged item's identifier.
    In normal mode, when the item's rotation-projected footprint is not
    larger than the room floor, the written (x, z) lies in the room inset by
    the item's rotation-projected half-width and half-depth, no shrink
    factor applied; with non-negative width and depth the shrink-adjusted
    collision footprint then lies inside the room too.
    In detail-edit mode the clamp takes the nominal width and depth of item
    and host and a 0.02 margin: when the item's width and depth plus 0.04 do
    not exceed the host's, the item's nominal width-by-depth rectangle lies
    inside the host's nominal rectangle inset by 0.02. *)
Theorem drag_move_is_clamped (item : FurnitureItem) (memo : option Memo)
  (hit : Q * Q) (w : World) :
  let st := store w in
  let p := movePosition M st item hit in
  let w' := fst (dragHandler M item true false memo (Some hit) w) in
  (forall f, In f (furniture (store w')) -> id f = id item -> position f = p) /\
  (targetFurniture st = None ->
   effectiveHalfWidth M item <= Room.width (roomDimensions st) / 2 ->
   effectiveHalfDepth M item <= Room.length (roomDimensions st) / 2 ->
   (- (Room.width (roomDimensions st) / 2) + effectiveHalfWidth M item <= px p /\
    px p <= Room.width (roomDimensions st) / 2 - effectiveHalfWidth M item /\
    - (Room.length (roomDimensions st) / 2) + effectiveHalfDepth M item <= pz p /\
    pz p <= Room.length (roomDimensions st) / 2 - effectiveHalfDepth M item) /\
   (0 <= width (dimensions item) -> 0 <= depth (dimensions item) ->
    footprint_inside M item p 0 0 (Room.width (roomDimensions st) / 2)
                     (Room.length (roomDimensions st) / 2))) /\
  (forall tf,
     targetFurniture st = Some tf ->
     width (dimensions item) + 0.04 <= width (dimensions tf) ->
     depth (dimensions item) + 0.04 <= depth (dimensions tf) ->
     px (position tf) - width (dimensions tf) / 2 + 0.02
     <= px p - width (dimensions item) / 2 /\
     px p + width (dimensions item) / 2
     <= px (position tf) + width (dimensions tf) / 2 - 0.02 /\
     pz (position tf) - depth (dimensions tf) / 2 + 0.02
     <= pz p - depth (dimensions item) / 2 /\
     pz p + depth (dimensions item) / 2
     <= pz (position tf) + depth (dimensions tf) / 2 - 0.02).
Proof.
  intros st p w'. split; [| split].
  - intros f Hin Hid.
    exact (proj1 (updateFurniturePosition_spec (id item) p st f Hin) Hid).
  - intros Hn Hw Hd.
    assert (B : (- (Room.width (roomDimensions st) / 2)
                 + effectiveHalfWidth M item <= px p /\
                 px p <= Room.width (roomDimensions st) / 2
                         - effectiveHalfWidth M item) /\
                (- (Room.length (roomDimensions st) / 2)
                 + effectiveHalfDepth M item <= pz p /\
                 pz p <= Room.length (roomDimensions st) / 2
                         - effectiveHalfDepth M item)).
    { unfold p. rewrite (movePosition_room st item hit Hn).
      unfold px, py, pz, clampPosition. simpl fst. simpl snd.
      fold (effectiveHalfWidth M item). fold (effectiveHalfDepth M item).
      split; apply clamp_between; lra. }
    destruct B as ((Bx1 & Bx2) & (Bz1 & Bz2)).
    split; [tauto |].
    intros Hw0 Hd0. unfold footprint_inside. cbv zeta. simpl.
    destruct (effectiveHalfWidth_nonneg M item Hw0 Hd0) as [Ew Ed].
    pose proof (shrunk_le _ (isSmallItem (type item)) Ew) as Sw.
    pose proof (shrunk_le _ (isSmallItem (type item)) Ed) as Sd.
    rewrite (effectiveWidth_half M item), (effectiveDepth_half M item).
    repeat split; lra.
  - intros tf Ht Hw Hd.
    set (sx := snapToGrid (gridSize st) item (fst hit)).
    set (sz := snapToGrid (gridSize st) item (snd hit)).
    set (halfW := width (dimensions tf) / 2 - width (dimensions item) / 2 - 0.02).
    set (halfD := depth (dimensions tf) / 2 - depth (dimensions item) / 2 - 0.02).
    assert (Ex : px p = Math_max (px (position tf) - halfW)
                          (Math_min (px (position tf) + halfW) sx)).
    { unfold p. rewrite (movePosition_target st item hit tf Ht). reflexivity. }
    assert (Ez : pz p = Math_max (pz (position tf) - halfD)
                          (Math_min (pz (position tf) + halfD) sz)).
    { unfold p. rewrite (movePosition_target st item hit tf Ht). reflexivity. }
    rewrite Ex, Ez.
    assert (HW : 0 <= halfW) by (unfold halfW; halves; lra).
    assert (HD : 0 <= halfD) by (unfold halfD; halves; lra).
    destruct (clamp_between (px (position tf) - halfW)
                (px (position tf) + halfW) sx) as [X1 X2]; [lra |].
    destruct (clamp_between (pz (position tf) - halfD)
                (pz (position tf) + halfD) sz) as [Z1 Z2]; [lra |].
    generalize dependent (Math_max (px (position tf) - halfW)
                            (Math_min (px (position tf) + halfW) sx)).
    generalize dependent (Math_max (pz (position tf) - halfD)
                            (Math_min (pz (position tf) + halfD) sz)).
    intros cz Ez Z1 Z2 cx Ex X1 X2.
    unfold halfW, halfD in *. halves. repeat split; lra.
Qed.

End DragClamp.

(** A comparison of two closed rationals, by evaluation. *)
Ltac qle := vm_compute; discriminate.

Lemma drag_move_is_clamped_witness :
  (targetFurniture bedroom = None /\
   effectiveHalfWidth example_math desk_B
   <= Room.width (roomDimensions bedroom) / 2 /\
   effectiveHalfDepth example_math desk_B
   <= Room.length (roomDimensions bedroom) / 2 /\
   0 <= width (dimensions desk_B) /\
   0 <= depth (dimensions desk_B) /\
   footprint_inside example_math desk_B
     (movePosition example_math bedroom desk_B (10, -10))
     0 0 (Room.width (roomDimensions bedroom) / 2)
     (Room.length (roomDimensions bedroom) / 2)) /\
  (targetFurniture shelf_with_books = Some shelf_S /\
   width (dimensions (book_at "k1" 0.2 0.05 None)) + 0.04
   <= width (dimensions shelf_S) /\
   depth (dimensions (book_at "k1" 0.2 0.05 None)) + 0.04
   <= depth (dimensions shelf_S) /\
   px (movePosition example_math shelf_with_books
         (book_at "k1" 0.2 0.05 None) (5, 5))
   + width (dimensions (book_at "k1" 0.2 0.05 None)) / 2
   <= px (position shelf_S) + width (dimensions shelf_S) / 2 - 0.02).
Proof.
  assert (H1 : targetFurniture bedroom = None) by reflexivity.
  assert (H2 : effectiveHalfWidth example_math desk_B
               <= Room.width (roomDimensions bedroom) / 2) by qle.
  assert (H3 : effectiveHalfDepth example_math desk_B
               <= Room.length (roomDimensions bedroom) / 2) by qle.
  assert (H4 : 0 <= width (dimensions desk_B)) by qle.
  assert (H5 : 0 <= depth (dimensions desk_B)) by qle.
  assert (K1 : targetFurniture shelf_with_books = Some shelf_S) by reflexivity.
  assert (K2 : width (dimensions (book_at "k1" 0.2 0.05 None)) + 0.04
               <= width (dimensions shelf_S)) by qle.
  assert (K3 : depth (dimensions (book_at "k1" 0.2 0.05 None)) + 0.04
               <= depth (dimensions shelf_S)) by qle.
  split.
  - do 5 (split; [assumption |]).
    exact (proj2 (proj1 (proj2 (drag_move_is_clamped example_math desk_B None
                                  (10, -10) (world_of bedroom)))
                    H1 H2 H3) H4 H5).
  - do 3 (split; [assumption |]).
    exact (proj1 (proj2 (proj2 (proj2 (drag_move_is_clamped example_math
                                         (book_at "k1" 0.2 0.05 None) None
                                         (5, 5) (world_of shelf_with_books)))
                           shelf_S K1 K2 K3))).
Defined.

(** C4 as stated fails in detail-edit mode. With the 0.3-deep bookshelf
    as host and the 0.4-deep plant dragged with the pointer over the host's
    centre, the handler writes z = 0.07 for the plant; its shrink-adjusted
    collision footprint then reaches z = 0.17, past the host's front edge at
    z = 0.15, although that footprint is only 0.2 deep and would fit. *)
Lemma plant_dragged_on_shelf_sticks_out :
  let w := world_of shelf_with_plant in
  let p := movePosition example_math shelf_with_plant plant_P (0, 0) in
  rendered shelf_with_plant "P" = Some plant_P /\
  targetFurniture shelf_with_plant = Some shelf_S /\
  map position
    (furniture
       (store (fst (dragHandler example_math plant_P true false None
                      (Some (0, 0)) w))))
  = [position shelf_S; p] /\
  pz p == 0.07 /\
  maxZ (collisionBox example_math plant_P (px p) (py p) (pz p)) == 0.17 /\
  pz (position shelf_S) + effectiveHalfDepth example_math shelf_S == 0.15 /\
  ~ footprint_inside example_math plant_P p
      (px (position shelf_S)) (pz (position shelf_S))
      (effectiveHalfWidth example_math shelf_S)
      (effectiveHalfDepth example_math shelf_S).
Proof.
  intros w p.
  split; [reflexivity |]. split; [reflexivity |]. split; [reflexivity |].
  split; [reflexivity |]. split; [reflexivity |]. split; [reflexivity |].
  intros (_ & _ & _ & H). vm_compute in H. apply H. reflexivity.
Qed.

(** ** Arranging books in a row *)

Lemma same_id_with_position i f p :
  same_id i (with_position f p) = same_id i f.
Proof. reflexivity. Qed.

Section Row.
Variables baseY centerZ : Q.

Lemma arrangeRow_fold books : forall currentX st,
  furniture (snd (fold_left (arrangeRow_step baseY centerZ) books (currentX, st)))
  = map (row_entry baseY centerZ currentX books) (furniture st).
Proof.
  induction books as [| b rest IH]; intros currentX st.
  - simpl. symmetry. apply map_id.
  - cbn [fold_left arrangeRow_step]. rewrite IH. simpl furniture.
    rewrite !map_map. reflexivity.
Qed.

Lemma row_entry_id books : forall currentX f,
  id (row_entry baseY centerZ currentX books f) = id f.
Proof.
  induction books as [| b rest IH]; intros currentX f; simpl.
  - reflexivity.
  - rewrite IH. destruct (same_id (id b) f) eqn:E.
    + rewrite same_id_with_position, E. reflexivity.
    + rewrite E. reflexivity.
Qed.

Lemma row_entry_other books : forall currentX f,
  ~ In (id f) (map id books) ->
  row_entry baseY centerZ currentX books f = f.
Proof.
  induction books as [| b rest IH]; intros currentX f H; simpl.
  - reflexivity.
  - simpl in H.
    assert (E : same_id (id b) f = false).
    { unfold same_id. apply String.eqb_neq. intros N. apply H. left.
      symmetry. exact N. }
    rewrite E, E. apply IH. intros N. apply H. right. exact N.
Qed.

Lemma row_entry_at books : forall currentX f k book,
  NoDup (map id books) ->
  nth_error books k = Some book ->
  id f = id book ->
  let f' := row_entry baseY centerZ currentX books f in
  px (position f') == currentX + row_offset books k + bookWidth book / 2 /\
  py (position f') = baseY /\
  pz (position f') = centerZ /\
  orientation f' = Some upright.
Proof.
  induction books as [| b rest IH]; intros currentX f k book Hnd Hk Hid.
  - destruct k; discriminate Hk.
  - simpl map in Hnd. apply NoDup_cons_iff in Hnd. destruct Hnd as [Hb Hnd].
    destruct k as [| k]; simpl in Hk.
    + injection Hk as ->. cbn [row_entry row_offset].
      assert (E : same_id (id book) f = true).
      { unfold same_id. apply String.eqb_eq. exact Hid. }
      rewrite E, same_id_with_position, E. rewrite row_entry_other.
      * cbn. repeat split. ring.
      * simpl. rewrite Hid. exact Hb.
    + cbn [row_entry row_offset].
      assert (E : same_id (id b) f = false).
      { unfold same_id. apply String.eqb_neq. intros N. apply Hb.
        rewrite <- N, Hid. apply in_map, (nth_error_In _ _ Hk). }
      rewrite E, E.
      destruct (IH (currentX + bookWidth b + 0.005) f k book Hnd Hk Hid)
        as (Hx & Hy & Hz & Ho).
      repeat split; try assumption.
      rewrite Hx. ring.
Qed.

End Row.

Lemma getBooksOnFurniture_In st host b :
  hostFurniture st = Some host ->
  In b (getBooksOnFurniture st) ->
  In b (furniture st) /\ isBookType (type b) = true /\ nearHost host b = true.
Proof.
  unfold getBooksOnFurniture. intros -> H.
  apply filter_In in H. destruct H as [Hin Hf].
  destruct (isBookType (type b)); simpl in Hf; [auto | discriminate].
Qed.

(** C9, as the code has it. With a host in detail-edit mode, [arrangeRow]
    takes the book-type items near the host in the order they have in the
    furniture list and, their identifiers being distinct, gives the k-th of
    them
    x = host left edge + 0.05 + the spine widths of the k books before it
    + 0.005 for each of them + half its own spine width,
    y = host y + 0.02, z = host z, and the orientation upright.
    The spine width of a book is its depth times its size variant. *)
Theorem arrangeRow_places_books (st : RoomState) (host : FurnitureItem)
  (k : nat) (book : FurnitureItem) :
  hostFurniture st = Some host ->
  NoDup (map id (getBooksOnFurniture st)) ->
  nth_error (getBooksOnFurniture st) k = Some book ->
  getBooksOnFurniture st
  = filter (fun f => isBookType (type f) && nearHost host f) (furniture st) /\
  bookWidth book = depth (dimensions book) * num_or (sizeVariant book) 1 /\
  (exists f, In f (furniture (arrangeRow st)) /\ id f = id book) /\
  (forall f, In f (furniture (arrangeRow st)) -> id f = id book ->
     px (position f)
     == px (position host) - width (dimensions host) / 2 + 0.05
        + row_offset (getBooksOnFurniture st) k + bookWidth book / 2 /\
     py (position f) = py (position host) + 0.02 /\
     pz (position f) = pz (position host) /\
     orientation f = Some upright).
Proof.
  intros Hh Hnd Hk.
  assert (Hf : furniture (arrangeRow st)
               = map (row_entry (py (position host) + 0.02) (pz (position host))
                        (px (position host) - width (dimensions host) / 2 + 0.05)
                        (getBooksOnFurniture st))
                     (furniture st)).
  { unfold arrangeRow. rewrite Hh.
    destruct (getBooksOnFurniture st) as [| b0 rest] eqn:Eb.
    - destruct k; discriminate Hk.
    - cbn [List.length Nat.ltb Nat.leb]. rewrite arrangeRow_fold. reflexivity. }
  split; [| split; [reflexivity | split]].
  - unfold getBooksOnFurniture. rewrite Hh. apply filter_ext.
    intros f. destruct (isBookType (type f)); reflexivity.
  - destruct (getBooksOnFurniture_In st host book Hh (nth_error_In _ _ Hk))
      as (Hin & _).
    exists (row_entry (py (position host) + 0.02) (pz (position host))
              (px (position host) - width (dimensions host) / 2 + 0.05)
              (getBooksOnFurniture st) book).
    split.
    + rewrite Hf. apply in_map. exact Hin.
    + apply row_entry_id.
  - intros f Hin Hid. rewrite Hf in Hin. apply in_map_iff in Hin.
    destruct Hin as (g & <- & Hg). rewrite row_entry_id in Hid.
    apply (row_entry_at _ _ _ _ g k book Hnd Hk Hid).
Qed.

Lemma arrangeRow_places_books_witness :
  hostFurniture shelf_with_books = Some shelf_S /\
  getBooksOnFurniture shelf_with_books = five_books /\
  NoDup (map id (getBooksOnFurniture shelf_with_books)) /\
  nth_error (getBooksOnFurniture shelf_with_books) 2
  = Some (book_at "k3" 0 0.1 (Some 0.9)) /\
  (forall f, In f (furniture (arrangeRow shelf_with_books)) ->
             id f = "k3"%string ->
             px (position f) == -0.2635 /\
             py (position f) = 0 + 0.02 /\
             pz (position f) = 0 /\
             orientation f = Some upright).
Proof.
  assert (H1 : hostFurniture shelf_with_books = Some shelf_S) by reflexivity.
  assert (H2 : NoDup (map id (getBooksOnFurniture shelf_with_books))).
  { vm_compute. repeat constructor; simpl; intuition discriminate. }
  assert (H3 : nth_error (getBooksOnFurniture shelf_with_books) 2
               = Some (book_at "k3" 0 0.1 (Some 0.9))) by reflexivity.
  split; [exact H1 | split; [reflexivity | split; [exact H2 | split; [exact H3 |]]]].
  intros f Hin Hid.
  destruct (arrangeRow_places_books shelf_with_books shelf_S 2
              (book_at "k3" 0 0.1 (Some 0.9)) H1 H2 H3) as (_ & _ & _ & H).
  destruct (H f Hin Hid) as (Hx & Hy & Hz & Ho).
  split; [rewrite Hx; reflexivity | split; [exact Hy | split; [exact Hz | exact Ho]]].
Defined.

(** The whole row of the example: identifiers and positions afterwards. *)
Example arrangeRow_five_books :
  map (fun f => (id f, orientation f, Qred (px (position f))))
      (furniture (arrangeRow shelf_with_books))
  = [("S", None, 0);
     ("k1", Some upright, Qred (-0.335));
     ("k2", Some upright, Qred (-0.2985));
     ("k3", Some upright, Qred (-0.2635));
     ("k4", Some upright, Qred (-0.23));
     ("k5", Some upright, Qred (-0.195))]%string.
Proof. vm_compute. reflexivity. Qed.

(** Why the identifiers must be distinct: every write goes to all entries
    with the identifier, so of two books sharing one both end where the
    later of them is placed, here at -0.3 and not at -0.335 and -0.3. *)
Example arrangeRow_shared_identifier :
  map (fun f => (id f, orientation f, Qred (px (position f))))
      (furniture (arrangeRow shelf_with_twins))
  = [("S", None, 0);
     ("k1", Some upright, Qred (-0.3));
     ("k1", Some upright, Qred (-0.3))]%string.
Proof. vm_compute. reflexivity. Qed.

(** ** importRoom *)

(** C3. A text that does not parse, or that parses to [null], is rejected
    with the live state untouched. A document that parses but has none of
    the required fields, such as the text of an empty object, is accepted:
    importRoom answers true and overwrites the live state, leaving the room
    dimensions and the furniture undefined, the scanned items empty, the
    grid size 0.25 and the selection cleared. No parsed document is ever
    rejected for the fields it lacks. *)
Theorem importRoom_accepts_missing_fields (st : RoomState) :
  ImportRoom.importRoom ImportRoom.SyntaxError (ImportRoom.live st)
  = (false, ImportRoom.live st) /\
  ImportRoom.importRoom ImportRoom.parsed_null (ImportRoom.live st)
  = (false, ImportRoom.live st) /\
  ImportRoom.missing_required ImportRoom.empty_document = true /\
  ImportRoom.importRoom (ImportRoom.parsed ImportRoom.empty_document)
                        (ImportRoom.live st)
  = (true,
     {| ImportRoom.live_roomDimensions := ImportRoom.undefined;
        ImportRoom.live_furniture := ImportRoom.undefined;
        ImportRoom.live_scannedItems := [];
        ImportRoom.live_gridSize := 0.25;
        ImportRoom.live_selectedId := None;
        ImportRoom.live_selectedType := None |}) /\
  snd (ImportRoom.importRoom (ImportRoom.parsed ImportRoom.empty_document)
                             (ImportRoom.live st))
  <> ImportRoom.live st /\
  (forall d l, fst (ImportRoom.importRoom (ImportRoom.parsed d) l) = true).
Proof.
  repeat split. simpl. intros H. discriminate H.
Qed.

(** C9 as stated fails on the two offsets. In the example the host's left
    edge is at x = -0.4 and its base at y = 0; after [arrangeRow] the first
    book, 0.03 thick, is centred at x = -0.335, so its spine starts at
    x = -0.35 and not at the host's left edge, and it stands at y = 0.02 and
    not at the host's base height. *)
Lemma arrangeRow_row_is_inset_and_lifted :
  let host := shelf_S in
  let first := book_at "k1" 0.2 0.05 None in
  hostFurniture shelf_with_books = Some host /\
  nth_error (getBooksOnFurniture shelf_with_books) 0 = Some first /\
  exists f,
    In f (furniture (arrangeRow shelf_with_books)) /\
    id f = id first /\
    px (position host) - width (dimensions host) / 2 == -0.4 /\
    px (position f) - bookWidth first / 2 == -0.35 /\
    ~ px (position f)
      == px (position host) - width (dimensions host) / 2
         + row_offset (getBooksOnFurniture shelf_with_books) 0
         + bookWidth first / 2 /\
    py (position host) == 0 /\
    py (position f) == 0.02 /\
    ~ py (position f) == py (position host).
Proof.
  intros host first.
  split; [reflexivity |]. split; [reflexivity |].
  exists (nth 1 (furniture (arrangeRow shelf_with_books)) first).
  split; [apply nth_In; vm_compute; lia |].
  split; [reflexivity |]. split; [reflexivity |]. split; [reflexivity |].
  split; [intros H; vm_compute in H; discriminate H |].
  split; [reflexivity |]. split; [reflexivity |].
  intros H. vm_compute in H. discriminate H.
Qed.

(** * Further properties of the store *)

Lemma perform_plain_undoStack a st :
  undoStack (perform_plain a st) = undoStack st /\
  canUndo (perform_plain a st) = canUndo st.
Proof.
  destruct a as [a | | | | | | | | | | |]; try (split; reflexivity).
  apply perform_undoStack.
Qed.

Lemma perform_all_undoStack acts : forall st,
  undoStack (fold_left (fun s a => perform_plain a s) acts st) = undoStack st.
Proof.
  induction acts as [| a acts IH]; intros st; simpl; [reflexivity |].
  rewrite IH. apply perform_plain_undoStack.
Qed.

Lemma saveForUndo_stack_snoc st :
  undoStack (saveForUndo st)
  = skipn (S (List.length (undoStack st)) - 20) (undoStack st) ++ [furniture st].
Proof.
  rewrite saveForUndo_stack, slice_last_app by (simpl; lia).
  simpl List.length. f_equal. f_equal. lia.
Qed.

(** X1. Whatever is done to the scene after a snapshot (adding, deleting,
    moving, recolouring, clearing the room, selecting), a single undo brings
    the furniture back to what the snapshot captured. The stack is then the
    one before the snapshot, less its oldest entry when it was full; scanned
    models are not part of the snapshot and stay as the actions left them. *)
Theorem undo_restores_last_snapshot (acts : list PlainAction) (st : RoomState) :
  let edited := fold_left (fun s a => perform_plain a s) acts (saveForUndo st) in
  furniture (undo edited) = furniture st /\
  undoStack (undo edited)
  = skipn (S (List.length (undoStack st)) - 20) (undoStack st) /\
  scannedItems (undo edited) = scannedItems edited.
Proof.
  intros edited.
  assert (E : undoStack edited
              = skipn (S (List.length (undoStack st)) - 20) (undoStack st)
                ++ [furniture st]).
  { unfold edited. rewrite perform_all_undoStack. apply saveForUndo_stack_snoc. }
  rewrite (undo_snoc edited _ _ E). simpl. auto.
Qed.

Lemma session_step_consistent st o :
  canUndo_consistent st -> canUndo_consistent (session_step st o).
Proof.
  unfold canUndo_consistent. intros H. destruct o; cbn [session_step].
  - rewrite saveForUndo_stack_snoc, length_app.
    rewrite Nat.add_comm. reflexivity.
  - destruct (undoStack st) as [| y s] eqn:E using rev_ind.
    + rewrite (undo_empty st E), E. exact H.
    + rewrite (undo_snoc st _ _ E). reflexivity.
  - destruct (perform_plain_undoStack a st) as [-> ->]. exact H.
Qed.

(** X2. The flag canUndo says exactly whether the undo stack has an entry:
    this holds of the initial store and is kept by snapshots, undos and every
    other store action. So the Ctrl+Z handler, which calls undo only when the
    flag is set, always does what undo itself would do. *)
Theorem canUndo_tracks_stack (ops : list SessionOp) (st : RoomState) :
  canUndo st = negb (Nat.eqb (List.length (undoStack st)) 0) ->
  let st' := session ops st in
  canUndo st' = negb (Nat.eqb (List.length (undoStack st')) 0) /\
  handleUndoKey st' = undo st'.
Proof.
  intros H st'.
  assert (C : canUndo_consistent st').
  { unfold st', session. clear st'. revert st H.
    induction ops as [| o ops IH]; intros st H; simpl; [exact H |].
    apply IH, session_step_consistent, H. }
  split; [exact C |].
  unfold handleUndoKey. rewrite C.
  destruct (undoStack st') eqn:E; simpl; [| reflexivity].
  symmetry. apply undo_empty, E.
Qed.

Lemma canUndo_tracks_stack_witness :
  canUndo initialState
  = negb (Nat.eqb (List.length (undoStack initialState)) 0) /\
  handleUndoKey (session [DoSaveForUndo; Do ClearRoom; DoUndo; DoUndo]
                         initialState)
  = undo (session [DoSaveForUndo; Do ClearRoom; DoUndo; DoUndo] initialState).
Proof.
  split; [reflexivity |].
  apply (canUndo_tracks_stack [DoSaveForUndo; Do ClearRoom; DoUndo; DoUndo]
           initialState).
  reflexivity.
Defined.

Lemma filter_filter_same {A : Type} (p : A -> bool) (l : list A) :
  filter p (filter p l) = filter p l.
Proof.
  induction l as [| a l IH]; simpl; [reflexivity |].
  destruct (p a) eqn:E; simpl; rewrite ?E, IH; reflexivity.
Qed.

(** X3. removeFurniture(i) leaves no entry with identifier i and keeps
    every other entry, in order; removing again changes nothing. The
    selection is cleared when it pointed at i, but selectedType is left as it
    was, whereas removeScannedItem clears both selectedId and selectedType. *)
Theorem removeFurniture_spec (i : string) (st : RoomState) :
  (forall f, In f (furniture (removeFurniture i st))
             <-> In f (furniture st) /\ id f <> i) /\
  furniture (removeFurniture i st)
  = filter (fun f => negb (String.eqb (id f) i)) (furniture st) /\
  removeFurniture i (removeFurniture i st) = removeFurniture i st /\
  (selectedId st = Some i ->
   selectedId (removeFurniture i st) = None /\
   selectedType (removeFurniture i st) = selectedType st /\
   selectedId (removeScannedItem i st) = None /\
   selectedType (removeScannedItem i st) = None) /\
  (selectedId st <> Some i ->
   selectedId (removeFurniture i st) = selectedId st /\
   selectedType (removeScannedItem i st) = selectedType st).
Proof.
  split; [| split; [reflexivity | split; [| split]]].
  - intros f. unfold removeFurniture. simpl. rewrite filter_In.
    unfold same_id. rewrite negb_true_iff, String.eqb_neq. tauto.
  - unfold removeFurniture. destruct st as [rd fs ss sid sty dr dt us cu gs sg].
    simpl. rewrite filter_filter_same.
    destruct sid as [s |]; [| reflexivity].
    destruct (String.eqb s i) eqn:E; [reflexivity |].
    rewrite E. reflexivity.
  - intros H. unfold removeFurniture, removeScannedItem, is_selected.
    simpl. rewrite H, String.eqb_refl. auto.
  - intros H. unfold removeFurniture, removeScannedItem, is_selected. simpl.
    destruct (selectedId st) as [s |]; [| auto].
    destruct (String.eqb s i) eqn:E; [| auto].
    apply String.eqb_eq in E. subst s. contradiction.
Qed.

Lemma removeFurniture_spec_witness :
  selectedId (setSelectedId (Some "B"%string) sel_furniture bedroom)
  = Some "B"%string /\
  selectedId (removeFurniture "B"
                (setSelectedId (Some "B"%string) sel_furniture bedroom)) = None /\
  selectedType (removeFurniture "B"
                  (setSelectedId (Some "B"%string) sel_furniture bedroom))
  = Some sel_furniture /\
  selectedId bedroom <> Some "A"%string /\
  selectedId (removeFurniture "A" bedroom) = selectedId bedroom.
Proof.
  split; [reflexivity |].
  destruct (removeFurniture_spec "B"
              (setSelectedId (Some "B"%string) sel_furniture bedroom))
    as (_ & _ & _ & H & _).
  destruct (H eq_refl) as (H1 & H2 & _).
  split; [exact H1 | split; [exact H2 |]].
  assert (N : selectedId bedroom <> Some "A"%string) by discriminate.
  split; [exact N |].
  destruct (removeFurniture_spec "A" bedroom) as (_ & _ & _ & _ & H').
  exact (proj1 (H' N)).
Defined.

(** X4. updateFurniturePosition writes the position of the entries with
    the given identifier and nothing else: identifiers and every other field
    of every entry are kept; an identifier no entry has leaves the store as
    it is; of two writes to the same identifier the later one stands; writes
    to different identifiers can be swapped. *)
Theorem updateFurniturePosition_algebra (i j : string) (p q : Position)
  (st : RoomState) :
  map (fun f => (id f, type f, rotation f, dimensions f, color f, orientation f))
      (furniture (updateFurniturePosition i p st))
  = map (fun f => (id f, type f, rotation f, dimensions f, color f, orientation f))
        (furniture st) /\
  ((forall f, In f (furniture st) -> id f <> i) ->
   updateFurniturePosition i p st = st) /\
  updateFurniturePosition i p (updateFurniturePosition i q st)
  = updateFurniturePosition i p st /\
  (i <> j ->
   updateFurniturePosition i p (updateFurniturePosition j q st)
   = updateFurniturePosition j q (updateFurniturePosition i p st)).
Proof.
  split; [| split; [| split]].
  - unfold updateFurniturePosition. simpl. rewrite map_map.
    apply map_ext. intros f. destruct (same_id i f); reflexivity.
  - intros H. destruct st as [rd fs ss sid sty dr dt us cu gs sg].
    unfold updateFurniturePosition, set_furniture. simpl in *. f_equal.
    rewrite <- (map_id fs) at 2. apply map_ext_in. intros f Hin.
    unfold same_id. destruct (String.eqb (id f) i) eqn:E; [| reflexivity].
    apply String.eqb_eq in E. exfalso. exact (H f Hin E).
  - unfold updateFurniturePosition, set_furniture. simpl. f_equal.
    rewrite map_map. apply map_ext. intros f.
    destruct (same_id i f) eqn:E.
    + rewrite same_id_with_position, E. reflexivity.
    + rewrite E. reflexivity.
  - intros N. unfold updateFurniturePosition, set_furniture. simpl. f_equal.
    rewrite !map_map. apply map_ext. intros f.
    destruct (same_id i f) eqn:Ei; destruct (same_id j f) eqn:Ej;
      rewrite ?same_id_with_position, ?Ei, ?Ej; try reflexivity.
    unfold same_id in Ei, Ej. apply String.eqb_eq in Ei, Ej. congruence.
Qed.

Lemma updateFurniturePosition_algebra_witness :
  (forall f, In f (furniture bedroom) -> id f <> "Z"%string) /\
  updateFurniturePosition "Z" (1, 0, 1) bedroom = bedroom /\
  "A"%string <> "B"%string /\
  updateFurniturePosition "A" (1, 0, 1)
    (updateFurniturePosition "B" (0, 0, 1) bedroom)
  = updateFurniturePosition "B" (0, 0, 1)
      (updateFurniturePosition "A" (1, 0, 1) bedroom).
Proof.
  assert (H : forall f, In f (furniture bedroom) -> id f <> "Z"%string).
  { intros f [<- | [<- | []]]; discriminate. }
  assert (N : "A"%string <> "B"%string) by discriminate.
  split; [exact H |]. split.
  - exact (proj1 (proj2 (updateFurniturePosition_algebra "Z" "Z" (1, 0, 1)
                           (1, 0, 1) bedroom)) H).
  - split; [exact N |].
    exact (proj2 (proj2 (proj2 (updateFurniturePosition_algebra "A" "B"
                                  (1, 0, 1) (0, 0, 1) bedroom))) N).
Defined.

(** X5. Exporting a room and importing the text again, on whatever the
    live state is by then, gives back the exported room dimensions, furniture
    and scanned items and clears the selection; the grid size comes back too,
    except that a grid size of 0 comes back as 0.25. Assumes that parsing the
    serialised document yields that document. *)
Theorem export_import_round_trip
  (JSON_stringify : ImportRoom.Document -> string)
  (JSON_parse : string -> ImportRoom.Parsed)
  (st : RoomState) (l : ImportRoom.Live) :
  JSON_parse (JSON_stringify (export_data st))
  = ImportRoom.parsed (export_data st) ->
  importRoom_json JSON_parse (exportRoom JSON_stringify st) l
  = (true,
     {| ImportRoom.live_roomDimensions := ImportRoom.present (roomDimensions st);
        ImportRoom.live_furniture := ImportRoom.present (furniture st);
        ImportRoom.live_scannedItems := scannedItems st;
        ImportRoom.live_gridSize :=
          if Qeq_bool (gridSize st) 0 then 0.25 else gridSize st;
        ImportRoom.live_selectedId := None;
        ImportRoom.live_selectedType := None |}).
Proof.
  intros H. unfold importRoom_json, exportRoom. rewrite H. reflexivity.
Qed.

Lemma export_import_round_trip_witness :
  (fun _ : string => ImportRoom.parsed (export_data bedroom))
    ((fun _ : ImportRoom.Document => "room-layout"%string) (export_data bedroom))
  = ImportRoom.parsed (export_data bedroom) /\
  fst (importRoom_json (fun _ => ImportRoom.parsed (export_data bedroom))
         (exportRoom (fun _ => "room-layout"%string) bedroom)
         (ImportRoom.live initialState))
  = true.
Proof.
  split; [reflexivity |].
  rewrite (export_import_round_trip (fun _ => "room-layout"%string)
             (fun _ => ImportRoom.parsed (export_data bedroom))
             bedroom (ImportRoom.live initialState) eq_refl).
  reflexivity.
Defined.

(** * Further properties of the drag component *)

Lemma boxes_overlap_sym a b : boxes_overlap a b = boxes_overlap b a.
Proof.
  unfold boxes_overlap.
  repeat match goal with
         | |- context [ltb ?x ?y] => destruct (ltb x y)
         end; reflexivity.
Qed.

Section DragMore.
Variable M : JsMath.

(** X6. Outside detail-edit mode collisions are mutual: if an item of the
    scene collides where it stands, then the scene holds another item, with
    another identifier, that collides where it stands too. *)
Theorem collisions_are_mutual (st : RoomState) (a : FurnitureItem) :
  detailModeTarget st = None ->
  In a (furniture st) ->
  checkCollision M st a (px (position a)) (py (position a)) (pz (position a))
  = true ->
  exists b,
    In b (furniture st) /\ id b <> id a /\
    checkCollision M st b (px (position b)) (py (position b)) (pz (position b))
    = true.
Proof.
  intros Hd Ha Hc. unfold checkCollision in *. rewrite Hd in *.
  apply collision_loop_spec in Hc. destruct Hc as (b & Hb & He & Ho).
  unfold eligible in He. rewrite !andb_true_iff, !negb_true_iff in He.
  destruct He as ((Hid & _) & Hs).
  exists b. split; [exact Hb | split].
  - intros E. rewrite E, String.eqb_refl in Hid. discriminate.
  - apply collision_loop_spec. exists a. split; [exact Ha | split].
    + unfold eligible, is_detail_target.
      rewrite String.eqb_sym, Hid.
      rewrite (andb_comm (isSmallItem (type b))), Hs. reflexivity.
    + rewrite boxes_overlap_sym. exact Ho.
Qed.

Lemma collision_loop_ignores_own item box target p fs :
  collision_loop M item box target
    (map (fun f => if same_id (id item) f then with_position f p else f) fs)
  = collision_loop M item box target fs.
Proof.
  induction fs as [| f fs IH]; [reflexivity |].
  cbn [map]. unfold same_id at 1.
  destruct (String.eqb (id f) (id item)) eqn:E.
  - cbn [collision_loop]. cbn [with_position id]. rewrite E. exact IH.
  - cbn [collision_loop]. rewrite E, IH. reflexivity.
Qed.

Lemma collision_loop_with_position item p box target fs :
  collision_loop M (with_position item p) box target fs
  = collision_loop M item box target fs.
Proof.
  induction fs as [| f fs IH]; [reflexivity |].
  cbn [collision_loop]. rewrite IH. reflexivity.
Qed.

Lemma rendered_update st i p :
  rendered (updateFurniturePosition i p st) i
  = option_map (fun f => with_position f p) (rendered st i).
Proof.
  unfold rendered, updateFurniturePosition. simpl.
  induction (furniture st) as [| f fs IH]; simpl; [reflexivity |].
  destruct (same_id i f) eqn:E.
  - rewrite same_id_with_position, E. reflexivity.
  - rewrite E. exact IH.
Qed.

(** X7. The collision flag a pointer-move sets for the red preview is the
    verdict a release at that moment acts on: it equals the collision check
    of the moved item, as the store then holds it, at its new position. *)
Theorem preview_is_release_verdict (item : FurnitureItem)
  (memo : option Memo) (hit : Q * Q) (w : World) :
  rendered (store w) (id item) = Some item ->
  let w1 := fst (dragHandler M item true false memo (Some hit) w) in
  exists item1,
    rendered (store w1) (id item) = Some item1 /\
    position item1 = movePosition M (store w) item hit /\
    hasCollision w1
    = checkCollision M (store w1) item1 (px (position item1))
        (py (position item1)) (pz (position item1)).
Proof.
  intros Hr w1.
  exists (with_position item (movePosition M (store w) item hit)).
  split; [| split; [reflexivity |]].
  - unfold w1, dragHandler. simpl. rewrite rendered_update, Hr. reflexivity.
  - unfold w1, dragHandler, checkCollision. simpl.
    rewrite collision_loop_with_position.
    symmetry. apply (collision_loop_ignores_own item).
Qed.

End DragMore.

Lemma collisions_are_mutual_witness :
  In (with_position desk_B (0, 0, 0)) (furniture crowded_bedroom) /\
  exists b,
    In b (furniture crowded_bedroom) /\ id b <> "B"%string /\
    checkCollision example_math crowded_bedroom b
      (px (position b)) (py (position b)) (pz (position b)) = true.
Proof.
  assert (Hin : In (with_position desk_B (0, 0, 0)) (furniture crowded_bedroom)).
  { right. left. reflexivity. }
  split; [exact Hin |].
  exact (collisions_are_mutual example_math crowded_bedroom
           (with_position desk_B (0, 0, 0)) eq_refl Hin eq_refl).
Defined.

Lemma preview_is_release_verdict_witness :
  rendered bedroom (id desk_B) = Some desk_B /\
  hasCollision
    (fst (dragHandler example_math desk_B true false None (Some (0, 0))
            (world_of bedroom)))
  = true.
Proof.
  split; [reflexivity |].
  destruct (preview_is_release_verdict example_math desk_B None (0, 0)
              (world_of bedroom) eq_refl) as (item1 & Hr & Hp & Hc).
  rewrite Hc. vm_compute in Hr. injection Hr as <-. reflexivity.
Defined.

Lemma drag_frame_refl i st : drag_frame i st st.
Proof. unfold drag_frame. repeat split; reflexivity. Qed.

Lemma drag_frame_trans i st1 st2 st3 :
  drag_frame i st1 st2 -> drag_frame i st2 st3 -> drag_frame i st1 st3.
Proof.
  unfold drag_frame.
  intros (A1 & A2 & A3 & A4 & A5 & A6 & A7 & A8 & A9)
         (B1 & B2 & B3 & B4 & B5 & B6 & B7 & B8 & B9).
  repeat split; congruence.
Qed.

Lemma drag_frame_update i p st :
  drag_frame i st (updateFurniturePosition i p st).
Proof.
  unfold drag_frame, updateFurniturePosition. simpl.
  repeat split; try reflexivity.
  - rewrite map_map. apply map_ext. intros f.
    destruct (same_id i f); reflexivity.
  - induction (furniture st) as [| f fs IH]; simpl; [reflexivity |].
    destruct (same_id i f) eqn:E.
    + rewrite same_id_with_position, E. simpl. exact IH.
    + rewrite E. simpl. rewrite IH. reflexivity.
Qed.

Section Gesture.
Variable M : JsMath.

Lemma dragHandler_frame item active first memo hit w :
  drag_frame (id item) (store w)
             (store (fst (dragHandler M item active first memo hit w))).
Proof.
  unfold dragHandler. destruct first; [| destruct active; simpl].
  - simpl. unfold drag_frame. repeat split; reflexivity.
  - destruct hit as [pos |]; simpl.
    + apply drag_frame_update.
    + apply drag_frame_refl.
  - destruct (checkCollision M (store w) item (px (position item))
                (py (position item)) (pz (position item)));
      destruct memo as [m |]; simpl;
      try (unfold drag_frame; repeat split; reflexivity).
    apply (drag_frame_trans _ _ _ _ (drag_frame_update (id item) (startPos m)
                                       (store w))).
    unfold drag_frame. repeat split; reflexivity.
Qed.

Lemma dragMoves_frame hits : forall i memo w,
  drag_frame i (store w) (store (fst (dragMoves M i memo hits w))).
Proof.
  induction hits as [| hit hits IH]; intros i memo w; cbn [dragMoves].
  - apply drag_frame_refl.
  - destruct (rendered (store w) i) as [item |] eqn:Hr;
      [| apply drag_frame_refl].
    pose proof (dragHandler_frame item true false memo hit w) as F.
    rewrite (rendered_id _ _ _ Hr) in F.
    destruct (dragHandler M item true false memo hit w) as [w1 memo1].
    simpl in F. eapply drag_frame_trans; [exact F | apply IH].
Qed.

(** X8. A whole drag gesture (pointer-down, any pointer-moves, release)
    changes nothing but the selection, the dragging flag and the positions
    of the entries with the dragged identifier: the undo stack and canUndo
    are as before, so no snapshot is taken for a drag; room dimensions, grid
    settings, detail-mode target and scanned models are as before; every
    entry keeps its identifier, type, rotation, dimensions, colour and
    orientation; the entries with other identifiers are untouched. *)
Theorem drag_gesture_frame (i : string) (hits : list (option (Q * Q)))
  (w0 : World) :
  let st := store w0 in
  let st' := store (dragGesture M i hits w0) in
  undoStack st' = undoStack st /\
  canUndo st' = canUndo st /\
  roomDimensions st' = roomDimensions st /\
  gridSize st' = gridSize st /\
  showGrid st' = showGrid st /\
  detailModeTarget st' = detailModeTarget st /\
  scannedItems st' = scannedItems st /\
  map entry_but_position (furniture st') = map entry_but_position (furniture st) /\
  filter (fun f => negb (same_id i f)) (furniture st')
  = filter (fun f => negb (same_id i f)) (furniture st).
Proof.
  intros st st'.
  assert (F : drag_frame i st st').
  { unfold st', st, dragGesture.
    destruct (rendered (store w0) i) as [item0 |] eqn:H0;
      [| apply drag_frame_refl].
    pose proof (dragHandler_frame item0 true true None None w0) as F1.
    rewrite (rendered_id _ _ _ H0) in F1. fold (dragStart M item0 w0) in F1.
    pose proof (dragMoves_frame hits i (snd (dragStart M item0 w0))
                  (fst (dragStart M item0 w0))) as F2.
    cbv zeta.
    set (moved := dragMoves M i (snd (dragStart M item0 w0)) hits
                    (fst (dragStart M item0 w0))) in *.
    destruct (rendered (store (fst moved)) i) as [item |] eqn:H2.
    - pose proof (dragHandler_frame item false false (snd moved) None
                    (fst moved)) as F3.
      rewrite (rendered_id _ _ _ H2) in F3.
      eapply drag_frame_trans; [exact F1 |].
      eapply drag_frame_trans; [exact F2 | exact F3].
    - eapply drag_frame_trans; [exact F1 | exact F2]. }
  unfold drag_frame in F. tauto.
Qed.

Lemma dragMoves_rendered hits : forall i memo w it,
  rendered (store w) i = Some it ->
  exists it2,
    rendered (store (fst (dragMoves M i memo hits w))) i = Some it2 /\
    py (position it2) = py (position it).
Proof.
  induction hits as [| hit hits IH]; intros i memo w it Hr; cbn [dragMoves].
  - exists it. auto.
  - rewrite Hr.
    assert (H1 : exists it1,
               rendered (store (fst (dragHandler M it true false memo hit w))) i
               = Some it1 /\ py (position it1) = py (position it)).
    { unfold dragHandler. simpl. destruct hit as [pos |]; simpl.
      - rewrite (rendered_id _ _ _ Hr), rendered_update, Hr. simpl.
        eexists. split; [reflexivity |].
        unfold movePosition.
        destruct (targetFurniture (store w));
          [destruct (clampToTarget _ _ _ _) | destruct (clampPosition _ _ _ _ _)];
          reflexivity.
      - exists it. auto. }
    destruct H1 as (it1 & Hr1 & Hy1).
    destruct (dragHandler M it true false memo hit w) as [w1 memo1].
    simpl in Hr1.
    destruct (IH i memo1 w1 it1 Hr1) as (it2 & Hr2 & Hy2).
    exists it2. split; [exact Hr2 | congruence].
Qed.

Lemma dragMoves_selectedId hits : forall i memo w,
  selectedId (store (fst (dragMoves M i memo hits w))) = selectedId (store w).
Proof.
  induction hits as [| hit hits IH]; intros i memo w; cbn [dragMoves].
  - reflexivity.
  - destruct (rendered (store w) i) as [item |]; [| reflexivity].
    assert (H1 : selectedId
                   (store (fst (dragHandler M item true false memo hit w)))
                 = selectedId (store w)).
    { unfold dragHandler. simpl. destruct hit; reflexivity. }
    destruct (dragHandler M item true false memo hit w) as [w1 memo1].
    simpl in H1. rewrite IH. exact H1.
Qed.

(** X9. After a whole gesture on an item of the scene the drag is over
    (isDragging is false, the item is selected) and the item is either back
    at exactly the position it had at pointer-down, or at a position where
    the collision check finds nothing: a drag never leaves the item on a
    position the check rejects. Its height is the one it had at pointer-down
    in both cases: a drag never changes y. *)
Theorem drag_gesture_outcome (i : string) (hits : list (option (Q * Q)))
  (w0 : World) (item0 : FurnitureItem) :
  rendered (store w0) i = Some item0 ->
  let w' := dragGesture M i hits w0 in
  isDragging (store w') = false /\
  selectedId (store w') = Some i /\
  exists item',
    rendered (store w') i = Some item' /\
    py (position item') = py (position item0) /\
    (position item' = position item0 \/
     checkCollision M (store w') item' (px (position item'))
       (py (position item')) (pz (position item')) = false).
Proof.
  intros H0 w'. unfold w', dragGesture. rewrite H0. cbv zeta.
  assert (Hs : rendered (store (fst (dragStart M item0 w0))) i = Some item0)
    by exact H0.
  destruct (dragMoves_rendered hits i (snd (dragStart M item0 w0))
              (fst (dragStart M item0 w0)) item0 Hs) as (it2 & Hr2 & Hy2).
  pose proof (dragMoves_memo M hits i (snd (dragStart M item0 w0))
                (fst (dragStart M item0 w0))) as Hm.
  pose proof (dragMoves_selectedId hits i (snd (dragStart M item0 w0))
                (fst (dragStart M item0 w0))) as Hsel.
  assert (Hsel0 : selectedId (store (fst (dragStart M item0 w0))) = Some i).
  { unfold dragStart, dragHandler, setSelectedId. simpl.
    rewrite (rendered_id _ _ _ H0). reflexivity. }
  rewrite Hsel0 in Hsel.
  set (moved := dragMoves M i (snd (dragStart M item0 w0)) hits
                  (fst (dragStart M item0 w0))) in *.
  rewrite Hr2. unfold dragEnd, dragHandler. rewrite Hm. simpl.
  pose proof (rendered_id _ _ _ Hr2) as Hid.
  destruct (checkCollision M (store (fst moved)) it2 (px (position it2))
              (py (position it2)) (pz (position it2))) eqn:Ec; simpl.
  - split; [reflexivity |]. split.
    + exact Hsel.
    + exists (with_position it2 (position item0)).
      split; [| split; [reflexivity | left; reflexivity]].
      change (rendered (updateFurniturePosition (id it2) (position item0)
                          (store (fst moved))) i
              = Some (with_position it2 (position item0))).
      rewrite Hid, rendered_update, Hr2. reflexivity.
  - split; [reflexivity |]. split.
    + exact Hsel.
    + exists it2. split; [exact Hr2 | split; [exact Hy2 | right; exact Ec]].
Qed.

End Gesture.

Lemma drag_gesture_outcome_witness :
  rendered (store (world_of bedroom)) "B" = Some desk_B /\
  isDragging
    (store (dragGesture example_math "B" [Some (0, 0); Some (1, 1)]
              (world_of bedroom)))
  = false.
Proof.
  split; [reflexivity |].
  exact (proj1 (drag_gesture_outcome example_math "B"
                  [Some (0, 0); Some (1, 1)] (world_of bedroom) desk_B eq_refl)).
Defined.

(** * Further properties of snapping and clamping *)

Lemma Qmax_Qmin_inside lo hi x :
  lo <= x -> x <= hi -> Math_max lo (Math_min hi x) == x.
Proof.
  intros H1 H2. unfold Math_max, Math_min.
  rewrite (Q.min_r hi x H2). apply Q.max_r. exact H1.
Qed.

Lemma Qmax_Qmin_crossed lo hi x :
  hi < lo -> Math_max lo (Math_min hi x) == lo.
Proof.
  intros H. unfold Math_max, Math_min. apply Q.max_l.
  apply Qle_trans with hi; [apply Q.le_min_l | apply Qlt_le_weak, H].
Qed.

Lemma Qmax_Qmin_idem lo hi x :
  Math_max lo (Math_min hi (Math_max lo (Math_min hi x)))
  == Math_max lo (Math_min hi x).
Proof.
  destruct (Qlt_le_dec hi lo) as [H | H].
  - rewrite !Qmax_Qmin_crossed by exact H. reflexivity.
  - destruct (clamp_between lo hi x H) as [H1 H2].
    apply Qmax_Qmin_inside; assumption.
Qed.

Section ClampMore.
Variable M : JsMath.

(** X10. clampPosition leaves a position alone when the item's rotated
    footprint, there, is inside the room; clamping twice is clamping once;
    and when the footprint is wider than the room the x it returns is the
    same whatever the pointer's x (the left wall plus the half-width), so
    such an item cannot be moved along x. The same holds along z. *)
Theorem clampPosition_edges (room : RoomDimensions) (item : FurnitureItem)
  (x z : Q) :
  let loX := - (Room.width room / 2) + effectiveHalfWidth M item in
  let hiX := Room.width room / 2 - effectiveHalfWidth M item in
  let loZ := - (Room.length room / 2) + effectiveHalfDepth M item in
  let hiZ := Room.length room / 2 - effectiveHalfDepth M item in
  let c := clampPosition M room item x z in
  (loX <= x <= hiX -> fst c == x) /\
  (loZ <= z <= hiZ -> snd c == z) /\
  (hiX < loX -> fst c == loX) /\
  (hiZ < loZ -> snd c == loZ) /\
  fst (clampPosition M room item (fst c) (snd c)) == fst c /\
  snd (clampPosition M room item (fst c) (snd c)) == snd c.
Proof.
  cbv zeta. unfold clampPosition. simpl fst. simpl snd.
  fold (effectiveHalfWidth M item). fold (effectiveHalfDepth M item).
  repeat split.
  - intros [H1 H2]. apply Qmax_Qmin_inside; assumption.
  - intros [H1 H2]. apply Qmax_Qmin_inside; assumption.
  - apply Qmax_Qmin_crossed.
  - apply Qmax_Qmin_crossed.
  - apply Qmax_Qmin_idem.
  - apply Qmax_Qmin_idem.
Qed.

End ClampMore.

Lemma clampPosition_edges_witness :
  (- (Room.width (roomDimensions bedroom) / 2)
   + effectiveHalfWidth example_math desk_B <= 1
   <= Room.width (roomDimensions bedroom) / 2
      - effectiveHalfWidth example_math desk_B) /\
  fst (clampPosition example_math (roomDimensions bedroom) desk_B 1 0) == 1 /\
  (1 / 2 - effectiveHalfWidth example_math desk_B
   < - (1 / 2) + effectiveHalfWidth example_math desk_B) /\
  fst (clampPosition example_math
         {| Room.width := 1; Room.length := 4; Room.height := 2.8 |}
         desk_B 7 0)
  == - (1 / 2) + effectiveHalfWidth example_math desk_B.
Proof.
  assert (H1 : - (Room.width (roomDimensions bedroom) / 2)
               + effectiveHalfWidth example_math desk_B <= 1
               <= Room.width (roomDimensions bedroom) / 2
                  - effectiveHalfWidth example_math desk_B)
    by (split; qle).
  assert (H2 : 1 / 2 - effectiveHalfWidth example_math desk_B
               < - (1 / 2) + effectiveHalfWidth example_math desk_B)
    by reflexivity.
  split; [exact H1 | split; [| split; [exact H2 |]]].
  - exact (proj1 (clampPosition_edges example_math (roomDimensions bedroom)
                    desk_B 1 0) H1).
  - exact (proj1 (proj2 (proj2 (clampPosition_edges example_math
                                  {| Room.width := 1; Room.length := 4;
                                     Room.height := 2.8 |} desk_B 7 0))) H2).
Defined.

Lemma Math_round_near x : x - 0.5 < Math_round x /\ Math_round x <= x + 0.5.
Proof.
  unfold Math_round.
  pose proof (Qfloor_le (x + 0.5)) as Hlo.
  pose proof (Qlt_floor (x + 0.5)) as Hhi.
  rewrite inject_Z_plus in Hhi. change (inject_Z 1) with 1 in Hhi.
  split; lra.
Qed.

Lemma Math_round_mono x y : x <= y -> Math_round x <= Math_round y.
Proof.
  intros H. unfold Math_round. rewrite <- Zle_Qle.
  apply Qfloor_resp_le. lra.
Qed.

(** X11. With a positive cell (the double 0.005 for a small item,
    gridSize / 4 otherwise) snapping moves a coordinate v by at most half a
    cell plus a rounding error of at most 2^-51 (|v| + cell), and never
    reverses the order of two coordinates. *)
Theorem snapToGrid_near_and_monotone (gridSize : Q) (item : FurnitureItem)
  (v v' : Q) :
  let cell := if isSmallItem (type item) then double 0.005
              else double (gridSize / 4) in
  0 < cell ->
  Qabs (snapToGrid gridSize item v - v)
  <= cell / 2 + (1 # 2251799813685248) * (Qabs v + cell) /\
  (v <= v' -> snapToGrid gridSize item v <= snapToGrid gridSize item v').
Proof.
  intros cell Hc. unfold snapToGrid, fineGrid. cbv zeta. fold cell.
  clearbody cell.
  assert (Hq : forall x, x / cell * cell == x).
  { intros x. field. intros E. rewrite E in Hc. exact (Qlt_irrefl 0 Hc). }
  split.
  - pose proof (Hq v) as Ew.
    pose proof (double_error (v / cell)) as E1.
    destruct (Math_round_near (double (v / cell))) as [R1 R2].
    pose proof (double_error (Math_round (double (v / cell)) * cell)) as E2.
    assert (Ea : Qabs (v / cell) * cell == Qabs v).
    { rewrite <- (Qabs_pos cell) at 2 by lra.
      rewrite <- Qabs_Qmult, Ew. reflexivity. }
    pose proof (Qabs_nonneg v) as A0.
    destruct (Qabs_bounds v (Qabs v) (Qle_refl _)) as [V1 V2].
    set (w := v / cell) in *. set (q := double w) in *.
    set (n := Math_round q) in *. set (s := double (n * cell)) in *.
    set (a := Qabs v) in *. set (aw := Qabs w) in *.
    apply Qabs_bounds in E1. destruct E1 as [E1 E1'].
    unfold u53 in *.
    assert (H1 : 0 <= (q - w + (1 # 9007199254740992) * aw) * cell)
      by (apply Qmult_le_0_compat; lra).
    assert (H2 : 0 <= ((1 # 9007199254740992) * aw - (q - w)) * cell)
      by (apply Qmult_le_0_compat; lra).
    assert (H3 : 0 <= (n - q + 0.5) * cell)
      by (apply Qmult_le_0_compat; lra).
    assert (H4 : 0 <= (q + 0.5 - n) * cell)
      by (apply Qmult_le_0_compat; lra).
    assert (Hb : Qabs (n * cell)
                 <= a + (1 # 9007199254740992) * a + (1 # 2) * cell).
    { apply Qabs_Qle_condition. split; lra. }
    apply Qabs_bounds in E2. destruct E2 as [E2 E2'].
    set (b := Qabs (n * cell)) in *.
    unfold Qdiv. change (/ 2) with (1 # 2).
    apply Qabs_Qle_condition. split; lra.
  - intros Hv. apply double_mono.
    apply Qmult_le_compat_r; [| apply Qlt_le_weak, Hc].
    apply Math_round_mono, double_mono.
    apply Qmult_le_r with cell; [exact Hc |].
    rewrite !Hq. exact Hv.
Qed.

Lemma snapToGrid_near_and_monotone_witness :
  0 < double (0.1 / 4) /\
  Qabs (snapToGrid 0.1 desk_B 1.23 - 1.23)
  <= double (0.1 / 4) / 2
     + (1 # 2251799813685248) * (Qabs 1.23 + double (0.1 / 4)) /\
  snapToGrid 0.1 desk_B 1.23 <= snapToGrid 0.1 desk_B 1.24.
Proof.
  assert (H : 0 < double (0.1 / 4)) by reflexivity.
  assert (L : 1.23 <= 1.24) by (vm_compute; discriminate).
  split; [exact H | split].
  - exact (proj1 (snapToGrid_near_and_monotone 0.1 desk_B 1.23 1.24 H)).
  - exact (proj2 (snapToGrid_near_and_monotone 0.1 desk_B 1.23 1.24 H) L).
Defined.

(** * Dragging a scanned model *)

(** X12. A pointer event on a placed scan never touches the furniture or
    the undo stack and runs no collision check. While the pointer is down it
    writes, to the scans with that identifier, a position on the floor
    (y = 0) which, when the model's nominal width and depth fit the room,
    lies in the room inset by half the width and half the depth; on release
    it only clears the dragging flags. *)
Theorem scanned_drag (i : string) (dims : Dimensions) (active first : bool)
  (hit : Q * Q) (w : RoomState * bool) :
  let w' := ScannedModel.dragHandler i dims active first hit w in
  let room := roomDimensions (fst w) in
  furniture (fst w') = furniture (fst w) /\
  undoStack (fst w') = undoStack (fst w) /\
  (active = false ->
   scannedItems (fst w') = scannedItems (fst w) /\
   isDragging (fst w') = false /\ snd w' = false) /\
  (active = true ->
   forall s, In s (scannedItems (fst w')) -> Scanned.id s = i ->
     py (Scanned.position s) = 0 /\
     (width dims <= Room.width room -> depth dims <= Room.length room ->
      - (Room.width room / 2) + width dims / 2 <= px (Scanned.position s) /\
      px (Scanned.position s) <= Room.width room / 2 - width dims / 2 /\
      - (Room.length room / 2) + depth dims / 2 <= pz (Scanned.position s) /\
      pz (Scanned.position s) <= Room.length room / 2 - depth dims / 2)).
Proof.
  intros w' room. unfold w', ScannedModel.dragHandler.
  destruct active; simpl.
  - split; [destruct first; reflexivity |].
    split; [destruct first; reflexivity |].
    split; [discriminate |]. intros _ s Hin Hid.
    assert (E : Scanned.position s
                = ScannedModel.movePosition (fst w) dims hit).
    { destruct first; simpl in Hin; apply in_map_iff in Hin;
        destruct Hin as (s0 & <- & _); simpl in Hid;
        destruct (String.eqb (Scanned.id s0) i) eqn:Es;
        try reflexivity;
        apply String.eqb_neq in Es; contradiction. }
    rewrite E. unfold ScannedModel.movePosition, ScannedModel.clampPosition.
    simpl. split; [reflexivity |]. intros Hw Hd. fold room.
    unfold px, pz. simpl.
    destruct (clamp_between (- (Room.width room / 2) + width dims / 2)
                (Room.width room / 2 - width dims / 2)
                (ScannedModel.snapToGrid (gridSize (fst w)) (fst hit)))
      as [X1 X2]; [halves; lra |].
    destruct (clamp_between (- (Room.length room / 2) + depth dims / 2)
                (Room.length room / 2 - depth dims / 2)
                (ScannedModel.snapToGrid (gridSize (fst w)) (snd hit)))
      as [Z1 Z2]; [halves; lra |].
    auto.
  - split; [destruct first; reflexivity |].
    split; [destruct first; reflexivity |].
    split; [| discriminate].
    intros _. destruct first; auto.
Qed.

Lemma scanned_drag_witness :
  let dims := {| width := 0.6; height := 0.4; depth := 0.6 |} in
  let scan := {| Scanned.id := "s1"; Scanned.makerspaceItemId := "m1";
                 Scanned.name := "Scan"; Scanned.position := (0, 0, 0);
                 Scanned.rotation := 0; Scanned.dimensions := dims;
                 Scanned.blobUrl := "blob" |}%string in
  let st := addScannedItem "s1" scan initialState in
  map Scanned.position
      (scannedItems
         (fst (ScannedModel.dragHandler "s1" dims true false (9, 9) (st, true))))
  = [(Room.width (roomDimensions st) / 2 - width dims / 2, 0,
      Room.length (roomDimensions st) / 2 - depth dims / 2)]
  /\ isDragging
       (fst (ScannedModel.dragHandler "s1" dims false false (9, 9) (st, true)))
     = false.
Proof.
  intros dims scan st. split; [reflexivity |].
  exact (proj1 (proj2 (proj1 (proj2 (proj2
           (scanned_drag "s1" dims false false (9, 9) (st, true)))) eq_refl))).
Defined.

(** * Rotating from the sidebar *)

Lemma Qtrunc_nonneg q : 0 <= q -> Qtrunc q = Qfloor q.
Proof.
  destruct q as [n d]. unfold Qtrunc, Qfloor, Qle. simpl. intros H.
  apply Z.quot_div_nonneg; lia.
Qed.

Lemma js_rem_range x m :
  0 <= x -> 0 < m -> 0 <= js_rem x m /\ js_rem x m < m.
Proof.
  intros Hx Hm. unfold js_rem.
  assert (Hq : 0 <= x / m).
  { apply Qle_shift_div_l; [exact Hm | lra]. }
  rewrite (Qtrunc_nonneg _ Hq).
  pose proof (Qfloor_le (x / m)) as Hlo.
  pose proof (Qlt_floor (x / m)) as Hhi.
  rewrite inject_Z_plus in Hhi. change (inject_Z 1) with 1 in Hhi.
  assert (E : x / m * m == x).
  { field. intros E. rewrite E in Hm. exact (Qlt_irrefl 0 Hm). }
  assert (A : inject_Z (Qfloor (x / m)) * m <= x / m * m)
    by (apply Qmult_le_compat_r; [exact Hlo | apply Qlt_le_weak, Hm]).
  assert (B : x / m * m < (inject_Z (Qfloor (x / m)) + 1) * m)
    by (apply Qmult_lt_compat_r; assumption).
  generalize dependent (inject_Z (Qfloor (x / m))). intros k _ _ A B.
  generalize dependent (x / m). intros q _ E A B.
  split; nra.
Qed.

Lemma multiple_of_360_small (k : Z) (a b : Q) :
  0 <= a -> a < 360 -> 0 <= b -> b < 360 ->
  b == a + 360 * inject_Z k -> b == a.
Proof.
  intros A1 A2 B1 B2 E.
  assert (L : inject_Z (-1) < inject_Z k).
  { change (inject_Z (-1)) with (-1). lra. }
  assert (U : inject_Z k < inject_Z 1).
  { change (inject_Z 1) with 1. lra. }
  rewrite <- Zlt_Qlt in L, U.
  assert (k = 0%Z) by lia. subst k.
  rewrite E. change (inject_Z 0) with 0. ring.
Qed.

Lemma selectedFurniture_rotated st i f r :
  selectedId st = Some i ->
  selectedFurniture st = Some f ->
  selectedFurniture (updateFurnitureRotation i r st) = Some (with_rotation f r).
Proof.
  unfold selectedFurniture, updateFurnitureRotation. simpl.
  intros Hs. rewrite Hs.
  destruct (selectedType st) as [[|] |]; try discriminate.
  induction (furniture st) as [| g gs IH]; simpl; [discriminate |].
  destruct (same_id i g) eqn:E.
  - intros H. injection H as <-. unfold same_id in *. simpl. rewrite E.
    reflexivity.
  - rewrite E. exact IH.
Qed.

(** X13. The sidebar's rotate buttons act on the selected furniture only.
    For a selected item whose rotation is in [0, 360) and a step of at most
    360 degrees either way, the new rotation of the item is again in
    [0, 360), and turning by a step and then back by the same step gives the
    rotation it had. Without a selected furniture item nothing changes. *)
Theorem handleRotate_spec (delta : Q) (st : RoomState) (i : string)
  (f : FurnitureItem) :
  (selectedFurniture st = None -> handleRotate delta st = st) /\
  (selectedId st = Some i -> i <> ""%string ->
   selectedFurniture st = Some f ->
   0 <= rotation f -> rotation f < 360 ->
   -360 <= delta -> delta <= 360 ->
   (exists g, selectedFurniture (handleRotate delta st) = Some g /\
              0 <= rotation g /\ rotation g < 360) /\
   (exists g, selectedFurniture (handleRotate (- delta) (handleRotate delta st))
              = Some g /\
              rotation g == rotation f)).
Proof.
  split.
  - intros H. unfold handleRotate. rewrite H.
    destruct (selectedId st); reflexivity.
  - intros Hs Hne Hf R1 R2 D1 D2.
    apply String.eqb_neq in Hne.
    assert (E1 : handleRotate delta st
                 = updateFurnitureRotation i
                     (js_rem (rotation f + delta + 360) 360) st).
    { unfold handleRotate. rewrite Hs, Hf, Hne. reflexivity. }
    set (r1 := js_rem (rotation f + delta + 360) 360) in *.
    assert (Hf1 : selectedFurniture (handleRotate delta st)
                  = Some (with_rotation f r1)).
    { rewrite E1. apply selectedFurniture_rotated; assumption. }
    destruct (js_rem_range (rotation f + delta + 360) 360) as [A1 A2];
      [lra | reflexivity |]. fold r1 in A1, A2.
    split.
    + exists (with_rotation f r1). auto.
    + assert (Hs1 : selectedId (handleRotate delta st) = Some i)
        by (rewrite E1; exact Hs).
      assert (E2 : handleRotate (- delta) (handleRotate delta st)
                   = updateFurnitureRotation i
                       (js_rem (r1 + - delta + 360) 360)
                       (handleRotate delta st)).
      { unfold handleRotate at 1. rewrite Hs1, Hf1, Hne. reflexivity. }
      set (r2 := js_rem (r1 + - delta + 360) 360) in *.
      exists (with_rotation (with_rotation f r1) r2). split.
      * rewrite E2. apply selectedFurniture_rotated; assumption.
      * simpl.
        destruct (js_rem_range (r1 + - delta + 360) 360) as [B1 B2];
          [lra | reflexivity |]. fold r2 in B1, B2.
        apply (multiple_of_360_small
                 (2 - Qtrunc ((rotation f + delta + 360) / 360)
                  - Qtrunc ((r1 + - delta + 360) / 360))%Z);
          try assumption.
        unfold r2, js_rem at 1. fold r2.
        unfold r1 at 1, js_rem at 1. fold r1.
        unfold Z.sub. rewrite !inject_Z_plus, !inject_Z_opp.
        change (inject_Z 2) with 2. ring.
Qed.

Lemma handleRotate_spec_witness :
  let st := setSelectedId (Some "B"%string) sel_furniture bedroom in
  selectedId st = Some "B"%string /\
  selectedFurniture st = Some desk_B /\
  exists g, selectedFurniture (handleRotate (-45) st) = Some g /\
            0 <= rotation g /\ rotation g < 360.
Proof.
  intros st.
  assert (H1 : selectedId st = Some "B"%string) by reflexivity.
  assert (H2 : selectedFurniture st = Some desk_B) by reflexivity.
  split; [exact H1 | split; [exact H2 |]].
  assert (N : "B"%string <> ""%string) by discriminate.
  assert (R1 : 0 <= rotation desk_B) by qle.
  assert (R2 : rotation desk_B < 360) by reflexivity.
  assert (D1 : -360 <= -45) by qle.
  assert (D2 : -45 <= 360) by qle.
  exact (proj1 (proj2 (handleRotate_spec (-45) st "B" desk_B)
                  H1 N H2 R1 R2 D1 D2)).
Defined.

(** * Further properties of the arrangement presets *)

Lemma place_furniture st pl :
  furniture (place st pl) = map (fun f => place_entry f pl) (furniture st).
Proof.
  unfold place, place_entry, updateFurnitureOrientation, updateFurniturePosition.
  destruct (pl_orient pl) as [o |]; simpl.
  - rewrite map_map. apply map_ext. intros f.
    destruct (same_id (pl_id pl) f) eqn:E.
    + rewrite same_id_with_position, E. reflexivity.
    + rewrite E. reflexivity.
  - reflexivity.
Qed.

Lemma place_set_furniture st pl :
  place st pl = set_furniture st (furniture (place st pl)).
Proof.
  unfold place, updateFurnitureOrientation, updateFurniturePosition.
  destruct (pl_orient pl); reflexivity.
Qed.

Lemma place_all_spec pls : forall st,
  place_all pls st
  = set_furniture st (map (fun f => fold_left place_entry pls f) (furniture st)).
Proof.
  unfold place_all.
  induction pls as [| pl pls IH]; intros st; simpl.
  - rewrite map_id. destruct st; reflexivity.
  - rewrite IH, place_furniture, map_map.
    rewrite (place_set_furniture st pl). reflexivity.
Qed.

Lemma place_entry_core f pl : entry_core (place_entry f pl) = entry_core f.
Proof.
  unfold place_entry. destruct (same_id (pl_id pl) f); [| reflexivity].
  destruct (pl_orient pl); reflexivity.
Qed.

Lemma place_entries_core pls : forall f,
  entry_core (fold_left place_entry pls f) = entry_core f.
Proof.
  induction pls as [| pl pls IH]; intros f; simpl; [reflexivity |].
  rewrite IH. apply place_entry_core.
Qed.

Lemma place_entries_id pls f : id (fold_left place_entry pls f) = id f.
Proof.
  pose proof (place_entries_core pls f) as H. unfold entry_core in H.
  congruence.
Qed.

Lemma place_entries_other pls : forall f,
  ~ In (id f) (map pl_id pls) -> fold_left place_entry pls f = f.
Proof.
  induction pls as [| pl pls IH]; intros f H; simpl; [reflexivity |].
  simpl in H.
  assert (E : place_entry f pl = f).
  { unfold place_entry, same_id.
    destruct (String.eqb (id f) (pl_id pl)) eqn:E; [| reflexivity].
    apply String.eqb_eq in E. exfalso. apply H. left. symmetry. exact E. }
  rewrite E. apply IH. intros N. apply H. right. exact N.
Qed.

(** The placement made for an identifier, when each identifier gets one. *)
Lemma place_entries_at pls : forall f k pl,
  NoDup (map pl_id pls) ->
  nth_error pls k = Some pl ->
  id f = pl_id pl ->
  position (fold_left place_entry pls f) = pl_pos pl /\
  orientation (fold_left place_entry pls f)
  = match pl_orient pl with Some o => Some o | None => orientation f end.
Proof.
  induction pls as [| p0 pls IH]; intros f k pl Hnd Hk Hid.
  - destruct k; discriminate Hk.
  - simpl map in Hnd. apply NoDup_cons_iff in Hnd. destruct Hnd as [H0 Hnd].
    destruct k as [| k]; simpl in Hk.
    + injection Hk as ->. cbn [fold_left].
      rewrite place_entries_other.
      * unfold place_entry, same_id. rewrite Hid, String.eqb_refl.
        destruct (pl_orient pl); auto.
      * assert (E : id (place_entry f pl) = id f).
        { pose proof (place_entry_core f pl) as C. unfold entry_core in C.
          congruence. }
        rewrite E, Hid. exact H0.
    + cbn [fold_left].
      assert (E : place_entry f p0 = f).
      { unfold place_entry, same_id.
        destruct (String.eqb (id f) (pl_id p0)) eqn:E; [| reflexivity].
        apply String.eqb_eq in E. exfalso. apply H0.
        rewrite <- E, Hid. apply in_map, (nth_error_In _ _ Hk). }
      rewrite E. apply (IH f k pl Hnd Hk Hid).
Qed.

Lemma arrangeRow_loop baseY centerZ books : forall currentX st,
  snd (fold_left (arrangeRow_step baseY centerZ) books (currentX, st))
  = place_all (row_placements baseY centerZ currentX books) st.
Proof.
  induction books as [| b rest IH]; intros currentX st; [reflexivity |].
  cbn [fold_left arrangeRow_step row_placements]. rewrite IH. reflexivity.
Qed.

Lemma arrangeStack_loop rand centerX baseY centerZ books : forall currentY i st,
  snd (fold_left (arrangeStack_step rand centerX baseY centerZ) books
         (currentY, i, st))
  = place_all (stack_placements rand centerX centerZ currentY i books) st.
Proof.
  induction books as [| b rest IH]; intros currentY i st; [reflexivity |].
  cbn [fold_left arrangeStack_step stack_placements]. rewrite IH. reflexivity.
Qed.

Lemma alignBooks_loop centerZ books : forall st,
  fold_left
    (fun s book =>
       updateFurniturePosition (id book)
         (px (position book), py (position book), centerZ) s)
    books st
  = place_all (align_placements centerZ books) st.
Proof.
  induction books as [| b rest IH]; intros st; [reflexivity |].
  cbn [fold_left]. rewrite IH. reflexivity.
Qed.

Lemma spaceEvenly_loop minX spacing sorted : forall i st,
  snd (fold_left (spaceEvenly_step minX spacing) sorted (i, st))
  = place_all (space_placements minX spacing i sorted) st.
Proof.
  induction sorted as [| b rest IH]; intros i st; [reflexivity |].
  cbn [fold_left spaceEvenly_step space_placements]. rewrite IH. reflexivity.
Qed.

Lemma arrangeShrine_loop baseY centerZ flanks : forall leftX rightX i st,
  snd (fold_left (arrangeShrine_step baseY centerZ) flanks
         (leftX, rightX, i, st))
  = place_all (shrine_placements baseY centerZ leftX rightX i flanks) st.
Proof.
  induction flanks as [| b rest IH]; intros leftX rightX i st; [reflexivity |].
  cbn [fold_left arrangeShrine_step shrine_placements].
  destruct (Nat.even i); rewrite IH; reflexivity.
Qed.

(** Each preset either does nothing or is a snapshot followed by placements. *)
Lemma runPreset_cases rand p st :
  runPreset rand p st = st \/
  exists pls, runPreset rand p st = place_all pls (saveForUndo st).
Proof.
  destruct p; simpl.
  - unfold arrangeShrine. destruct (hostFurniture st) as [host |]; [| auto].
    destruct (firstn 11 (filter isBasicBook (getBooksOnFurniture st)))
      as [| c flanks]; [auto |].
    right. cbv zeta. rewrite arrangeShrine_loop.
    eexists ({| pl_id := id c; pl_pos := _; pl_orient := Some faceout |} :: _).
    reflexivity.
  - unfold arrangeRow. destruct (hostFurniture st) as [host |]; [| auto].
    destruct (_ <? 1)%nat; [auto |]. right. cbv zeta.
    rewrite arrangeRow_loop. eexists. reflexivity.
  - unfold arrangeStack. destruct (hostFurniture st) as [host |]; [| auto].
    destruct (_ <? 1)%nat; [auto |]. right. cbv zeta.
    rewrite arrangeStack_loop. eexists. reflexivity.
  - unfold alignBooks. destruct (hostFurniture st) as [host |]; [| auto].
    destruct (_ <? 1)%nat; [auto |]. right. cbv zeta.
    rewrite alignBooks_loop. eexists. reflexivity.
  - unfold spaceEvenly. destruct (hostFurniture st) as [host |]; [| auto].
    destruct (_ <? 2)%nat; [auto |]. right. cbv zeta.
    rewrite spaceEvenly_loop. eexists. reflexivity.
Qed.

Lemma runPreset_nothing rand p st :
  hostFurniture st = None \/ getBooksOnFurniture st = [] ->
  runPreset rand p st = st.
Proof.
  intros [H | H]; destruct p; simpl;
    unfold arrangeShrine, arrangeRow, arrangeStack, alignBooks, spaceEvenly;
    rewrite H; try reflexivity;
    destruct (hostFurniture st); reflexivity.
Qed.

(** X14. Each of the five presets (shrine, row, stack, align, space
    evenly) does nothing without a host or without books near it; otherwise
    it either does nothing or takes one snapshot and then only moves and
    reorients entries, so that a single undo brings back the furniture as it
    was. A preset never changes the identifier, type, rotation, dimensions
    or colour of an entry, never adds or removes one, and leaves everything
    in the store but the furniture and the undo stack as it was. *)
Theorem presets_are_undoable (Math_random : nat -> Q) (p : Preset)
  (st : RoomState) :
  let st' := runPreset Math_random p st in
  (hostFurniture st = None \/ getBooksOnFurniture st = [] -> st' = st) /\
  (st' = st \/
   (furniture (undo st') = furniture st /\
    undoStack (undo st')
    = skipn (S (List.length (undoStack st)) - 20) (undoStack st))) /\
  map entry_core (furniture st') = map entry_core (furniture st) /\
  roomDimensions st' = roomDimensions st /\
  scannedItems st' = scannedItems st /\
  selectedId st' = selectedId st /\
  detailModeTarget st' = detailModeTarget st /\
  gridSize st' = gridSize st.
Proof.
  intros st'. split; [apply runPreset_nothing |].
  destruct (runPreset_cases Math_random p st) as [E | (pls & E)];
    fold st' in E; rewrite E.
  - split; [left; reflexivity |]. repeat split.
  - rewrite place_all_spec. split.
    + right.
      erewrite undo_snoc by exact (saveForUndo_stack_snoc st). simpl. auto.
    + simpl. split; [| repeat split].
      rewrite map_map. apply map_ext. intros f. apply place_entries_core.
Qed.

Lemma presets_are_undoable_witness :
  getBooksOnFurniture bedroom = [] /\
  runPreset (fun _ => 0.5) Stack bedroom = bedroom /\
  furniture (undo (runPreset (fun _ => 0.5) Stack shelf_with_books))
  = furniture shelf_with_books.
Proof.
  split; [reflexivity |]. split.
  - exact (proj1 (presets_are_undoable (fun _ => 0.5) Stack bedroom)
             (or_intror eq_refl)).
  - destruct (proj1 (proj2 (presets_are_undoable (fun _ => 0.5) Stack
                              shelf_with_books))) as [E | [E _]].
    + apply (f_equal (fun s => List.length (undoStack s))) in E.
      vm_compute in E. discriminate E.
    + exact E.
Defined.

Lemma stack_placements_ids rand cx cz books : forall cy i,
  map pl_id (stack_placements rand cx cz cy i books) = map id books.
Proof.
  induction books as [| b rest IH]; intros cy i; simpl; [reflexivity |].
  rewrite IH. reflexivity.
Qed.

Lemma stack_placements_nth rand cx cz books : forall cy i k b,
  nth_error books k = Some b ->
  exists pl,
    nth_error (stack_placements rand cx cz cy i books) k = Some pl /\
    pl_id pl = id b /\ pl_orient pl = Some flat /\
    px (pl_pos pl) = cx + (rand (i + k)%nat - 0.5) * 0.02 /\
    pz (pl_pos pl) = cz + (rand (i + k)%nat - 0.5) * 0.02 /\
    py (pl_pos pl) == cy + pile_offset 0.002 books k + bookWidth b / 2.
Proof.
  induction books as [| b0 rest IH]; intros cy i k b Hk.
  - destruct k; discriminate Hk.
  - destruct k as [| k]; simpl in Hk.
    + injection Hk as ->. eexists. split; [reflexivity |].
      rewrite Nat.add_0_r. simpl. repeat split. unfold py. simpl. ring.
    + destruct (IH (cy + bookWidth b0 + 0.002) (S i) k b Hk)
        as (pl & H1 & H2 & H3 & H4 & H5 & H6).
      exists pl. split; [exact H1 |].
      rewrite Nat.add_succ_r. simpl in H4, H5.
      repeat split; try assumption.
      rewrite H6. simpl. ring.
Qed.

(** X15. arrangeStack piles the books near the host in their order in the
    furniture list, their identifiers being distinct: the k-th lies flat with
    its centre at host y + 0.02 + the thicknesses of the k books below it
    + 0.002 for each of them + half its own thickness, so each book rests
    0.002 above the one below. Its x and z are the host's centre plus one and
    the same offset (draw - 0.5) * 0.02, within 0.01 of the centre when the
    draw is in [0, 1). *)
Theorem arrangeStack_piles (Math_random : nat -> Q) (st : RoomState)
  (host : FurnitureItem) (k : nat) (book : FurnitureItem) :
  hostFurniture st = Some host ->
  NoDup (map id (getBooksOnFurniture st)) ->
  nth_error (getBooksOnFurniture st) k = Some book ->
  forall f, In f (furniture (arrangeStack Math_random st)) -> id f = id book ->
    orientation f = Some flat /\
    py (position f)
    == py (position host) + 0.02
       + pile_offset 0.002 (getBooksOnFurniture st) k + bookWidth book / 2 /\
    px (position f) = px (position host) + (Math_random k - 0.5) * 0.02 /\
    pz (position f) = pz (position host) + (Math_random k - 0.5) * 0.02 /\
    (0 <= Math_random k -> Math_random k < 1 ->
     - 0.01 <= px (position f) - px (position host) /\
     px (position f) - px (position host) < 0.01).
Proof.
  intros Hh Hnd Hk f Hin Hid.
  assert (Hf : furniture (arrangeStack Math_random st)
               = map (fun g =>
                        fold_left place_entry
                          (stack_placements Math_random (px (position host))
                             (pz (position host)) (py (position host) + 0.02)
                             0 (getBooksOnFurniture st)) g)
                     (furniture st)).
  { unfold arrangeStack. rewrite Hh.
    destruct (getBooksOnFurniture st) as [| b0 rest] eqn:Eb.
    - destruct k; discriminate Hk.
    - cbn [List.length Nat.ltb Nat.leb]. cbv zeta.
      rewrite arrangeStack_loop, place_all_spec. reflexivity. }
  rewrite Hf in Hin. apply in_map_iff in Hin. destruct Hin as (g & <- & _).
  rewrite place_entries_id in Hid.
  destruct (stack_placements_nth Math_random (px (position host))
              (pz (position host)) (getBooksOnFurniture st)
              (py (position host) + 0.02) 0 k book Hk)
    as (pl & H1 & H2 & H3 & H4 & H5 & H6).
  destruct (place_entries_at
              (stack_placements Math_random (px (position host))
                 (pz (position host)) (py (position host) + 0.02) 0
                 (getBooksOnFurniture st)) g k pl) as [Hp Ho];
    [rewrite stack_placements_ids; exact Hnd | exact H1 | congruence |].
  simpl Nat.add in H4, H5.
  rewrite Hp, Ho, H3, H4, H5.
  split; [reflexivity | split; [exact H6 | split; [reflexivity |
    split; [reflexivity |]]]].
  intros R0 R1. split; lra.
Qed.

Lemma arrangeStack_piles_witness :
  hostFurniture shelf_with_books = Some shelf_S /\
  NoDup (map id (getBooksOnFurniture shelf_with_books)) /\
  nth_error (getBooksOnFurniture shelf_with_books) 1
  = Some (book_at "k2" (-0.1) 0 (Some 1.1)) /\
  (forall f, In f (furniture (arrangeStack (fun _ => 0.5) shelf_with_books)) ->
             id f = "k2"%string ->
             orientation f = Some flat /\ py (position f) == 0.0685).
Proof.
  assert (H1 : hostFurniture shelf_with_books = Some shelf_S) by reflexivity.
  assert (H2 : NoDup (map id (getBooksOnFurniture shelf_with_books))).
  { vm_compute. repeat constructor; simpl; intuition discriminate. }
  assert (H3 : nth_error (getBooksOnFurniture shelf_with_books) 1
               = Some (book_at "k2" (-0.1) 0 (Some 1.1))) by reflexivity.
  split; [exact H1 | split; [exact H2 | split; [exact H3 |]]].
  intros f Hin Hid.
  destruct (arrangeStack_piles (fun _ => 0.5) shelf_with_books shelf_S 1
              (book_at "k2" (-0.1) 0 (Some 1.1)) H1 H2 H3 f Hin Hid)
    as (Ho & Hy & _).
  split; [exact Ho | rewrite Hy; reflexivity].
Defined.

Lemma NoDup_id_inj (l : list FurnitureItem) a b :
  NoDup (map id l) -> In a l -> In b l -> id a = id b -> a = b.
Proof.
  induction l as [| c l IH]; intros Hnd Ha Hb E; [destruct Ha |].
  simpl in Hnd. apply NoDup_cons_iff in Hnd. destruct Hnd as [Hc Hnd].
  destruct Ha as [-> | Ha]; destruct Hb as [-> | Hb].
  - reflexivity.
  - exfalso. apply Hc. rewrite E. apply in_map, Hb.
  - exfalso. apply Hc. rewrite <- E. apply in_map, Ha.
  - apply IH; assumption.
Qed.

Lemma entry_eq (a b : FurnitureItem) :
  entry_core a = entry_core b -> position a = position b ->
  orientation a = orientation b -> a = b.
Proof.
  destruct a, b. unfold entry_core. simpl. intros C P O.
  injection C as -> -> -> -> -> -> -> ->. subst. reflexivity.
Qed.

Lemma getBooksOnFurniture_filter st host :
  hostFurniture st = Some host ->
  getBooksOnFurniture st = filter (isBookNear host) (furniture st).
Proof.
  intros H. unfold getBooksOnFurniture. rewrite H. apply filter_ext.
  intros f. unfold isBookNear. destruct (isBookType (type f)); reflexivity.
Qed.

(** X16. alignBooks, on a scene whose identifiers are distinct and with at
    least one book near the host, sets the z of every book-type item near the
    host to the host's z and changes nothing else: those books keep their x
    and y, all other entries are exactly as before. *)
Theorem alignBooks_spec (st : RoomState) (host : FurnitureItem) :
  hostFurniture st = Some host ->
  getBooksOnFurniture st <> [] ->
  NoDup (map id (furniture st)) ->
  furniture (alignBooks st)
  = map (fun f =>
           if isBookType (type f) && nearHost host f
           then with_position f
                  (px (position f), py (position f), pz (position host))
           else f)
        (furniture st).
Proof.
  intros Hh Hne Hnd.
  pose proof (getBooksOnFurniture_filter st host Hh) as Eb.
  assert (Hf : furniture (alignBooks st)
               = map (fun g =>
                        fold_left place_entry
                          (align_placements (pz (position host))
                             (getBooksOnFurniture st)) g)
                     (furniture st)).
  { unfold alignBooks. rewrite Hh.
    destruct (getBooksOnFurniture st) as [| b0 rest]; [congruence |].
    cbn [List.length Nat.ltb Nat.leb]. cbv zeta.
    rewrite alignBooks_loop, place_all_spec. reflexivity. }
  rewrite Hf. apply map_ext_in. intros f Hin.
  fold (isBookNear host f).
  assert (Hids : map pl_id (align_placements (pz (position host))
                              (getBooksOnFurniture st))
                 = map id (getBooksOnFurniture st)).
  { unfold align_placements. rewrite map_map. reflexivity. }
  destruct (isBookNear host f) eqn:Ec.
  - assert (Hb : In f (getBooksOnFurniture st)).
    { rewrite Eb. apply filter_In. auto. }
    apply In_nth_error in Hb. destruct Hb as (k & Hk).
    destruct (place_entries_at
                (align_placements (pz (position host))
                   (getBooksOnFurniture st)) f k
                {| pl_id := id f;
                   pl_pos := (px (position f), py (position f),
                              pz (position host));
                   pl_orient := None |}) as [Hp Ho].
    + rewrite Hids, Eb.
      clear - Hnd. induction (furniture st) as [| c l IH]; simpl; [constructor |].
      simpl in Hnd. apply NoDup_cons_iff in Hnd. destruct Hnd as [Hc Hnd].
      destruct (isBookNear host c); [| apply IH, Hnd].
      simpl. constructor; [| apply IH, Hnd].
      intros N. apply Hc. apply in_map_iff in N.
      destruct N as (x & Ex & Hx). apply filter_In in Hx.
      rewrite <- Ex. apply in_map, Hx.
    + unfold align_placements. rewrite nth_error_map, Hk. reflexivity.
    + reflexivity.
    + apply entry_eq.
      * rewrite place_entries_core. reflexivity.
      * rewrite Hp. reflexivity.
      * rewrite Ho. reflexivity.
  - apply place_entries_other. rewrite Hids. intros N.
    apply in_map_iff in N. destruct N as (b & Eid & Hb).
    rewrite Eb in Hb. apply filter_In in Hb. destruct Hb as [Hb1 Hb2].
    assert (b = f) by (apply (NoDup_id_inj (furniture st)); assumption).
    subst b. congruence.
Qed.

Lemma alignBooks_spec_witness :
  hostFurniture shelf_with_books = Some shelf_S /\
  getBooksOnFurniture shelf_with_books <> [] /\
  NoDup (map id (furniture shelf_with_books)) /\
  map position (furniture (alignBooks shelf_with_books))
  = [(0, 0, 0); (0.2, 0.4, 0); (-0.1, 0.4, 0); (0, 0.4, 0); (0.3, 0.4, 0);
     (-0.3, 0.4, 0)].
Proof.
  assert (H1 : hostFurniture shelf_with_books = Some shelf_S) by reflexivity.
  assert (H2 : getBooksOnFurniture shelf_with_books <> []) by discriminate.
  assert (H3 : NoDup (map id (furniture shelf_with_books))).
  { vm_compute. repeat constructor; simpl; intuition discriminate. }
  split; [exact H1 | split; [exact H2 | split; [exact H3 |]]].
  rewrite (alignBooks_spec shelf_with_books shelf_S H1 H2 H3). reflexivity.
Defined.

Lemma insert_by_x_perm b l : Permutation (b :: l) (insert_by_x b l).
Proof.
  induction l as [| c l IH]; simpl; [apply Permutation_refl |].
  destruct (Qle_bool (px (position b)) (px (position c))).
  - apply Permutation_refl.
  - apply perm_trans with (c :: b :: l); [apply perm_swap |].
    apply perm_skip, IH.
Qed.

Lemma sort_by_x_perm l : Permutation l (sort_by_x l).
Proof.
  induction l as [| b l IH]; simpl; [apply perm_nil |].
  apply perm_trans with (b :: sort_by_x l); [apply perm_skip, IH |].
  apply insert_by_x_perm.
Qed.

Lemma insert_by_x_sorted b l :
  Sorted le_x l -> Sorted le_x (insert_by_x b l).
Proof.
  induction l as [| c l IH]; intros H; simpl.
  - repeat constructor.
  - destruct (Qle_bool (px (position b)) (px (position c))) eqn:E.
    + constructor; [exact H |]. constructor. apply Qle_bool_iff, E.
    + inversion H as [| ? ? Hs Hh]; subst.
      constructor; [apply IH, Hs |].
      assert (Hcb : le_x c b).
      { unfold le_x. apply Qlt_le_weak, Qnot_le_lt. intros L.
        apply Qle_bool_iff in L. congruence. }
      destruct l as [| d l]; simpl.
      * constructor. exact Hcb.
      * destruct (Qle_bool (px (position b)) (px (position d)));
          constructor; [exact Hcb |].
        inversion Hh; assumption.
Qed.

Lemma sort_by_x_sorted l : Sorted le_x (sort_by_x l).
Proof.
  induction l as [| b l IH]; simpl; [constructor |].
  apply insert_by_x_sorted, IH.
Qed.

Lemma space_placements_ids minX spacing sorted : forall i,
  map pl_id (space_placements minX spacing i sorted) = map id sorted.
Proof.
  induction sorted as [| b rest IH]; intros i; simpl; [reflexivity |].
  rewrite IH. reflexivity.
Qed.

Lemma space_placements_nth minX spacing sorted : forall i k b,
  nth_error sorted k = Some b ->
  nth_error (space_placements minX spacing i sorted) k
  = Some {| pl_id := id b;
            pl_pos := (minX + inject_Z (Z.of_nat (i + k)) * spacing,
                       py (position b), pz (position b));
            pl_orient := None |}.
Proof.
  induction sorted as [| b0 rest IH]; intros i k b Hk.
  - destruct k; discriminate Hk.
  - destruct k as [| k]; simpl in Hk.
    + injection Hk as ->. rewrite Nat.add_0_r. reflexivity.
    + simpl. rewrite (IH (S i) k b Hk), Nat.add_succ_r. reflexivity.
Qed.

(** X17. spaceEvenly does nothing with fewer than two books near the
    host. Otherwise, their identifiers being distinct, it takes the books in
    the order of their x (equal x: order in the furniture list) and gives the
    k-th of them x = minX + k * spacing with its y and z unchanged, where
    minX and maxX are the host's left and right edges moved in by 0.05 and
    spacing is (maxX - minX) / (n - 1): the first book lands on minX, the
    last on maxX. *)
Theorem spaceEvenly_spec (st : RoomState) (host : FurnitureItem) :
  let books := getBooksOnFurniture st in
  let sorted := sort_by_x books in
  let minX := px (position host) - width (dimensions host) / 2 + 0.05 in
  let maxX := px (position host) + width (dimensions host) / 2 - 0.05 in
  let spacing :=
    (maxX - minX) / (inject_Z (Z.of_nat (List.length sorted)) - 1) in
  ((List.length books < 2)%nat -> spaceEvenly st = st) /\
  Permutation books sorted /\
  Sorted le_x sorted /\
  (hostFurniture st = Some host ->
   (2 <= List.length books)%nat ->
   NoDup (map id books) ->
   forall k b, nth_error sorted k = Some b ->
   forall f, In f (furniture (spaceEvenly st)) -> id f = id b ->
     position f
     = (minX + inject_Z (Z.of_nat k) * spacing, py (position b),
        pz (position b)) /\
     (k = 0%nat -> px (position f) == minX) /\
     (S k = List.length books -> px (position f) == maxX)).
Proof.
  intros books sorted minX maxX spacing.
  split; [| split; [apply sort_by_x_perm | split; [apply sort_by_x_sorted |]]].
  - intros Hl. unfold spaceEvenly. fold books.
    destruct (hostFurniture st); [| reflexivity].
    apply Nat.ltb_lt in Hl. rewrite Hl. reflexivity.
  - intros Hh Hl Hnd k b Hk f Hin Hid.
    assert (Hlen : List.length sorted = List.length books).
    { symmetry. apply Permutation_length, sort_by_x_perm. }
    assert (Hf : furniture (spaceEvenly st)
                 = map (fun g =>
                          fold_left place_entry
                            (space_placements minX spacing 0 sorted) g)
                       (furniture st)).
    { unfold spaceEvenly. rewrite Hh. fold books.
      apply Nat.ltb_ge in Hl. rewrite Hl. cbv zeta.
      rewrite spaceEvenly_loop, place_all_spec. reflexivity. }
    rewrite Hf in Hin. apply in_map_iff in Hin. destruct Hin as (g & <- & _).
    rewrite place_entries_id in Hid.
    destruct (place_entries_at (space_placements minX spacing 0 sorted) g k
                {| pl_id := id b;
                   pl_pos := (minX + inject_Z (Z.of_nat k) * spacing,
                              py (position b), pz (position b));
                   pl_orient := None |}) as [Hp _].
    + rewrite space_placements_ids.
      apply (Permutation_NoDup (Permutation_map id (sort_by_x_perm books))).
      exact Hnd.
    + rewrite (space_placements_nth minX spacing sorted 0 k b Hk).
      reflexivity.
    + exact Hid.
    + rewrite Hp. split; [reflexivity |]. unfold px. simpl. split.
      * intros ->. change (inject_Z (Z.of_nat 0)) with 0. ring.
      * intros Hk1. unfold spacing. rewrite Hlen, <- Hk1.
        rewrite Nat2Z.inj_succ, <- Z.add_1_r, inject_Z_plus.
        change (inject_Z 1) with 1.
        assert (Hpos : 0 < inject_Z (Z.of_nat k)).
        { change 0 with (inject_Z 0). rewrite <- Zlt_Qlt. lia. }
        field. intros E. lra.
Qed.

Lemma spaceEvenly_spec_witness :
  hostFurniture shelf_with_books = Some shelf_S /\
  (2 <= List.length (getBooksOnFurniture shelf_with_books))%nat /\
  NoDup (map id (getBooksOnFurniture shelf_with_books)) /\
  map id (sort_by_x (getBooksOnFurniture shelf_with_books))
  = ["k5"; "k2"; "k3"; "k1"; "k4"]%string /\
  (forall f, In f (furniture (spaceEvenly shelf_with_books)) ->
             id f = "k4"%string -> px (position f) == 0.35).
Proof.
  assert (H1 : hostFurniture shelf_with_books = Some shelf_S) by reflexivity.
  assert (H2 : (2 <= List.length (getBooksOnFurniture shelf_with_books))%nat)
    by (simpl; lia).
  assert (H3 : NoDup (map id (getBooksOnFurniture shelf_with_books))).
  { vm_compute. repeat constructor; simpl; intuition discriminate. }
  split; [exact H1 | split; [exact H2 | split; [exact H3 |]]].
  split; [reflexivity |].
  intros f Hin Hid.
  destruct (proj2 (proj2 (proj2 (spaceEvenly_spec shelf_with_books shelf_S)))
              H1 H2 H3 4%nat (book_at "k4" 0.3 (-0.05) None) eq_refl f Hin Hid)
    as (_ & _ & Hlast).
  rewrite (Hlast eq_refl). reflexivity.
Defined.

Lemma shrine_placements_ids baseY centerZ flanks : forall leftX rightX i,
  map pl_id (shrine_placements baseY centerZ leftX rightX i flanks)
  = map id flanks.
Proof.
  induction flanks as [| b rest IH]; intros leftX rightX i; simpl;
    [reflexivity |].
  destruct (Nat.even i); simpl; rewrite IH; reflexivity.
Qed.

Lemma shrine_placements_nth baseY centerZ flanks : forall leftX rightX i j b,
  nth_error flanks j = Some b ->
  exists pl,
    nth_error (shrine_placements baseY centerZ leftX rightX i flanks) j
    = Some pl /\
    pl_id pl = id b /\ pl_orient pl = Some upright /\
    py (pl_pos pl) = baseY /\ pz (pl_pos pl) = centerZ /\
    ((forall c, In c flanks -> 0 <= bookWidth c) ->
     if Nat.even (i + j)
     then px (pl_pos pl) + bookWidth b / 2 <= leftX
     else rightX <= px (pl_pos pl) - bookWidth b / 2).
Proof.
  induction flanks as [| b0 rest IH]; intros leftX rightX i j b Hj.
  - destruct j; discriminate Hj.
  - destruct j as [| j]; simpl in Hj.
    + injection Hj as ->. rewrite Nat.add_0_r. simpl.
      destruct (Nat.even i); eexists; (split; [reflexivity |]);
        repeat split; intros _; unfold px; simpl; lra.
    + rewrite Nat.add_succ_r. simpl shrine_placements.
      destruct (Nat.even i) eqn:Ei.
      * destruct (IH (leftX - (bookWidth b0 + 0.002)) rightX (S i) j b Hj)
          as (pl & H1 & H2 & H3 & H4 & H5 & H6).
        exists pl. split; [exact H1 |]. repeat split; try assumption.
        intros Hw. simpl Nat.add in H6.
        assert (H0 : 0 <= bookWidth b0) by (apply Hw; left; reflexivity).
        specialize (H6 (fun c Hc => Hw c (or_intror Hc))).
        destruct (Nat.even (S (i + j))); lra.
      * destruct (IH leftX (rightX + (bookWidth b0 + 0.002)) (S i) j b Hj)
          as (pl & H1 & H2 & H3 & H4 & H5 & H6).
        exists pl. split; [exact H1 |]. repeat split; try assumption.
        intros Hw. simpl Nat.add in H6.
        assert (H0 : 0 <= bookWidth b0) by (apply Hw; left; reflexivity).
        specialize (H6 (fun c Hc => Hw c (or_intror Hc))).
        destruct (Nat.even (S (i + j))); lra.
Qed.

(** X18. arrangeShrine uses at most 11 items, the first book or manga
    items near the host (book stacks are left out), their identifiers being
    distinct. The first becomes the centrepiece: face-out at the host's x,
    0.03 above the host's y and 0.02 in front of its z. Every other one
    stands upright at host y + 0.02 and the host's z, the 1st, 3rd, ... of
    them to the left and the 2nd, 4th, ... to the right of the centrepiece,
    entirely outside the centrepiece's width plus 0.008 on its side when
    thicknesses are not negative. Entries with other identifiers are
    untouched. *)
Theorem arrangeShrine_spec (st : RoomState) (host center : FurnitureItem) :
  let books := firstn 11 (filter isBasicBook (getBooksOnFurniture st)) in
  let half := width (dimensions center) * num_or (sizeVariant center) 1 / 2 in
  hostFurniture st = Some host ->
  nth_error books 0 = Some center ->
  NoDup (map id books) ->
  (List.length books <= 11)%nat /\
  (forall f, In f (furniture (arrangeShrine st)) -> id f = id center ->
     position f
     = (px (position host), py (position host) + 0.02 + 0.01,
        pz (position host) + 0.02) /\
     orientation f = Some faceout) /\
  (forall j b, nth_error books (S j) = Some b ->
   forall f, In f (furniture (arrangeShrine st)) -> id f = id b ->
     orientation f = Some upright /\
     py (position f) = py (position host) + 0.02 /\
     pz (position f) = pz (position host) /\
     ((forall c, In c books -> 0 <= bookWidth c) ->
      if Nat.even j
      then px (position f) + bookWidth b / 2
           <= px (position host) - half - 0.008
      else px (position host) + half + 0.008
           <= px (position f) - bookWidth b / 2)) /\
  (forall f, In f (furniture st) -> ~ In (id f) (map id books) ->
     In f (furniture (arrangeShrine st))).
Proof.
  intros books half Hh Hc Hnd.
  split; [apply firstn_le_length |].
  destruct books as [| c flanks] eqn:Eb; [discriminate Hc |].
  simpl in Hc. injection Hc as ->.
  set (baseY := py (position host) + 0.02) in *.
  set (pls :=
         {| pl_id := id center;
            pl_pos := (px (position host), baseY + 0.01,
                       pz (position host) + 0.02);
            pl_orient := Some faceout |}
         :: shrine_placements baseY (pz (position host))
              (px (position host) - half - 0.008)
              (px (position host) + half + 0.008) 0 flanks).
  assert (Hf : furniture (arrangeShrine st)
               = map (fun g => fold_left place_entry pls g) (furniture st)).
  { unfold arrangeShrine. rewrite Hh. fold books. rewrite Eb. cbv zeta.
    rewrite arrangeShrine_loop.
    change (furniture (place_all pls (saveForUndo st))
            = map (fun g => fold_left place_entry pls g) (furniture st)).
    rewrite place_all_spec. reflexivity. }
  assert (Hids : map pl_id pls = map id (center :: flanks)).
  { unfold pls. simpl. rewrite shrine_placements_ids. reflexivity. }
  assert (Hnd' : NoDup (map pl_id pls)) by (rewrite Hids; exact Hnd).
  split; [| split].
  - intros f Hin Hid. rewrite Hf in Hin. apply in_map_iff in Hin.
    destruct Hin as (g & <- & _). rewrite place_entries_id in Hid.
    destruct (place_entries_at pls g 0 _ Hnd' eq_refl Hid) as [Hp Ho].
    rewrite Hp, Ho. split; reflexivity.
  - intros j b Hj f Hin Hid. rewrite Hf in Hin. apply in_map_iff in Hin.
    destruct Hin as (g & <- & _). rewrite place_entries_id in Hid.
    simpl in Hj.
    destruct (shrine_placements_nth baseY (pz (position host)) flanks
                (px (position host) - half - 0.008)
                (px (position host) + half + 0.008) 0 j b Hj)
      as (pl & H1 & H2 & H3 & H4 & H5 & H6).
    destruct (place_entries_at pls g (S j) pl Hnd' H1) as [Hp Ho];
      [congruence |].
    rewrite Hp, Ho, H3. repeat split; try assumption.
    intros Hw. simpl Nat.add in H6.
    apply H6. intros x Hx. apply Hw. right. exact Hx.
  - intros f Hin Hn. rewrite Hf.
    rewrite <- (place_entries_other pls f) at 1.
    + apply in_map with (f := fun g => fold_left place_entry pls g). exact Hin.
    + rewrite Hids. exact Hn.
Qed.

Lemma arrangeShrine_spec_witness :
  hostFurniture shelf_with_books = Some shelf_S /\
  nth_error (firstn 11 (filter isBasicBook
                          (getBooksOnFurniture shelf_with_books))) 0
  = Some (book_at "k1" 0.2 0.05 None) /\
  NoDup (map id (firstn 11 (filter isBasicBook
                              (getBooksOnFurniture shelf_with_books)))) /\
  (forall f, In f (furniture (arrangeShrine shelf_with_books)) ->
             id f = "k1"%string ->
             position f = (0, 0 + 0.02 + 0.01, 0 + 0.02) /\
             orientation f = Some faceout).
Proof.
  assert (H1 : hostFurniture shelf_with_books = Some shelf_S) by reflexivity.
  assert (H2 : nth_error (firstn 11 (filter isBasicBook
                            (getBooksOnFurniture shelf_with_books))) 0
               = Some (book_at "k1" 0.2 0.05 None)) by reflexivity.
  assert (H3 : NoDup (map id (firstn 11 (filter isBasicBook
                            (getBooksOnFurniture shelf_with_books))))).
  { vm_compute. repeat constructor; simpl; intuition discriminate. }
  split; [exact H1 | split; [exact H2 | split; [exact H3 |]]].
  exact (proj1 (proj2 (arrangeShrine_spec shelf_with_books shelf_S
                         (book_at "k1" 0.2 0.05 None) H1 H2 H3))).
Defined.

(** * Dropping a palette item *)

Lemma nearest_fold clickedY all : forall best,
  snd best = Math_abs (clickedY - fst best) ->
  let r := fold_left (nearest_step clickedY) all best in
  snd r = Math_abs (clickedY - fst r) /\
  (fst r = fst best \/ In (fst r) all) /\
  snd r <= snd best /\
  (forall s, In s all -> snd r <= Math_abs (clickedY - s)).
Proof.
  induction all as [| s0 all IH]; intros best Hb; simpl.
  - split; [exact Hb | split; [left; reflexivity |
      split; [apply Qle_refl | intros s []]]].
  - assert (Hb1 : snd (nearest_step clickedY best s0)
                  = Math_abs (clickedY - fst (nearest_step clickedY best s0))).
    { unfold nearest_step.
      destruct (ltb (Math_abs (clickedY - s0)) (snd best)); simpl; auto. }
    assert (Hle : snd (nearest_step clickedY best s0) <= snd best /\
                  snd (nearest_step clickedY best s0)
                  <= Math_abs (clickedY - s0)).
    { unfold nearest_step.
      destruct (ltb (Math_abs (clickedY - s0)) (snd best)) eqn:E; cbn [fst snd].
      - apply ltb_lt in E. split; [apply Qlt_le_weak, E | apply Qle_refl].
      - split; [apply Qle_refl |].
        apply Qnot_lt_le. intros L.
        apply (proj2 (ltb_lt _ _)) in L. rewrite E in L. discriminate L. }
    assert (Hin : fst (nearest_step clickedY best s0) = fst best \/
                  fst (nearest_step clickedY best s0) = s0).
    { unfold nearest_step.
      destruct (ltb (Math_abs (clickedY - s0)) (snd best)); simpl; auto. }
    destruct (IH (nearest_step clickedY best s0) Hb1) as (R1 & R2 & R3 & R4).
    destruct Hle as [L1 L2].
    split; [exact R1 |]. split; [| split].
    + destruct R2 as [R2 | R2]; [| auto].
      rewrite R2. destruct Hin as [-> | ->]; auto.
    + eapply Qle_trans; [exact R3 | exact L1].
    + intros s [<- | Hs]; [| apply R4, Hs].
      eapply Qle_trans; [exact R3 | exact L2].
Qed.

(** X19. handleDrop does nothing without a dragged palette item, without a
    host, without the scene's camera and renderer, or for a type the
    catalog does not know. Otherwise it appends exactly one item of the
    dragged type, unrotated, with the catalog's dimensions, and takes no
    snapshot. The item's y is one of the host's surfaces (just above its
    bottom, and four shelf levels or the top) and none of them is closer to
    the height aimed at; its x and z lie within the host's nominal width and
    depth, 0.05 in from the edges, when the host is at least 0.1 wide and
    deep. *)
Theorem handleDrop_spec (catalog : FurnitureType -> option CatalogEntry)
  (draggingItem : option FurnitureType) (ready : bool) (clickedY : Q)
  (dropPoint : Q -> Q * Q) (newId randomSpine : string) (randomVariant : Q)
  (st : RoomState) :
  let st' := handleDrop catalog draggingItem ready clickedY dropPoint newId
               randomSpine randomVariant st in
  (draggingItem = None \/ draggingItem = Some ""%string \/
   hostFurniture st = None \/ ready = false ->
   st' = st) /\
  (forall t, draggingItem = Some t -> catalog t = None -> st' = st) /\
  undoStack st' = undoStack st /\
  (forall t host entry,
     draggingItem = Some t -> t <> ""%string -> ready = true ->
     hostFurniture st = Some host -> catalog t = Some entry ->
     exists item,
       furniture st' = furniture st ++ [item] /\
       id item = newId /\ type item = t /\ rotation item = 0 /\
       dimensions item = cat_dimensions entry /\
       In (py (position item)) (surfaces host) /\
       (forall s, In s (surfaces host) ->
          Math_abs (clickedY - py (position item)) <= Math_abs (clickedY - s)) /\
       (0.1 <= width (dimensions host) ->
        px (position host) - width (dimensions host) / 2 + 0.05
        <= px (position item) /\
        px (position item)
        <= px (position host) + width (dimensions host) / 2 - 0.05) /\
       (0.1 <= depth (dimensions host) ->
        pz (position host) - depth (dimensions host) / 2 + 0.05
        <= pz (position item) /\
        pz (position item)
        <= pz (position host) + depth (dimensions host) / 2 - 0.05)).
Proof.
  intros st'. unfold st', handleDrop. split; [| split; [| split]].
  - intros [-> | [-> | [H | ->]]].
    + reflexivity.
    + destruct (hostFurniture st); reflexivity.
    + rewrite H. destruct draggingItem; reflexivity.
    + destruct draggingItem as [t |]; [| reflexivity].
      destruct (hostFurniture st); [| reflexivity].
      simpl negb. rewrite orb_true_r. reflexivity.
  - intros t -> Hc. destruct (hostFurniture st); [| reflexivity].
    rewrite Hc. destruct (_ || _); reflexivity.
  - destruct draggingItem as [t |]; [| reflexivity].
    destruct (hostFurniture st); [| reflexivity].
    destruct (_ || _); [reflexivity |].
    destruct (catalog t); [| reflexivity].
    unfold addFurniture. simpl. destruct (isBookType t); reflexivity.
  - intros t host entry -> Hne -> Hh Hc. rewrite Hh, Hc.
    apply String.eqb_neq in Hne. rewrite Hne. simpl orb. cbv iota.
    set (p := dropPosition host clickedY dropPoint).
    assert (Hy : In (py p) (surfaces host) /\
                 forall s, In s (surfaces host) ->
                   Math_abs (clickedY - py p) <= Math_abs (clickedY - s)).
    { assert (Ey : py p
                   = fst (fold_left (nearest_step clickedY) (surfaces host)
                            (py (position host) + 0.02,
                             Math_abs (clickedY - (py (position host) + 0.02)))))
        by reflexivity.
      rewrite Ey.
      destruct (nearest_fold clickedY (surfaces host)
                  (py (position host) + 0.02,
                   Math_abs (clickedY - (py (position host) + 0.02)))
                  eq_refl) as (R1 & R2 & _ & R4).
      split.
      - destruct R2 as [R2 | R2]; [| exact R2].
        rewrite R2. left. reflexivity.
      - intros s Hs. rewrite <- R1. apply R4, Hs. }
    assert (Hx : 0.1 <= width (dimensions host) ->
                 px (position host) - width (dimensions host) / 2 + 0.05
                 <= px p /\
                 px p <= px (position host) + width (dimensions host) / 2 - 0.05).
    { intros Hw.
      assert (Ex : px p
                   = Math_max
                       (px (position host) - (width (dimensions host) / 2 - 0.05))
                       (Math_min
                          (px (position host)
                           + (width (dimensions host) / 2 - 0.05))
                          (fst (dropPoint (py p))))) by reflexivity.
      rewrite Ex.
      match goal with
      | |- _ <= Math_max ?lo (Math_min ?hi ?x) /\ _ =>
          destruct (clamp_between lo hi x) as [C1 C2]; [halves; lra |];
          generalize dependent (Math_max lo (Math_min hi x))
      end.
      intros c _ C1 C2. halves. split; lra. }
    assert (Hz : 0.1 <= depth (dimensions host) ->
                 pz (position host) - depth (dimensions host) / 2 + 0.05
                 <= pz p /\
                 pz p <= pz (position host) + depth (dimensions host) / 2 - 0.05).
    { intros Hw.
      assert (Ez : pz p
                   = Math_max
                       (pz (position host) - (depth (dimensions host) / 2 - 0.05))
                       (Math_min
                          (pz (position host)
                           + (depth (dimensions host) / 2 - 0.05))
                          (snd (dropPoint (py p))))) by reflexivity.
      rewrite Ez.
      match goal with
      | |- _ <= Math_max ?lo (Math_min ?hi ?x) /\ _ =>
          destruct (clamp_between lo hi x) as [C1 C2]; [halves; lra |];
          generalize dependent (Math_max lo (Math_min hi x))
      end.
      intros c _ C1 C2. halves. split; lra. }
    unfold addFurniture. simpl. destruct (isBookType t); simpl;
      eexists; (split; [reflexivity |]); simpl;
      repeat split; try apply Hy; try apply Hx; try apply Hz; assumption.
Qed.

Lemma handleDrop_spec_witness :
  hostFurniture shelf_with_books = Some shelf_S /\
  book_catalog "book"%string
  = Some {| cat_name := "Book"%string;
            cat_dimensions := {| width := 0.15; height := 0.22; depth := 0.03 |};
            cat_defaultColor := "#8B4513"%string |} /\
  exists item,
    furniture (handleDrop book_catalog (Some "book"%string) true 0.7
                 (fun _ => (5, 0)) "k6" "#1a1a2e" 1 shelf_with_books)
    = furniture shelf_with_books ++ [item] /\
    In (py (position item)) (surfaces shelf_S).
Proof.
  assert (H1 : hostFurniture shelf_with_books = Some shelf_S) by reflexivity.
  assert (H2 : book_catalog "book"%string
               = Some {| cat_name := "Book"%string;
                         cat_dimensions := {| width := 0.15; height := 0.22;
                                              depth := 0.03 |};
                         cat_defaultColor := "#8B4513"%string |}) by reflexivity.
  assert (N : "book"%string <> ""%string) by discriminate.
  split; [exact H1 | split; [exact H2 |]].
  destruct (proj2 (proj2 (proj2
              (handleDrop_spec book_catalog (Some "book"%string) true 0.7
                 (fun _ => (5, 0)) "k6" "#1a1a2e" 1 shelf_with_books)))
              "book"%string shelf_S _ eq_refl N eq_refl H1 H2)
    as (item & Hf & _ & _ & _ & _ & Hy & _).
  exists item. split; [exact Hf | exact Hy].
Defined.

(** The drop of the example lands on the second shelf level, 0.6, at the
    right end of the allowed width. *)
Example handleDrop_on_shelf :
  map (fun f => (id f, Qred (px (position f)), Qred (py (position f)),
                 orientation f))
      (skipn 6 (furniture (handleDrop book_catalog (Some "book"%string) true 0.7
                             (fun _ => (5, 0)) "k6" "#1a1a2e" 1
                             shelf_with_books)))
  = [("k6"%string, Qred 0.35, Qred 0.6, Some upright)].
Proof. vm_compute. reflexivity. Qed.

(** * The palette and the collision check *)

Lemma SMALL_ITEMS_small t : In t SMALL_ITEMS -> isSmallItem t = true.
Proof.
  unfold SMALL_ITEMS. simpl.
  intros H. repeat (destruct H as [<- | H]; [reflexivity |]). destruct H.
Qed.

Section Palette.
Variable M : JsMath.

(** X20. Everything the detail editor's palette offers is small-class for
    the collision check, and nothing that can host the detail editor is. So
    in detail-edit mode, when every other item of the scene is the host or
    came from the palette, no position of a palette item is ever rejected. *)
Theorem palette_items_never_collide (st : RoomState) (item : FurnitureItem)
  (x y z : Q) :
  (forall t, In t SMALL_ITEMS -> isSmallItem t = true) /\
  (forall t, isLargeFurniture t = true -> isSmallItem t = false) /\
  (In (type item) SMALL_ITEMS ->
   (forall other, In other (furniture st) ->
      detailModeTarget st = Some (id other) \/ In (type other) SMALL_ITEMS) ->
   checkCollision M st item x y z = false).
Proof.
  split; [exact SMALL_ITEMS_small | split].
  - intros t H. unfold isLargeFurniture, largeTypes in H.
    apply existsb_exists in H. destruct H as (u & Hu & E).
    apply String.eqb_eq in E. subst u. simpl in Hu.
    repeat (destruct Hu as [<- | Hu]; [reflexivity |]). destruct Hu.
  - intros Hi Ho. destruct (checkCollision M st item x y z) eqn:E;
      [| reflexivity].
    unfold checkCollision in E. apply collision_loop_spec in E.
    destruct E as (o & Hin & He & _). unfold eligible in He.
    rewrite !andb_true_iff, !negb_true_iff in He.
    destruct He as ((_ & Ht) & Hs).
    destruct (Ho o Hin) as [Hd | Hsm].
    + unfold is_detail_target in Ht. rewrite Hd, String.eqb_refl in Ht.
      discriminate Ht.
    + rewrite (SMALL_ITEMS_small _ Hi), (SMALL_ITEMS_small _ Hsm) in Hs.
      discriminate Hs.
Qed.

End Palette.

Lemma palette_items_never_collide_witness :
  In (type (book_at "k1" 0.2 0.05 None)) SMALL_ITEMS /\
  checkCollision example_math shelf_with_books (book_at "k1" 0.2 0.05 None)
    0 0.4 0 = false.
Proof.
  assert (H : In (type (book_at "k1" 0.2 0.05 None)) SMALL_ITEMS)
    by (left; reflexivity).
  split; [exact H |].
  apply (proj2 (proj2 (palette_items_never_collide example_math
                         shelf_with_books (book_at "k1" 0.2 0.05 None)
                         0 0.4 0)) H).
  intros other Hin. simpl in Hin.
  destruct Hin as [<- | Hin]; [left; reflexivity |].
  right. repeat (destruct Hin as [<- | Hin]; [left; reflexivity |]).
  destruct Hin.
Defined.

(** * The tilt animation *)

Lemma lerp_between b x y t :
  0 <= t -> t <= 1 -> - b <= x -> x <= b -> - b <= y -> y <= b ->
  - b <= MathUtils_lerp x y t /\ MathUtils_lerp x y t <= b.
Proof.
  intros T0 T1 X0 X1 Y0 Y1. unfold MathUtils_lerp. split; nra.
Qed.

(** X21. With a positive frame time, the tilt shown while dragging stays
    within 0.3 radians on both axes however far the item moved between two
    frames, and the clamped velocity within 5; when the item is not dragged
    each frame multiplies both tilt angles by 0.88, so the tilt dies away,
    and resets the velocity to zero. *)
Theorem tilt_is_bounded (dragging : bool) (item : FurnitureItem) (delta : Q)
  (r : TiltRefs) :
  0 < delta ->
  let r' := tiltFrame dragging item delta r in
  (tilt_within 0.3 r -> tilt_within 0.3 r') /\
  (dragging = true ->
   (- (5) <= fst (velocity r') /\ fst (velocity r') <= 5) /\
   (- (5) <= snd (velocity r') /\ snd (velocity r') <= 5)) /\
  (dragging = false ->
   fst (tilt r') == 0.88 * fst (tilt r) /\
   snd (tilt r') == 0.88 * snd (tilt r) /\
   velocity r' = (0, 0) /\ lastPos r' = lastPos r).
Proof.
  intros _ r'. unfold r', tiltFrame, tilt_within.
  destruct dragging; cbv zeta; simpl tilt; simpl velocity; simpl lastPos;
    cbn [fst snd].
  - set (vx := MathUtils_clamp _ (- (5)) 5).
    set (vz := MathUtils_clamp _ (- (5)) 5).
    assert (Vx : - (5) <= vx /\ vx <= 5)
      by (apply clamp_between; discriminate).
    assert (Vz : - (5) <= vz /\ vz <= 5)
      by (apply clamp_between; discriminate).
    clearbody vx vz. split; [| split; [auto | discriminate]].
    intros ((A1 & A2) & (B1 & B2)).
    split; apply lerp_between; try assumption; try discriminate; lra.
  - split; [| split; [discriminate |]].
    + intros ((A1 & A2) & (B1 & B2)).
      split; apply lerp_between; try assumption; try discriminate; lra.
    + intros _. unfold MathUtils_lerp. repeat split; ring.
Qed.

Lemma tilt_is_bounded_witness :
  let r := {| velocity := (0, 0); lastPos := (0, 0); tilt := (0.3, -0.1) |} in
  0 < 0.016 /\
  tilt_within 0.3 r /\
  tilt_within 0.3 (tiltFrame true desk_B 0.016 r) /\
  fst (tilt (tiltFrame false desk_B 0.016 r)) == 0.88 * 0.3.
Proof.
  intros r.
  assert (D : 0 < 0.016) by reflexivity.
  assert (H : tilt_within 0.3 r) by (repeat split; qle).
  split; [exact D | split; [exact H | split]].
  - exact (proj1 (tilt_is_bounded true desk_B 0.016 r D) H).
  - exact (proj1 (proj2 (proj2 (tilt_is_bounded false desk_B 0.016 r D))
                    eq_refl)).
Defined.
